(** * Study analytics aggregation engine: a shallow embedding and its properties

    The development embeds the two analytics services of the learning
    platform prototype,

    - [Lambda]: [backend/apis/analytics/lambda/src/services/analytics_service.py]
      and [.../dynamodb_service.py] (sessions are [StudySession] objects), and
    - [Backend]: [backend/src/services/analytics_service.py] (sessions are
      plain dictionaries),

    and states the properties of the aggregation engine over them.

    Conventions of the embedding.
    - A Python [int] is a [Z]; [len] is [Z.of_nat (length _)].
    - A [datetime.date] is its proleptic Gregorian ordinal
      ([date.toordinal()]), so [d - timedelta(days=k)] is [d - k]; the
      calendar fields are recovered with [_ord2ymd], transcribed from the
      [datetime] module.
    - A Python [float] is idealised as an exact rational [Q]; the only
      irrational operation of the source, [x ** 0.5], is a section
      variable [pow_half].
    - A [datetime] is the reading of its own clock in whole seconds
      and, when it is aware, its UTC offset; comparing an aware with a
      naive one is the [TypeError] of Python.
    - A number read from the table is a [decimal.Decimal]; the session
      model of the lambda turns it into an [int], the backend passes it
      on, and a session dictionary of the backend records whether its
      duration is one, for the operations that a [Decimal] does not
      support.
    - An exception is a value of [exn]; fallible code returns [result].
    - A [dict] whose iteration order is observable is an association list
      in insertion order; a [defaultdict] that is only looked up is a
      [gmap]; a [set] of dates is a [gset Z]. *)

From Stdlib Require Import ZArith QArith Qminmax Qround Lia Lqa String Ascii List Permutation Sorted.
From stdpp Require Import gmap strings pretty list fin_maps fin_sets.
Import ListNotations.
Open Scope Z_scope.

(** ** Numbers *)

Module Numeric.

(** [sum(xs)] over integers. *)
Definition sum (xs : list Z) : Z := foldr Z.add 0 xs.

(** [len(xs)]. *)
Definition len {A} (xs : list A) : Z := Z.of_nat (length xs).

(** Nearest integer, ties to the even neighbour. *)
Definition round_half_even (q : Q) : Z :=
  let n := Qnum q in
  let d := Z.pos (Qden q) in
  let f := n / d in
  let r := n mod d in
  match 2 * r ?= d with
  | Lt => f
  | Gt => f + 1
  | Eq => if Z.even f then f else f + 1
  end.

(** [round(x, 1)]. *)
Definition round1 (q : Q) : Q :=
  Qred (Qmake (round_half_even (q * 10)) 10).

(** [a / b] on integers (true division). Every use is behind the guard
    of its source line, or behind an explicit [ZeroDivisionError] where
    the source has no guard. *)
Definition truediv (a b : Z) : Q := Qred (inject_Z a / inject_Z b).

(** [min(a, b)] and [max(a, b)]: Python returns the first argument
    unless the second is strictly smaller (resp. larger). *)
Definition py_min (a b : Q) : Q := if Qlt_le_dec b a then b else a.
Definition py_max (a b : Q) : Q := if Qlt_le_dec a b then b else a.

End Numeric.

(** ** Calendar ([datetime] internals) *)

Module Calendar.

Definition _DAYS_IN_MONTH : list Z :=
  [-1; 31; 28; 31; 30; 31; 30; 31; 31; 30; 31; 30; 31].

Definition _DAYS_BEFORE_MONTH : list Z :=
  [-1; 0; 31; 59; 90; 120; 151; 181; 212; 243; 273; 304; 334].

Definition _is_leap (year : Z) : bool :=
  (year mod 4 =? 0) && (negb (year mod 100 =? 0) || (year mod 400 =? 0)).

Definition _days_before_year (year : Z) : Z :=
  let y := year - 1 in y * 365 + y / 4 - y / 100 + y / 400.

Definition _days_in_month (year month : Z) : Z :=
  if (month =? 2) && _is_leap year then 29
  else nth (Z.to_nat month) _DAYS_IN_MONTH 0.

Definition _days_before_month (year month : Z) : Z :=
  nth (Z.to_nat month) _DAYS_BEFORE_MONTH 0
  + (if (2 <? month) && _is_leap year then 1 else 0).

Definition _ymd2ord (year month day : Z) : Z :=
  _days_before_year year + _days_before_month year month + day.

Definition _DI400Y : Z := 146097.
Definition _DI100Y : Z := 36524.
Definition _DI4Y : Z := 1461.

Definition _ord2ymd (ordinal : Z) : Z * Z * Z :=
  let n := ordinal - 1 in
  let n400 := n / _DI400Y in
  let n := n mod _DI400Y in
  let year := n400 * 400 + 1 in
  let n100 := n / _DI100Y in
  let n := n mod _DI100Y in
  let n4 := n / _DI4Y in
  let n := n mod _DI4Y in
  let n1 := n / 365 in
  let n := n mod 365 in
  let year := year + n100 * 100 + n4 * 4 + n1 in
  if (n1 =? 4) || (n100 =? 4) then (year - 1, 12, 31)
  else
    let leapyear := (n1 =? 3) && (negb (n4 =? 24) || (n100 =? 3)) in
    let month := Z.shiftr (n + 50) 5 in
    let preceding :=
      nth (Z.to_nat month) _DAYS_BEFORE_MONTH 0
      + (if (2 <? month) && leapyear then 1 else 0) in
    if n <? preceding then
      let month := month - 1 in
      let preceding :=
        preceding
        - (nth (Z.to_nat month) _DAYS_IN_MONTH 0
           + (if (month =? 2) && leapyear then 1 else 0)) in
      (year, month, n - preceding + 1)
    else (year, month, n - preceding + 1).

(** A [date] is its ordinal. *)
Definition date := Z.

Definition mkdate (year month day : Z) : date := _ymd2ord year month day.
Definition year (d : date) : Z := fst (fst (_ord2ymd d)).
Definition month (d : date) : Z := snd (fst (_ord2ymd d)).
Definition day (d : date) : Z := snd (_ord2ymd d).

(** [d.replace(day=1)], [d.replace(month=m)], [d.replace(year=y, month=m)]. *)
Definition replace_day (d : date) (day' : Z) : date :=
  mkdate (year d) (month d) day'.
Definition replace_month (d : date) (month' : Z) : date :=
  mkdate (year d) month' (day d).
Definition replace_year_month (d : date) (year' month' : Z) : date :=
  mkdate year' month' (day d).

(** [d.weekday()]: Monday is 0. *)
Definition weekday (d : date) : Z := (d + 6) mod 7.

(** Decimal digits, zero padded to [width] characters. *)
Fixpoint zero_padded (width : nat) (n : Z) : string :=
  match width with
  | O => EmptyString
  | S w =>
      (zero_padded w (n / 10)
       ++ String (ascii_of_nat (48 + Z.to_nat (n mod 10))) EmptyString)%string
  end.

(** [d.strftime("%Y-%m")], for years of four digits. *)
Definition strftime_Ym (d : date) : string :=
  (zero_padded 4 (year d) ++ "-" ++ zero_padded 2 (month d))%string.

(** A [datetime]: [clock] is the count of seconds that its own clock
    shows since the midnight that starts ordinal 0, [utcoffset] its
    offset from UTC in seconds when it is aware and [None] when it is
    naive. [datetime.min] is the naive midnight of ordinal 1. *)
Record datetime : Type := {
  clock : Z;
  utcoffset : option Z
}.

(** A naive datetime, and an aware one in UTC (a string that ends in
    [Z] or [+00:00]). *)
Definition naive (seconds : Z) : datetime :=
  {| clock := seconds; utcoffset := None |}.
Definition utc (seconds : Z) : datetime :=
  {| clock := seconds; utcoffset := Some 0 |}.

Definition datetime_min : datetime := naive 86400.
Definition combine_midnight (d : date) : datetime := naive (d * 86400).
Definition hour (t : datetime) : Z := (clock t / 3600) mod 24.

(** [x < y] and [x <= y] are defined between two naive and between two
    aware datetimes; aware ones compare by their instant in UTC. *)
Definition comparable (x y : datetime) : bool :=
  match utcoffset x, utcoffset y with
  | Some _, Some _ | None, None => true
  | _, _ => false
  end.
Definition instant (t : datetime) : Z :=
  match utcoffset t with
  | Some offset => clock t - offset
  | None => clock t
  end.

End Calendar.

(** ** Sorting as [sorted] does it *)

Module PySort.

Section Sorted.
Context {A : Type}.
(** [le x y] holds when [x] may stay in front of [y]. *)
Variable le : A -> A -> bool.

(** Insert [x] behind every element it may not overtake. *)
Fixpoint insert_sorted (x : A) (l : list A) : list A :=
  match l with
  | [] => [x]
  | y :: l' => if le y x then y :: insert_sorted x l' else x :: l
  end.

(** A stable sort: equal elements keep their input order. *)
Definition stable_sort (l : list A) : list A :=
  fold_left (fun acc x => insert_sorted x acc) l [].
End Sorted.

(** [sorted(xs, key=key)] on integer keys. *)
Definition sorted_by_key {A} (key : A -> Z) (xs : list A) : list A :=
  stable_sort (fun x y => key x <=? key y) xs.

(** [sorted(xs, key=key, reverse=True)]: descending, and still stable. *)
Definition sorted_by_key_reverse {A} (key : A -> Z) (xs : list A) : list A :=
  stable_sort (fun x y => key y <=? key x) xs.

End PySort.


(** ** Dictionaries in insertion order *)

Module PyDict.

Section Dict.
Context {K V : Type} `{EqDecision K}.

(** [d[k] = f(d[k])] on a [defaultdict] whose default is [dflt]: an
    existing key keeps its position, a new key goes last. *)
Fixpoint update (k : K) (f : V -> V) (dflt : V) (d : list (K * V))
  : list (K * V) :=
  match d with
  | [] => [(k, f dflt)]
  | (k', v) :: d' =>
      if decide (k' = k) then (k', f v) :: d'
      else (k', v) :: update k f dflt d'
  end.

(** [d.get(k, dflt)]. *)
Fixpoint get (k : K) (dflt : V) (d : list (K * V)) : V :=
  match d with
  | [] => dflt
  | (k', v) :: d' => if decide (k' = k) then v else get k dflt d'
  end.

(** Iterating a dictionary yields its keys. *)
Definition keys (d : list (K * V)) : list K := map fst d.
End Dict.

End PyDict.

(** ** Exceptions *)

Inductive exn : Type :=
| ClientError
| ValueError
| TypeError
| AttributeError
| ZeroDivisionError
| InvalidOperation
| OtherException.

Inductive result (A : Type) : Type :=
| Ok (a : A)
| Raise (e : exn).
Arguments Ok {A} a.
Arguments Raise {A} e.

Definition bind {A B} (r : result A) (k : A -> result B) : result B :=
  match r with
  | Ok a => k a
  | Raise e => Raise e
  end.

Notation "'let!' x ':=' r 'in' k" := (bind r (fun x => k))
  (at level 10, x name, r at level 100, k at level 200).

(** [try: body except ClientError: return handler]. *)
Definition except_ClientError {A} (body : result A) (handler : A) : result A :=
  match body with
  | Raise ClientError => Ok handler
  | other => other
  end.

(** An item attribute read with [item.get] and then parsed: absent or
    falsy ([None], the empty string), a truthy value that is no string,
    a string that the parser rejects, or a string that parses. *)
Inductive attr (A : Type) : Type :=
| Missing
| NotAString
| Malformed
| Parsed (a : A).
Arguments Missing {A}.
Arguments NotAString {A}.
Arguments Malformed {A}.
Arguments Parsed {A} a.

(** ** The analytics lambda

    [backend/apis/analytics/lambda/src]. *)

Module Lambda.

Import Calendar.

Inductive SessionType : Type := timer | record.

(** [models.analytics_models.StudySession]: [start_time] is required,
    [end_time] is optional. *)
Record StudySession : Type := {
  session_id : string;
  user_id : string;
  date : Z;
  start_time : datetime;
  end_time : option datetime;
  duration : Z;
  subject : string;
  session_type : SessionType
}.

Record DailySummary : Type := {
  ds_date : Z;
  ds_total_duration : Z;
  ds_session_count : Z;
  ds_subjects : list string;
  ds_average_session_duration : Q
}.

Record SubjectEntry : Type := {
  te_subject : string;
  te_duration : Z;
  te_sessions : Z;
  te_percentage : Q
}.

Inductive Trend : Type := improving | declining | stable.

(** The dictionary returned by [_calculate_week_comparison]. *)
Record WeekComparison : Type := {
  wc_duration_change : Z;
  wc_duration_change_percentage : Q;
  wc_session_change : Z;
  wc_trend : Trend
}.


Record MonthlyTrend : Type := {
  mt_month : string;
  mt_total_duration : Z;
  mt_session_count : Z;
  mt_average_daily_duration : Q;
  mt_study_days : Z;
  mt_consistency_score : Q
}.

(** The rule-triggered messages of [_generate_improvement_suggestions],
    named rather than spelled out. *)
Inductive Suggestion : Type :=
| LengthenSessions
| ShortenSessions
| IncreaseFrequency
| TryEarlierHours
| KeepCurrentPattern.

Record ProductivityMetrics : Type := {
  pm_peak_hours : list Z;
  pm_optimal_session_length : Z;
  pm_best_study_days : list Z;
  pm_focus_score : Q;
  pm_improvement_suggestions : list Suggestion
}.

(** *** Private helpers of [AnalyticsService] *)

(** [daily_data[session.date].append(session)] for every session. *)
Definition group_by_date (study_sessions : list StudySession)
  : gmap Z (list StudySession) :=
  fold_left
    (fun daily_data session =>
       <[date session := default [] (daily_data !! date session) ++ [session]]>
         daily_data)
    study_sessions ∅.

(** The body of the [while current_date <= week_end] loop. *)
Definition summarize_day (daily_data : gmap Z (list StudySession))
    (current_date : Z) : DailySummary :=
  let day_sessions := default [] (daily_data !! current_date) in
  let total_duration := Numeric.sum (map duration day_sessions) in
  let session_count := Numeric.len day_sessions in
  let subjects := remove_dups (map subject day_sessions) in
  let avg_duration :=
    if 0 <? session_count
    then Numeric.truediv total_duration session_count
    else 0%Q in
  {| ds_date := current_date;
     ds_total_duration := total_duration;
     ds_session_count := session_count;
     ds_subjects := subjects;
     ds_average_session_duration := Numeric.round1 avg_duration |}.

(** [n] iterations of the loop, starting at [current_date]. *)
Fixpoint daily_loop (daily_data : gmap Z (list StudySession)) (n : nat)
    (current_date : Z) : list DailySummary :=
  match n with
  | O => []
  | S n' =>
      summarize_day daily_data current_date
      :: daily_loop daily_data n' (current_date + 1)
  end.

Definition _calculate_daily_summaries (study_sessions : list StudySession)
    (week_start week_end : Z) : list DailySummary :=
  daily_loop (group_by_date study_sessions)
    (Z.to_nat (week_end - week_start + 1)) week_start.

(** [subject_data]: subject to (duration, sessions), in insertion order. *)
Definition subject_totals (study_sessions : list StudySession)
  : list (string * (Z * Z)) :=
  fold_left
    (fun subject_data session =>
       PyDict.update (subject session)
         (fun data => (fst data + duration session, snd data + 1))
         (0, 0) subject_data)
    study_sessions [].

Definition _calculate_top_subjects (study_sessions : list StudySession)
  : list SubjectEntry :=
  let subject_data := subject_totals study_sessions in
  let total_duration := Numeric.sum (map (fun e => fst (snd e)) subject_data) in
  let top_subjects :=
    map (fun e =>
           let percentage :=
             if 0 <? total_duration
             then (Numeric.truediv (fst (snd e)) total_duration * 100)%Q
             else 0%Q in
           {| te_subject := fst e;
              te_duration := fst (snd e);
              te_sessions := snd (snd e);
              te_percentage := Numeric.round1 percentage |})
        subject_data in
  take 5 (PySort.sorted_by_key_reverse te_duration top_subjects).

Section Consistency.
(** [x ** 0.5]. *)
Variable pow_half : Q -> Q.

(** [sum((d - avg_duration) ** 2 for d in durations)]. *)
Definition sum_sq_dev (avg_duration : Q) (durations : list Z) : Q :=
  foldr (fun d acc => ((inject_Z d - avg_duration) ^ 2 + acc)%Q) 0%Q durations.

Definition _calculate_study_consistency (daily_summaries : list DailySummary)
  : Q :=
  let study_days :=
    Numeric.sum
      (map (fun _ => 1)
           (filter (fun summary => 0 < ds_total_duration summary)
                   daily_summaries)) in
  let total_days := Numeric.len daily_summaries in
  if total_days =? 0 then 0%Q
  else
    let base_consistency :=
      (Numeric.truediv study_days total_days * 100)%Q in
    let durations :=
      map ds_total_duration
          (filter (fun summary => 0 < ds_total_duration summary)
                  daily_summaries) in
    let stability_bonus :=
      if 1 <? Numeric.len durations then
        let avg_duration :=
          Numeric.truediv (Numeric.sum durations) (Numeric.len durations) in
        let variance :=
          (sum_sq_dev avg_duration durations
           / inject_Z (Numeric.len durations))%Q in
        let cv :=
          if Qlt_le_dec 0 avg_duration
          then (pow_half variance / avg_duration)%Q
          else 0%Q in
        if Qlt_le_dec cv (1 # 2)
        then Numeric.py_max 0 (((1 # 2) - cv) * 20)%Q
        else 0%Q
      else 0%Q in
    Numeric.py_min 100 (base_consistency + stability_bonus)%Q.
End Consistency.

Definition _calculate_week_comparison
    (current_sessions previous_sessions : list StudySession) : WeekComparison :=
  let current_duration := Numeric.sum (map duration current_sessions) in
  let previous_duration := Numeric.sum (map duration previous_sessions) in
  let current_session_count := Numeric.len current_sessions in
  let previous_session_count := Numeric.len previous_sessions in
  let duration_change := current_duration - previous_duration in
  let session_change := current_session_count - previous_session_count in
  let duration_change_pct :=
    if 0 <? previous_duration
    then (Numeric.truediv duration_change previous_duration * 100)%Q
    else 0%Q in
  {| wc_duration_change := duration_change;
     wc_duration_change_percentage := Numeric.round1 duration_change_pct;
     wc_session_change := session_change;
     wc_trend :=
       if 0 <? duration_change then improving
       else if duration_change <? 0 then declining
       else stable |}.

Definition _generate_improvement_suggestions (peak_hours : list Z)
    (optimal_session_length total_sessions period_days : Z)
  : result (list Suggestion) :=
  let suggestions := [] in
  let suggestions :=
    if optimal_session_length <? 25 then suggestions ++ [LengthenSessions]
    else if 60 <? optimal_session_length then suggestions ++ [ShortenSessions]
    else suggestions in
  let! avg_sessions_per_day :=
    if period_days =? 0 then Raise ZeroDivisionError
    else Ok (Numeric.truediv total_sessions period_days) in
  let suggestions :=
    if Qlt_le_dec avg_sessions_per_day (1 # 2)
    then suggestions ++ [IncreaseFrequency]
    else suggestions in
  let suggestions :=
    match peak_hours with
    | [] => suggestions
    | h :: hs =>
        if 20 <=? foldr Z.min h hs then suggestions ++ [TryEarlierHours]
        else suggestions
    end in
  let suggestions :=
    match suggestions with
    | [] => suggestions ++ [KeepCurrentPattern]
    | _ => suggestions
    end in
  Ok suggestions.

(** *** [DynamoDBService] *)

(** A stored item, each attribute as [item.get] and the parser applied
    to it see it. [it_duration] and [it_subject] carry their defaults
    and are an integer and a string, as the session model requires. *)
Record Item : Type := {
  it_SK : string;
  it_date : attr Z;
  it_start_time : attr datetime;
  it_end_time : attr datetime;
  it_created_at : attr datetime;
  it_duration : Z;
  it_subject : string
}.

(** The two tables, seen through the queries the service issues for a
    user and a date range; a query may raise. *)
Record Tables : Type := {
  timer_table_query : string -> Z -> Z -> result (list Item);
  records_table_query : string -> Z -> Z -> result (list Item)
}.

(** [datetime.strptime(item.get('date'), '%Y-%m-%d').date()]:
    [strptime] raises [TypeError] on what is no string. *)
Definition strptime_date (a : attr Z) : result Z :=
  match a with
  | Missing | NotAString => Raise TypeError
  | Malformed => Raise ValueError
  | Parsed d => Ok d
  end.

(** [datetime.fromisoformat(item.get(k, '').replace('Z', '+00:00'))
    if item.get(k) else None]: a truthy value that is no string has no
    [replace]. *)
Definition fromisoformat_optional (a : attr datetime)
  : result (option datetime) :=
  match a with
  | Missing => Ok None
  | NotAString => Raise AttributeError
  | Malformed => Raise ValueError
  | Parsed t => Ok (Some t)
  end.

(** The arguments of [StudySession(...)] are evaluated in the order
    [date], [start_time], [end_time]; the model then validates them,
    and a [start_time] of [None] is a [ValidationError], which is a
    [ValueError]. *)
Definition timer_session (user : string) (item : Item) : result StudySession :=
  let! d := strptime_date (it_date item) in
  let! st := fromisoformat_optional (it_start_time item) in
  let! et := fromisoformat_optional (it_end_time item) in
  match st with
  | None => Raise ValueError
  | Some st =>
      Ok {| session_id := it_SK item;
            user_id := user;
            date := d;
            start_time := st;
            end_time := et;
            duration := it_duration item;
            subject := it_subject item;
            session_type := timer |}
  end.

Definition record_session (user : string) (item : Item) : result StudySession :=
  let! st :=
    match it_created_at item with
    | Parsed t => Ok t
    | Malformed => Raise ValueError
    | NotAString => Raise AttributeError
    | Missing =>
        let! session_date := strptime_date (it_date item) in
        Ok (combine_midnight session_date)
    end in
  let! d := strptime_date (it_date item) in
  Ok {| session_id := it_SK item;
        user_id := user;
        date := d;
        start_time := st;
        end_time := None;
        duration := it_duration item;
        subject := it_subject item;
        session_type := record |}.

(** [for item in items: try: ... except (ValueError, TypeError): continue]. *)
Fixpoint convert_items (convert : Item -> result StudySession)
    (items : list Item) : result (list StudySession) :=
  match items with
  | [] => Ok []
  | item :: rest =>
      match convert item with
      | Ok session =>
          let! sessions := convert_items convert rest in
          Ok (session :: sessions)
      | Raise ValueError | Raise TypeError => convert_items convert rest
      | Raise e => Raise e
      end
  end.

Definition _get_timer_sessions (tables : Tables) (user : string)
    (start_date end_date : Z) : result (list StudySession) :=
  except_ClientError
    (let! items := timer_table_query tables user start_date end_date in
     convert_items (timer_session user) items)
    [].

Definition _get_record_sessions (tables : Tables) (user : string)
    (start_date end_date : Z) : result (list StudySession) :=
  except_ClientError
    (let! items := records_table_query tables user start_date end_date in
     convert_items (record_session user) items)
    [].

(** The sort key [(x.date, x.start_time or datetime.min)]: a datetime
    is always truthy, so the key is [(x.date, x.start_time)]. Tuples
    compare by the date and, when the dates are equal, by the start
    time. *)
Definition session_key_le (x y : StudySession) : bool :=
  (date x <? date y)
  || ((date x =? date y)
      && (instant (start_time x) <=? instant (start_time y))).

(** Two keys whose comparison raises [TypeError]: the same date with an
    aware and a naive start time. *)
Definition incomparable_keys (x y : StudySession) : bool :=
  (date x =? date y) && negb (comparable (start_time x) (start_time y)).

(** [study_sessions.sort(key=...)] raises [TypeError] when a date has
    both an aware and a naive start time: the sessions of one date are
    ordered by their start times alone, and no sequence of comparisons
    orders them without comparing an aware with a naive one. *)
Definition sort_raises (study_sessions : list StudySession) : bool :=
  existsb (fun x => existsb (incomparable_keys x) study_sessions) study_sessions.

Definition get_study_sessions_by_date_range (tables : Tables) (user : string)
    (start_date end_date : Z) : result (list StudySession) :=
  except_ClientError
    (let! timer_sessions := _get_timer_sessions tables user start_date end_date in
     let! record_sessions := _get_record_sessions tables user start_date end_date in
     let study_sessions := timer_sessions ++ record_sessions in
     if sort_raises study_sessions then Raise TypeError
     else Ok (PySort.stable_sort session_key_le study_sessions))
    [].

Record StreakData : Type := {
  sd_current_streak : Z;
  sd_longest_streak : Z;
  sd_total_study_days : Z;
  sd_study_dates : list Z
}.

(** [while check_date in study_dates: current_streak += 1;
    check_date -= timedelta(days=1)], with a bound on the iterations. *)
Fixpoint current_streak_loop (fuel : nat) (study_dates : gset Z)
    (check_date current_streak : Z) : option Z :=
  match fuel with
  | O => None
  | S fuel' =>
      if decide (check_date ∈ study_dates)
      then current_streak_loop fuel' study_dates (check_date - 1)
             (current_streak + 1)
      else Some current_streak
  end.

(** One turn of [for i in range(90)] on [(longest_streak, temp_streak)]. *)
Definition longest_streak_step (study_dates : gset Z) (end_date : Z)
    (state : Z * Z) (i : Z) : Z * Z :=
  let '(longest_streak, temp_streak) := state in
  let check_date := end_date - i in
  if decide (check_date ∈ study_dates)
  then (Z.max longest_streak (temp_streak + 1), temp_streak + 1)
  else (longest_streak, 0).

Definition longest_streak_scan (study_dates : gset Z) (end_date : Z) : Z :=
  fst (fold_left (longest_streak_step study_dates end_date) (seqZ 0 90) (0, 0)).

Definition zero_streak_data : StreakData :=
  {| sd_current_streak := 0;
     sd_longest_streak := 0;
     sd_total_study_days := 0;
     sd_study_dates := [] |}.

(** The [try] block of [get_study_streak_data] once the sessions are
    fetched. [None] stands for a walk that has not ended within the bound. *)
Definition streak_data_of (end_date : Z) (study_sessions : list StudySession)
  : option StreakData :=
  let study_dates : gset Z := list_to_set (map date study_sessions) in
  match current_streak_loop (S (size study_dates)) study_dates end_date 0 with
  | None => None
  | Some current_streak =>
      Some {| sd_current_streak := current_streak;
              sd_longest_streak := longest_streak_scan study_dates end_date;
              sd_total_study_days := Z.of_nat (size study_dates);
              sd_study_dates := PySort.sorted_by_key id (elements study_dates) |}
  end.

(** [today] is [date.today()]. Any exception of the [try] block yields
    the zeroed record. *)
Definition get_study_streak_data (tables : Tables) (user : string) (today : Z)
  : option StreakData :=
  let end_date := today in
  let start_date := end_date - 90 in
  match get_study_sessions_by_date_range tables user start_date end_date with
  | Raise _ => Some zero_streak_data
  | Ok study_sessions => streak_data_of end_date study_sessions
  end.

(** *** Public operations of [AnalyticsService] *)


Section Weekly.
Variable pow_half : Q -> Q.

End Weekly.

(** The body of [for i in range(months_back)]. *)
Definition monthly_bucket (tables : Tables) (user : string) (end_date i : Z)
  : result MonthlyTrend :=
  let month_start := end_date - 32 * i in
  let month_start := replace_day month_start 1 in
  let next_month :=
    if month month_start =? 12
    then replace_year_month month_start (year month_start + 1) 1
    else replace_month month_start (month month_start + 1) in
  let month_end := next_month - 1 in
  let! study_sessions :=
    get_study_sessions_by_date_range tables user month_start month_end in
  let total_duration := Numeric.sum (map duration study_sessions) in
  let session_count := Numeric.len study_sessions in
  let study_dates : gset Z := list_to_set (map date study_sessions) in
  let study_days := Z.of_nat (size study_dates) in
  let days_in_month := month_end - month_start + 1 in
  let average_daily_duration :=
    if 0 <? days_in_month
    then Numeric.truediv total_duration days_in_month
    else 0%Q in
  let consistency_score :=
    if 0 <? days_in_month
    then (Numeric.truediv study_days days_in_month * 100)%Q
    else 0%Q in
  Ok {| mt_month := strftime_Ym month_start;
        mt_total_duration := total_duration;
        mt_session_count := session_count;
        mt_average_daily_duration := Numeric.round1 average_daily_duration;
        mt_study_days := study_days;
        mt_consistency_score := Numeric.round1 consistency_score |}.

(** The loop itself: the buckets in the order they are appended. *)
Fixpoint monthly_loop (tables : Tables) (user : string) (end_date : Z)
    (indices : list Z) : result (list MonthlyTrend) :=
  match indices with
  | [] => Ok []
  | i :: rest =>
      let! trend := monthly_bucket tables user end_date i in
      let! trends := monthly_loop tables user end_date rest in
      Ok (trend :: trends)
  end.

Definition generate_monthly_trends (tables : Tables) (today : Z)
    (user : string) (months_back : Z) : result (list MonthlyTrend) :=
  let end_date := replace_day today 1 in
  let! trends := monthly_loop tables user end_date (seqZ 0 months_back) in
  Ok (PySort.stable_sort (fun x y => String.leb (mt_month x) (mt_month y)) trends).

(** [hourly_productivity]: hour to summed duration, in insertion
    order. The test [if session.start_time] holds for every session, a
    datetime being always truthy. *)
Definition hourly_totals (study_sessions : list StudySession) : list (Z * Z) :=
  fold_left
    (fun hourly_productivity session =>
       PyDict.update (hour (start_time session))
         (fun v => v + duration session) 0 hourly_productivity)
    study_sessions [].

(** [daily_productivity]: weekday to summed duration, in insertion order. *)
Definition weekday_totals (study_sessions : list StudySession) : list (Z * Z) :=
  fold_left
    (fun daily_productivity session =>
       PyDict.update (weekday (date session)) (fun v => v + duration session) 0
         daily_productivity)
    study_sessions [].

(** [sorted(d, key=d.get, reverse=True)[:3]]. *)
Definition top3_keys (d : list (Z * Z)) : list Z :=
  take 3 (PySort.sorted_by_key_reverse (fun k => PyDict.get k 0 d) (PyDict.keys d)).

(** [generate_productivity_metrics] once the sessions are fetched. *)
Definition productivity_metrics_of (study_sessions : list StudySession)
    (analysis_period_days : Z) : result ProductivityMetrics :=
  let hourly_productivity := hourly_totals study_sessions in
  let session_durations := map duration study_sessions in
  let daily_productivity := weekday_totals study_sessions in
  let peak_hours := top3_keys hourly_productivity in
  let session_durations := PySort.sorted_by_key id session_durations in
  let optimal_session_length :=
    match session_durations with
    | [] => 0
    | _ => nth (Z.to_nat (Numeric.len session_durations / 2)) session_durations 0
    end in
  let best_days := top3_keys daily_productivity in
  let focus_score :=
    match session_durations with
    | [] => 0%Q
    | _ =>
        let avg_session_duration :=
          Numeric.truediv (Numeric.sum session_durations)
            (Numeric.len session_durations) in
        Numeric.py_min 100 (avg_session_duration / 45 * 100)%Q
    end in
  let! suggestions :=
    _generate_improvement_suggestions peak_hours optimal_session_length
      (Numeric.len study_sessions) analysis_period_days in
  Ok {| pm_peak_hours := peak_hours;
        pm_optimal_session_length := optimal_session_length;
        pm_best_study_days := best_days;
        pm_focus_score := Numeric.round1 focus_score;
        pm_improvement_suggestions := suggestions |}.

Definition generate_productivity_metrics (tables : Tables) (today : Z)
    (user : string) (analysis_period_days : Z) : result ProductivityMetrics :=
  let end_date := today in
  let start_date := end_date - analysis_period_days in
  let! study_sessions :=
    get_study_sessions_by_date_range tables user start_date end_date in
  productivity_metrics_of study_sessions analysis_period_days.

End Lambda.

(** ** The backend service

    [backend/src/services/analytics_service.py]. *)

Module Backend.

Import Calendar.

(** A session dictionary, each key as the service reads it: [date] is
    [None] when [s.get('date')] is falsy and otherwise the day that the
    string names, date strings being the ISO dates the services write;
    [duration] and [subject] carry the defaults of [s.get];
    [duration_is_decimal] tells the Python type of the duration: the
    table resource of boto3 hands a stored number over as a
    [decimal.Decimal], and the data access passes it on as it is, while
    an item without a duration gets the [int] 0 of
    [item.get('duration', 0)], and a dictionary built by hand may hold
    an [int]; [start_time] is the string as [datetime.fromisoformat]
    sees it, a truthy value that is no string being rejected like a
    string that does not parse (the parse sits in a bare [except]). *)
Record Session : Type := {
  date : option Z;
  duration : Z;
  duration_is_decimal : bool;
  subject : string;
  start_time : attr datetime
}.

Record StudySessionSummary : Type := {
  ss_date : Z;
  ss_total_duration : Z;
  ss_session_count : Z;
  ss_subjects : list string
}.

Record WeeklyStats : Type := {
  ws_week_start : Z;
  ws_week_end : Z;
  ws_total_duration : Z;
  ws_daily_sessions : list StudySessionSummary;
  ws_average_session_duration : Q;
  ws_most_studied_subject : option string;
  ws_study_days : Z
}.

Record ComparisonStats : Type := {
  current_week_duration : Z;
  previous_week_duration : Z;
  duration_change : Z;
  duration_change_percentage : Q;
  current_week_sessions : Z;
  previous_week_sessions : Z;
  session_change : Z
}.

Inductive Recommendation : Type :=
| LongerSessions
| BuildHabit.

Record ProductivityInsight : Type := {
  peak_hours : list Z;
  preferred_session_length : Z;
  most_productive_days : list Z;
  study_consistency_score : Q;
  recommendations : list Recommendation
}.

Record MonthlyTrend : Type := {
  month_label : string;
  total_duration : Z;
  session_count : Z;
  average_daily : Q
}.

(** [daily_data[session_date].append(session)] for the dated sessions. *)
Definition group_by_date (study_data : list Session) : gmap Z (list Session) :=
  fold_left
    (fun daily_data session =>
       match date session with
       | Some session_date =>
           <[session_date := default [] (daily_data !! session_date) ++ [session]]>
             daily_data
       | None => daily_data
       end)
    study_data ∅.

(** The state of the [while current_date <= week_end] loop:
    [daily_sessions], [total_duration] and [all_subjects]. *)
Definition weekly_state : Type := list StudySessionSummary * Z * gset string.

Definition weekly_step (daily_data : gmap Z (list Session))
    (state : weekly_state) (current_date : Z) : weekly_state :=
  let '(daily_sessions, total_duration, all_subjects) := state in
  let day_sessions := default [] (daily_data !! current_date) in
  let day_duration := Numeric.sum (map duration day_sessions) in
  let day_subjects := remove_dups (map subject day_sessions) in
  (daily_sessions
     ++ [{| ss_date := current_date;
            ss_total_duration := day_duration;
            ss_session_count := Numeric.len day_sessions;
            ss_subjects := day_subjects |}],
   total_duration + day_duration,
   all_subjects ∪ list_to_set day_subjects).

Fixpoint weekly_loop (daily_data : gmap Z (list Session)) (n : nat)
    (current_date : Z) (state : weekly_state) : weekly_state :=
  match n with
  | O => state
  | S n' =>
      weekly_loop daily_data n' (current_date + 1)
        (weekly_step daily_data state current_date)
  end.

(** [subject_durations]: subject to summed duration, in insertion order. *)
Definition subject_durations (study_data : list Session) : list (string * Z) :=
  fold_left
    (fun acc session =>
       PyDict.update (subject session) (fun v => v + duration session) 0 acc)
    study_data [].

(** [max(d, key=d.get)]: the first key whose value is largest. *)
Fixpoint max_key {K} (d : list (K * Z)) : option K :=
  match d with
  | [] => None
  | (k, v) :: d' =>
      match max_key d' with
      | None => Some k
      | Some k' =>
          if forallb (fun e => snd e <=? v) d' then Some k else Some k'
      end
  end.

Definition _calculate_weekly_stats (study_data : list Session)
    (week_start week_end : Z) : WeeklyStats :=
  let daily_data := group_by_date study_data in
  let '(daily_sessions, total_duration, all_subjects) :=
    weekly_loop daily_data (Z.to_nat (week_end - week_start + 1)) week_start
      ([], 0, ∅) in
  let total_sessions := Numeric.len study_data in
  let average_session_duration :=
    if 0 <? total_sessions
    then Numeric.truediv total_duration total_sessions
    else 0%Q in
  let most_studied_subject := max_key (subject_durations study_data) in
  let study_days :=
    Numeric.len (filter (fun d => 0 < ss_total_duration d) daily_sessions) in
  {| ws_week_start := week_start;
     ws_week_end := week_end;
     ws_total_duration := total_duration;
     ws_daily_sessions := daily_sessions;
     ws_average_session_duration := Numeric.round1 average_session_duration;
     ws_most_studied_subject := most_studied_subject;
     ws_study_days := study_days |}.

Definition _calculate_comparison_stats (current_data previous_data : list Session)
  : ComparisonStats :=
  let current_duration := Numeric.sum (map duration current_data) in
  let previous_duration := Numeric.sum (map duration previous_data) in
  let duration_change := current_duration - previous_duration in
  let duration_change_percentage :=
    if 0 <? previous_duration
    then (Numeric.truediv duration_change previous_duration * 100)%Q
    else 0%Q in
  let current_sessions := Numeric.len current_data in
  let previous_sessions := Numeric.len previous_data in
  let session_change := current_sessions - previous_sessions in
  {| current_week_duration := current_duration;
     previous_week_duration := previous_duration;
     duration_change := duration_change;
     duration_change_percentage := Numeric.round1 duration_change_percentage;
     current_week_sessions := current_sessions;
     previous_week_sessions := previous_sessions;
     session_change := session_change |}.

(** [sorted(set(... for s in study_data if s.get('date')))]. *)
Definition sorted_study_dates (study_data : list Session) : list Z :=
  PySort.sorted_by_key id
    (elements (list_to_set (omap date study_data) : gset Z)).

(** [while check_date in study_dates: current_streak += 1;
    check_date -= timedelta(days=1)], with a bound on the iterations. *)
Fixpoint current_streak_loop (fuel : nat) (study_dates : list Z)
    (check_date current_streak : Z) : option Z :=
  match fuel with
  | O => None
  | S fuel' =>
      if decide (check_date ∈ study_dates)
      then current_streak_loop fuel' study_dates (check_date - 1)
             (current_streak + 1)
      else Some current_streak
  end.

(** One turn of [for i in range(1, len(study_dates))] on
    [(longest_streak, temp_streak)]. *)
Definition longest_streak_step (study_dates : list Z) (state : Z * Z) (i : Z)
  : Z * Z :=
  let '(longest_streak, temp_streak) := state in
  if nth (Z.to_nat i) study_dates 0 - nth (Z.to_nat (i - 1)) study_dates 0 =? 1
  then (longest_streak, temp_streak + 1)
  else (Z.max longest_streak temp_streak, 1).

(** [today] is [date.today()]. [None] stands for a walk that has not
    ended within the bound. *)
Definition _calculate_streaks (today : Z) (study_data : list Session)
  : option (Z * Z) :=
  match study_data with
  | [] => Some (0, 0)
  | _ =>
      let study_dates := sorted_study_dates study_data in
      match study_dates with
      | [] => Some (0, 0)
      | _ =>
          let current_streak :=
            if bool_decide (today ∈ study_dates)
               || bool_decide (today - 1 ∈ study_dates)
            then current_streak_loop (S (length study_dates)) study_dates
                   (today - 1) 1
            else Some 0 in
          let '(longest_streak, temp_streak) :=
            fold_left (longest_streak_step study_dates)
              (seqZ 1 (Numeric.len study_dates - 1)) (0, 1) in
          let longest_streak := Z.max longest_streak temp_streak in
          match current_streak with
          | Some current_streak => Some (current_streak, longest_streak)
          | None => None
          end
      end
  end.

(** [hourly_durations] of [_calculate_productivity_insights]: a start
    time that does not parse skips the rest of the turn. *)
Definition hourly_totals (study_data : list Session) : list (Z * Z) :=
  fold_left
    (fun hourly_durations session =>
       match start_time session with
       | Parsed dt =>
           PyDict.update (hour dt) (fun v => v + duration session) 0
             hourly_durations
       | Malformed | NotAString | Missing => hourly_durations
       end)
    study_data [].

Definition _calculate_productivity_insights (study_data : list Session)
  : ProductivityInsight :=
  let hourly_durations := hourly_totals study_data in
  let session_lengths := map duration study_data in
  let peak_hours :=
    take 3
      (PySort.sorted_by_key_reverse (fun k => PyDict.get k 0 hourly_durations)
         (PyDict.keys hourly_durations)) in
  let preferred_session_length :=
    match session_lengths with
    | [] => 0
    | _ =>
        nth (Z.to_nat (Numeric.len session_lengths / 2))
          (PySort.sorted_by_key id session_lengths) 0
    end in
  let most_productive_days := [0; 1; 2] in
  let total_days :=
    Z.of_nat (size (list_to_set (omap date study_data) : gset Z)) in
  let consistency_score := Z.min 100 (total_days * 5) in
  let recommendations :=
    match study_data with
    | [] => []
    | _ =>
        let avg_duration :=
          Numeric.truediv (Numeric.sum (map duration study_data))
            (Numeric.len study_data) in
        (if Qlt_le_dec avg_duration 30 then [LongerSessions] else [])
        ++ (if total_days <? 5 then [BuildHabit] else [])
    end in
  {| peak_hours := peak_hours;
     preferred_session_length := preferred_session_length;
     most_productive_days := most_productive_days;
     study_consistency_score := inject_Z consistency_score;
     recommendations := recommendations |}.

(** The data access of the service: [_get_study_data_for_period]. *)
Record DataAccess : Type := {
  _get_study_data_for_period : string -> Z -> Z -> result (list Session)
}.

(** [while current_month <= end_date], with a bound on the iterations. *)
Fixpoint monthly_loop (fuel : nat) (db : DataAccess) (user : string)
    (current_month end_date : Z) : option (result (list MonthlyTrend)) :=
  match fuel with
  | O => None
  | S fuel' =>
      if current_month <=? end_date then
        let next_month := replace_day (replace_day current_month 28 + 4) 1 in
        let month_end := next_month - 1 in
        match _get_study_data_for_period db user current_month month_end with
        | Raise e => Some (Raise e)
        | Ok month_data =>
            let total_duration := Numeric.sum (map duration month_data) in
            let session_count := Numeric.len month_data in
            let days_in_month := month_end - current_month + 1 in
            if days_in_month =? 0 then Some (Raise ZeroDivisionError)
            else
              let average_daily := Numeric.truediv total_duration days_in_month in
              let trend :=
                {| month_label := strftime_Ym current_month;
                   total_duration := total_duration;
                   session_count := session_count;
                   average_daily := Numeric.round1 average_daily |} in
              match monthly_loop fuel' db user next_month end_date with
              | Some (Ok trends) => Some (Ok (trend :: trends))
              | other => other
              end
        end
      else Some (Ok [])
  end.

Definition _calculate_monthly_trends (db : DataAccess) (user : string)
    (start_date end_date : Z) : option (result (list MonthlyTrend)) :=
  monthly_loop (Z.to_nat (end_date - start_date) + 2) db user
    (replace_day start_date 1) end_date.

End Backend.

(** ** Stores, sample data and reference formulas *)

Module Reference.

Import Lambda.



Definition item_in_range (start_date end_date : Z) (item : Item) : bool :=
  match it_date item with
  | Parsed d => (start_date <=? d) && (d <=? end_date)
  | Missing | NotAString | Malformed => false
  end.

(** Two tables holding the given items, whose range queries select by
    the date attribute and never fail. *)
Definition stored_tables (timer_items record_items : list Item) : Tables :=
  {| timer_table_query := fun _ start_date end_date =>
       Ok (filter (fun item => item_in_range start_date end_date item = true)
             timer_items);
     records_table_query := fun _ start_date end_date =>
       Ok (filter (fun item => item_in_range start_date end_date item = true)
             record_items) |}.

(** Two tables whose every query raises [e]. *)
Definition failing_tables (e : exn) : Tables :=
  {| timer_table_query := fun _ _ _ => Raise e;
     records_table_query := fun _ _ _ => Raise e |}.

(** A completed timer item of [minutes] minutes on day [d], started at
    the UTC time [started] when given. *)
Definition timer_item (d : Z) (started : option Z)
    (minutes : Z) : Item :=
  {| it_SK := "TIMER#1";
     it_date := Parsed d;
     it_start_time :=
       match started with
       | Some t => Parsed (Calendar.utc t)
       | None => Missing
       end;
     it_end_time := Missing;
     it_created_at := Missing;
     it_duration := minutes;
     it_subject := "math" |}.

Section ConsistencyFormula.
Variable pow_half : Q -> Q.

(** The mean of a sample. *)
Definition mean (xs : list Z) : Q :=
  Numeric.truediv (Numeric.sum xs) (Numeric.len xs).

(** The sum of a list of rationals. *)
Definition Qsum (qs : list Q) : Q := fold_right Qplus 0%Q qs.

(** The population variance of a sample: the mean of the squared
    deviations from the mean of the sample. *)
Definition population_variance (xs : list Z) : Q :=
  (Qsum (map (fun x => (inject_Z x - mean xs) ^ 2) xs)
   / inject_Z (Numeric.len xs))%Q.

(** The coefficient of variation: the population standard deviation
    over the mean. *)
Definition coefficient_of_variation (xs : list Z) : Q :=
  (pow_half (population_variance xs) / mean xs)%Q.

(** The consistency score as the specification words it, over the
    daily totals of a period of [N] days: the share of study days in
    percent, plus a stability bonus from the coefficient of variation
    of the nonzero totals, capped at 100. *)
Definition consistency_formula (totals : list Z) : Q :=
  let N := Numeric.len totals in
  let nonzero := filter (fun t => 0 < t) totals in
  let study_days := Numeric.len nonzero in
  if N =? 0 then 0%Q
  else
    let base := (Numeric.truediv study_days N * 100)%Q in
    let stability_bonus :=
      if 1 <? Numeric.len nonzero then
        let cv := coefficient_of_variation nonzero in
        if Qlt_le_dec cv (1 # 2)
        then Qmax 0 (((1 # 2) - cv) * 20)%Q
        else 0%Q
      else 0%Q in
    Qmin 100 (base + stability_bonus)%Q.
End ConsistencyFormula.

(** The strict current streak: [n] is the number of consecutive study
    dates met when walking backward from [today], one day at a time, up
    to the first gap. It is 0 when [today] is no study date. *)
Definition strict_backward_walk (is_study_date : Z -> Prop) (today n : Z) : Prop :=
  0 <= n
  /\ (forall k, 0 <= k < n -> is_study_date (today - k))
  /\ ~ is_study_date (today - n).

(** The study-date set [get_study_streak_data] works on: the dates of
    the fetched sessions, and no date when the fetch raises. *)
Definition fetched_dates (tables : Tables) (user : string) (today : Z) : gset Z :=
  match get_study_sessions_by_date_range tables user (today - 90) today with
  | Ok study_sessions => list_to_set (map date study_sessions)
  | Raise _ => ∅
  end.

(** The study-date set of a list of session dictionaries. *)
Definition backend_dates (study_data : list Backend.Session) : gset Z :=
  list_to_set (omap Backend.date study_data).

(** A session dictionary of [minutes] minutes dated [d], as the data
    access returns it: the duration is a [Decimal]. *)
Definition backend_session (d : Z) (started : attr Calendar.datetime)
    (minutes : Z) : Backend.Session :=
  {| Backend.date := Some d;
     Backend.duration := minutes;
     Backend.duration_is_decimal := true;
     Backend.subject := "math";
     Backend.start_time := started |}.

(** The same dictionary with an [int] duration. *)
Definition backend_session_of_int (d : Z) (started : attr Calendar.datetime)
    (minutes : Z) : Backend.Session :=
  {| Backend.date := Some d;
     Backend.duration := minutes;
     Backend.duration_is_decimal := false;
     Backend.subject := "math";
     Backend.start_time := started |}.

(** A study session of [minutes] minutes dated [d], started at the UTC
    time [started]. *)
Definition study_session (d : Z) (started : Z)
    (minutes : Z) : StudySession :=
  {| session_id := "s";
     user_id := "u";
     date := d;
     start_time := Calendar.utc started;
     end_time := None;
     duration := minutes;
     subject := "math";
     session_type := timer |}.


(** A value with at most one decimal within 0.05 of [exact]. *)
Definition rounded_to_one_decimal (exact rounded : Q) : Prop :=
  (exists n : Z, rounded == inject_Z n / 10)%Q
  /\ (exact - (1 # 20) <= rounded <= exact + (1 # 20))%Q.

(** The keys of a sequence in the order in which they are first seen. *)
Definition first_seen (l : list Z) : list Z :=
  fold_left (fun acc x => if decide (x ∈ acc) then acc else acc ++ [x]) l [].

(** The hours in which the sessions start, in session order. *)
Definition start_hours (study_sessions : list StudySession) : list Z :=
  map (fun s => Calendar.hour (start_time s)) study_sessions.

(** The summed duration of the sessions that start in hour [h]. *)
Definition hour_total (study_sessions : list StudySession) (h : Z) : Z :=
  Numeric.sum
    (map duration
       (filter (fun s => Calendar.hour (start_time s) = h) study_sessions)).

(** The same for session dictionaries, whose start time must parse. *)
Definition backend_start_hour (s : Backend.Session) : option Z :=
  match Backend.start_time s with
  | Parsed dt => Some (Calendar.hour dt)
  | Missing | NotAString | Malformed => None
  end.

Definition backend_start_hours (study_data : list Backend.Session) : list Z :=
  omap backend_start_hour study_data.

Definition backend_hour_total (study_data : list Backend.Session) (h : Z) : Z :=
  Numeric.sum
    (map Backend.duration
       (filter (fun s => backend_start_hour s = Some h) study_data)).

(** A ranking of the keys [seen] by [total]: every key once, larger
    totals first, and keys of equal total in the order of [seen]. *)
Definition ranked_by_total (total : Z -> Z) (seen ranking : list Z) : Prop :=
  Permutation ranking seen
  /\ StronglySorted (fun h1 h2 => total h2 <= total h1) ranking
  /\ forall v,
       filter (fun h => total h = v) ranking
       = filter (fun h => total h = v) seen.

(** The month [k] months before month [m] of year [y]. *)
Definition months_before (y m k : Z) : Z * Z :=
  let t := y * 12 + (m - 1) - k in
  (t / 12, t mod 12 + 1).

(** The [month_start] that [generate_monthly_trends] computes in turn
    [i] of its loop when run on [today]. *)
Definition bucket_month_start (today i : Z) : Z :=
  Calendar.replace_day (Calendar.replace_day today 1 - 32 * i) 1.

(** The year and month of that [month_start]. *)
Definition bucket_month (today i : Z) : Z * Z :=
  (Calendar.year (bucket_month_start today i),
   Calendar.month (bucket_month_start today i)).

(** Equality of two (year, month) pairs, as a test. *)
Definition same_month (p q : Z * Z) : bool :=
  (fst p =? fst q) && (snd p =? snd q).

End Reference.

(** ** The cache service

    [backend/apis/analytics/lambda/src/utils/cache.py]. The instants read
    from the clock are arguments; the two readings inside [set] are taken
    as one. *)

Module Cache.

(** One entry of [self._cache]. *)
Record CacheItem (A : Type) : Type := {
  data : A;
  created_at : Z;
  expires_at : Z;
  ttl : Z;
  hit_count : Z;
  last_accessed : option Z
}.
Arguments data {A} _.
Arguments created_at {A} _.
Arguments expires_at {A} _.
Arguments ttl {A} _.
Arguments hit_count {A} _.
Arguments last_accessed {A} _.

(** [self._cache], in insertion order. *)
Abbreviation store A := (list (string * CacheItem A)).

Section Service.
Context {A : Type}.

(** [self._cache.get(key)] as an option. *)
Fixpoint lookup (key : string) (cache : store A) : option (CacheItem A) :=
  match cache with
  | [] => None
  | (k, item) :: rest => if decide (k = key) then Some item else lookup key rest
  end.

(** [del self._cache[key]]. *)
Definition remove (key : string) (cache : store A) : store A :=
  filter (fun e => fst e <> key) cache.

(** [self._cache[key] = item]. *)
Definition assign (key : string) (item : CacheItem A) (cache : store A) : store A :=
  PyDict.update key (fun _ => item) item cache.

(** [min(self._cache.keys(), key=lambda k: self._cache[k]['created_at'])]:
    the first key of least creation time. *)
Fixpoint oldest_key (cache : store A) : option string :=
  match cache with
  | [] => None
  | (k, item) :: rest =>
      if forallb (fun e => created_at item <=? created_at (snd e)) rest
      then Some k
      else oldest_key rest
  end.

Definition _evict_oldest (cache : store A) : store A :=
  match oldest_key cache with
  | None => cache
  | Some k => remove k cache
  end.

(** [get]: the value returned and the cache it leaves. *)
Definition get (now : Z) (key : string) (cache : store A) : option A * store A :=
  match lookup key cache with
  | None => (None, cache)
  | Some cache_item =>
      if expires_at cache_item <? now then (None, remove key cache)
      else
        (Some (data cache_item),
         assign key
           {| data := data cache_item;
              created_at := created_at cache_item;
              expires_at := expires_at cache_item;
              ttl := ttl cache_item;
              hit_count := hit_count cache_item + 1;
              last_accessed := Some now |}
           cache)
  end.

(** [ttl or self.default_ttl]. *)
Definition effective_ttl (default_ttl : Z) (ttl_arg : option Z) : Z :=
  match ttl_arg with
  | None => default_ttl
  | Some t => if t =? 0 then default_ttl else t
  end.

(** The instants that a [datetime] holds, in whole seconds since the
    midnight that starts ordinal 0: from the start of 0001-01-01 to the
    end of 9999-12-31 (ordinal 3652059). *)
Definition min_instant : Z := 86400.
Definition max_instant : Z := 3652060 * 86400 - 1.

(** [set]: what it returns and the cache it leaves.
    [datetime.now() + timedelta(seconds=ttl_seconds)] raises
    [OverflowError] when the sum is no [datetime]; the [except
    Exception] of [set] then returns [False], and nothing is stored. *)
Definition set (default_ttl now : Z) (key : string) (value : A)
    (ttl_arg : option Z) (cache : store A) : bool * store A :=
  let ttl_seconds := effective_ttl default_ttl ttl_arg in
  let expires := now + ttl_seconds in
  if (min_instant <=? expires) && (expires <=? max_instant) then
    let cache :=
      assign key
        {| data := value;
           created_at := now;
           expires_at := expires;
           ttl := ttl_seconds;
           hit_count := 0;
           last_accessed := None |}
        cache in
    (true, if 100 <? Numeric.len cache then _evict_oldest cache else cache)
  else (false, cache).

(** [delete]. *)
Definition delete (key : string) (cache : store A) : store A :=
  match lookup key cache with
  | Some _ => remove key cache
  | None => cache
  end.

(** [exists]: the answer and the cache it leaves. *)
Definition exists_ (now : Z) (key : string) (cache : store A) : bool * store A :=
  match lookup key cache with
  | None => (false, cache)
  | Some cache_item =>
      if expires_at cache_item <? now then (false, remove key cache)
      else (true, cache)
  end.

(** [cleanup_expired]: the number of entries deleted and the cache left. *)
Definition cleanup_expired (now : Z) (cache : store A) : Z * store A :=
  let expired_keys :=
    map fst (filter (fun e => expires_at (snd e) < now) cache) in
  (Numeric.len expired_keys, fold_left (fun c k => remove k c) expired_keys cache).

(** The counters of [get_cache_stats]: total, expired, active items and
    total hits. *)
Definition get_cache_stats (now : Z) (cache : store A) : Z * Z * Z * Z :=
  let total_items := Numeric.len cache in
  let expired_items :=
    Numeric.len (filter (fun e => expires_at (snd e) < now) cache) in
  let total_hits := Numeric.sum (map (fun e => hit_count (snd e)) cache) in
  (total_items, expired_items, total_items - expired_items, total_hits).

End Service.

End Cache.

(** ** Decidable equality of the enumerations *)

#[global] Instance Suggestion_eq_dec : EqDecision Lambda.Suggestion.
Proof. solve_decision. Defined.

#[global] Instance exn_eq_dec : EqDecision exn.
Proof. solve_decision. Defined.

(** A closed decidable proposition is settled by evaluation. *)
Ltac by_evaluation :=
  match goal with
  | |- ?P => apply (@bool_decide_unpack P _); vm_compute; exact I
  end.

(** ** Items that parse *)

Module Parsing.

Import Lambda.







End Parsing.

(** ** Reports of the backend service

    The other aggregations of
    [backend/src/services/analytics_service.py]. *)

Module BackendReports.

Import Calendar Backend.

Record SubjectStats : Type := {
  st_subject : string;
  st_duration : Z;
  st_session_count : Z;
  st_percentage : Q
}.

Record ChartDataPoint : Type := {
  cp_date : string;
  cp_value : Q;
  cp_label : string
}.

(** [d.isoformat()] and [d.strftime('%m/%d')], for years of four digits. *)
Definition isoformat (d : Calendar.date) : string :=
  (zero_padded 4 (year d) ++ "-" ++ zero_padded 2 (month d)
   ++ "-" ++ zero_padded 2 (day d))%string.

Definition strftime_md (d : Calendar.date) : string :=
  (zero_padded 2 (month d) ++ "/" ++ zero_padded 2 (day d))%string.

(** [f"{duration // 60}h {duration % 60}m"]. *)
Definition hours_minutes (duration : Z) : string :=
  (pretty (duration / 60) ++ "h " ++ pretty (duration mod 60) ++ "m")%string.

(** [subject_data] of [_calculate_subject_breakdown]: subject to
    [(duration, sessions)], in insertion order. *)
Definition subject_data (study_data : list Session)
  : list (string * (Z * Z)) :=
  fold_left
    (fun acc session =>
       PyDict.update (subject session)
         (fun data => (fst data + duration session, snd data + 1)) (0, 0) acc)
    study_data [].

Definition _calculate_subject_breakdown (study_data : list Session)
  : list SubjectStats :=
  let subject_data := subject_data study_data in
  let total_duration :=
    fold_left (fun total session => total + duration session) study_data 0 in
  let breakdown :=
    map (fun e =>
           let percentage :=
             if 0 <? total_duration
             then (Numeric.truediv (fst (snd e)) total_duration * 100)%Q
             else 0%Q in
           {| st_subject := fst e;
              st_duration := fst (snd e);
              st_session_count := snd (snd e);
              st_percentage := Numeric.round1 percentage |})
        subject_data in
  PySort.sorted_by_key_reverse st_duration breakdown.

(** [_generate_subject_chart_data]. *)
Definition _generate_subject_chart_data (subject_breakdown : list SubjectStats)
  : list ChartDataPoint :=
  map (fun stat =>
         {| cp_date := st_subject stat;
            cp_value := Numeric.truediv (st_duration stat) 60;
            cp_label := hours_minutes (st_duration stat) |})
      subject_breakdown.

(** [hourly_durations] of [_find_most_productive_hour]: only sessions
    with a start time and a positive duration enter, and a start time
    that does not parse skips the session. *)
Definition productive_hour_totals (study_data : list Session)
  : list (Z * Z) :=
  fold_left
    (fun hourly_durations session =>
       match start_time session with
       | Parsed dt =>
           if 0 <? duration session
           then PyDict.update (hour dt) (fun v => v + duration session) 0
                  hourly_durations
           else hourly_durations
       | Malformed | NotAString | Missing => hourly_durations
       end)
    study_data [].

Definition _find_most_productive_hour (study_data : list Session) : option Z :=
  max_key (productive_hour_totals study_data).

(** A running total of durations with its Python type: the value, and
    whether it is a [decimal.Decimal]. The totals start at the [int] 0
    of [defaultdict(int)], and an [int] plus a [Decimal] is a
    [Decimal]. *)
Definition add_duration (total : Z * bool) (session : Session) : Z * bool :=
  (fst total + duration session, snd total || duration_is_decimal session).

(** [duration / 60.0]: a [Decimal] does not divide by a [float], the
    operator raises [TypeError]. *)
Definition hours (duration : Z * bool) : result Q :=
  if snd duration then Raise TypeError
  else Ok (Numeric.truediv (fst duration) 60).

(** A [for] loop that appends one value per element and stops at the
    first exception. *)
Fixpoint for_each {A B} (body : A -> result B) (l : list A)
  : result (list B) :=
  match l with
  | [] => Ok []
  | x :: rest =>
      let! y := body x in
      let! ys := for_each body rest in
      Ok (y :: ys)
  end.

(** [hourly_durations] of [_calculate_hourly_distribution]. *)
Definition hourly_durations (study_data : list Session)
  : list (Z * (Z * bool)) :=
  fold_left
    (fun hourly_durations session =>
       match start_time session with
       | Parsed dt =>
           PyDict.update (hour dt) (fun v => add_duration v session)
             (0, false) hourly_durations
       | Malformed | NotAString | Missing => hourly_durations
       end)
    study_data [].

(** The point of [hour], [value] being [duration / 60.0]. *)
Definition hour_point (hour duration : Z) (value : Q) : ChartDataPoint :=
  {| cp_date := (zero_padded 2 hour ++ ":00")%string;
     cp_value := value;
     cp_label := if 0 <? duration then hours_minutes duration else "0m" |}.

Definition _calculate_hourly_distribution (study_data : list Session)
  : result (list ChartDataPoint) :=
  let hourly_durations := hourly_durations study_data in
  for_each
    (fun hour =>
       let duration := PyDict.get hour (0, false) hourly_durations in
       let! value := hours duration in
       Ok (hour_point hour (fst duration) value))
    (seqZ 0 24).

(** [weekly_data] of [_calculate_weekly_consistency]: the Monday of a
    week to the summed duration of the sessions dated in it. *)
Definition weekly_data (study_data : list Session)
  : list (Z * (Z * bool)) :=
  fold_left
    (fun weekly_data session =>
       match date session with
       | Some session_date =>
           let week_start := session_date - weekday session_date in
           PyDict.update week_start (fun v => add_duration v session)
             (0, false) weekly_data
       | None => weekly_data
       end)
    study_data [].

(** The point of the week that starts on [current_week], [value] being
    [duration / 60.0]. *)
Definition week_point (current_week : Z) (value : Q) : ChartDataPoint :=
  {| cp_date := isoformat current_week;
     cp_value := value;
     cp_label := ("Week of " ++ strftime_md current_week)%string |}.

(** [while current_week <= end_week: ...; current_week += timedelta(days=7)],
    with a bound on the iterations; an exception ends the loop. *)
Fixpoint weeks_loop (fuel : nat) (weekly_data : list (Z * (Z * bool)))
    (current_week end_week : Z) (chart_data : list ChartDataPoint)
  : option (result (list ChartDataPoint)) :=
  match fuel with
  | O => None
  | S fuel' =>
      if current_week <=? end_week
      then
        let duration := PyDict.get current_week (0, false) weekly_data in
        match hours duration with
        | Ok value =>
            weeks_loop fuel' weekly_data (current_week + 7) end_week
              (chart_data ++ [week_point current_week value])
        | Raise e => Some (Raise e)
        end
      else Some (Ok chart_data)
  end.

(** [None] stands for a loop that has not ended within the bound. *)
Definition _calculate_weekly_consistency (study_data : list Session)
    (start_date end_date : Z) : option (result (list ChartDataPoint)) :=
  let weekly_data := weekly_data study_data in
  let current_week := start_date - weekday start_date in
  let end_week := end_date - weekday end_date in
  weeks_loop (S (Z.to_nat (end_week - current_week + 1))) weekly_data
    current_week end_week [].

(** The point of the day [current_date] in [_generate_daily_chart_data],
    [value] being [duration / 60.0]. *)
Definition day_point (current_date duration : Z) (value : Q)
  : ChartDataPoint :=
  {| cp_date := isoformat current_date;
     cp_value := value;
     cp_label := if 0 <? duration then hours_minutes duration else "0m" |}.

(** [daily_durations] of [_generate_daily_chart_data]: the dictionary
    is keyed by the date strings, and the loop looks the ISO string of
    each day up. *)
Definition daily_durations (study_data : list Session)
  : list (Z * (Z * bool)) :=
  fold_left
    (fun daily_durations session =>
       match date session with
       | Some session_date =>
           PyDict.update session_date (fun v => add_duration v session)
             (0, false) daily_durations
       | None => daily_durations
       end)
    study_data [].

Fixpoint days_loop (fuel : nat) (daily_durations : list (Z * (Z * bool)))
    (current_date end_date : Z) (chart_data : list ChartDataPoint)
  : option (result (list ChartDataPoint)) :=
  match fuel with
  | O => None
  | S fuel' =>
      if current_date <=? end_date
      then
        let duration := PyDict.get current_date (0, false) daily_durations in
        match hours duration with
        | Ok value =>
            days_loop fuel' daily_durations (current_date + 1) end_date
              (chart_data ++ [day_point current_date (fst duration) value])
        | Raise e => Some (Raise e)
        end
      else Some (Ok chart_data)
  end.

Definition _generate_daily_chart_data (study_data : list Session)
    (start_date end_date : Z) : option (result (list ChartDataPoint)) :=
  days_loop (S (Z.to_nat (end_date - start_date + 1)))
    (daily_durations study_data) start_date end_date [].

End BackendReports.

(** A session dictionary dated from [first] to [last]. *)
Definition backend_dated_within (first last : Z) (s : Backend.Session) : bool :=
  match Backend.date s with
  | Some d => (first <=? d) && (d <=? last)
  | None => false
  end.

(** The summed duration of the sessions dated from [first] to [last]. *)
Definition backend_period_total (study_data : list Backend.Session)
    (first last : Z) : Z :=
  Numeric.sum
    (map Backend.duration
       (filter (fun s => backend_dated_within first last s = true) study_data)).

(** Whether a session that [counted] selects carries a duration that is
    a [Decimal]. *)
Definition decimal_duration_among (counted : Backend.Session -> bool)
    (study_data : list Backend.Session) : bool :=
  existsb (fun s => counted s && Backend.duration_is_decimal s) study_data.

(** ** Totals by key *)

Section KeyedTotals.
Context {S K : Type} `{EqDecision K}.
Variable key : S -> option K.
Variable val : S -> Z.

(** A [defaultdict(int)] filled by [d[key] += val] over the elements
    that have a key. *)
Definition keyed_totals (l : list S) : list (K * Z) :=
  fold_left
    (fun d s =>
       match key s with
       | Some k => PyDict.update k (fun v => v + val s) 0 d
       | None => d
       end)
    l [].

(** The summed value of the elements of key [k]. *)
Definition key_total (l : list S) (k : K) : Z :=
  Numeric.sum (map val (filter (fun s => key s = Some k) l)).
End KeyedTotals.

(** The totals of the chart helpers, a [defaultdict(int)] filled by
    [d[key] += session.get('duration', 0)], with their Python types. *)
Definition typed_totals {K : Type} `{EqDecision K}
    (key : Backend.Session -> option K) (study_data : list Backend.Session)
  : list (K * (Z * bool)) :=
  fold_left
    (fun d s =>
       match key s with
       | Some k =>
           PyDict.update k (fun v => BackendReports.add_duration v s)
             (0, false) d
       | None => d
       end)
    study_data [].

(** The hour under which [_find_most_productive_hour] counts a session. *)
Definition productive_start_hour (s : Backend.Session) : option Z :=
  match Backend.start_time s with
  | Parsed dt =>
      if 0 <? Backend.duration s then Some (Calendar.hour dt) else None
  | Malformed | NotAString | Missing => None
  end.

(** The Monday under which [_calculate_weekly_consistency] counts a
    session. *)
Definition session_week (s : Backend.Session) : option Z :=
  match Backend.date s with
  | Some session_date => Some (session_date - Calendar.weekday session_date)
  | None => None
  end.

(** ** Goal tracking

    [track_goals] of the analytics lambda and [get_user_goals] of its
    data access. *)

Module Goals.

Import Calendar Lambda.

(** A value of the [study_goals] dictionary: a number of minutes, or
    anything else (the list of target subjects, a string). A stored
    number is a [decimal.Decimal]; the default goals are integers, and
    none of them is 0. *)
Inductive GoalValue : Type :=
| Minutes (n : Z)
| NotANumber.

(** [models.analytics_models.GoalTracking]. *)
Record GoalTracking : Type := {
  goal_type : string;
  target_value : Z;
  current_value : Z;
  achievement_rate : Q;
  is_achieved : bool;
  remaining_to_goal : Z
}.

(** The users table, seen through [get_item] for the profile of a
    user: the [study_goals] attribute of the item, if there is an item
    and it has one. The call may raise. *)
Definition UsersTable : Type := string -> result (option (gmap string GoalValue)).

Definition default_goals : gmap string GoalValue :=
  <["daily_target_minutes" := Minutes 60]>
    (<["weekly_target_minutes" := Minutes 420]>
       (<["monthly_target_minutes" := Minutes 1800]>
          (<["target_subjects" := NotANumber]> ∅))).

(** The goals returned after a [ClientError]; they are the default goals. *)
Definition get_user_goals (users_table : UsersTable) (user : string)
  : result (gmap string GoalValue) :=
  except_ClientError
    (let! study_goals := users_table user in
     match study_goals with
     | Some goals => Ok goals
     | None => Ok default_goals
     end)
    default_goals.

(** [GoalTracking(goal_type=..., target_value=target, current_value=current,
    achievement_rate=min(100, (current / target) * 100),
    is_achieved=current >= target,
    remaining_to_goal=max(0, target - current))]. The division by a
    target of 0, a [Decimal], raises [decimal.DivisionByZero], which is
    a [ZeroDivisionError], unless [current] is 0 too: [0 / Decimal(0)]
    raises [decimal.InvalidOperation], which is none. *)
Definition goal_tracking (type : string) (target : GoalValue) (current : Z)
  : result GoalTracking :=
  match target with
  | NotANumber => Raise TypeError
  | Minutes target =>
      if target =? 0 then
        if current =? 0 then Raise InvalidOperation
        else Raise ZeroDivisionError
      else
        Ok {| goal_type := type;
              target_value := target;
              current_value := current;
              achievement_rate :=
                Numeric.py_min 100 (Numeric.truediv current target * 100)%Q;
              is_achieved := target <=? current;
              remaining_to_goal := Z.max 0 (target - current) |}
  end.

(** [today] is [date.today()]. *)
Definition track_goals (users_table : UsersTable) (tables : Tables)
    (today : Z) (user : string) : result (list GoalTracking) :=
  let! user_goals := get_user_goals users_table user in
  if decide (user_goals = ∅) then Ok []
  else
    let! daily :=
      match user_goals !! "daily_target_minutes" with
      | Some target =>
          let! daily_sessions :=
            get_study_sessions_by_date_range tables user today today in
          let daily_duration := Numeric.sum (map duration daily_sessions) in
          let! daily_goal := goal_tracking "daily" target daily_duration in
          Ok [daily_goal]
      | None => Ok []
      end in
    let! weekly :=
      match user_goals !! "weekly_target_minutes" with
      | Some target =>
          let week_start := today - weekday today in
          let! weekly_sessions :=
            get_study_sessions_by_date_range tables user week_start today in
          let weekly_duration := Numeric.sum (map duration weekly_sessions) in
          let! weekly_goal := goal_tracking "weekly" target weekly_duration in
          Ok [weekly_goal]
      | None => Ok []
      end in
    Ok (daily ++ weekly).

(** A users table in which every user has the goals [goals]. *)
Definition users_with (goals : option (gmap string GoalValue)) : UsersTable :=
  fun _ => Ok goals.

End Goals.

(** ** Period comparison of the backend service *)

Module BackendComparison.

Import Calendar Backend.

(** [today] is [date.today()]. *)
Definition _get_weekly_comparison (db : DataAccess) (today : Z)
    (user : string) : result ComparisonStats :=
  let this_week_start := today - weekday today in
  let this_week_end := this_week_start + 6 in
  let last_week_start := this_week_start - 7 in
  let last_week_end := this_week_start - 1 in
  let! this_week_data :=
    _get_study_data_for_period db user this_week_start this_week_end in
  let! last_week_data :=
    _get_study_data_for_period db user last_week_start last_week_end in
  Ok (_calculate_comparison_stats this_week_data last_week_data).

Definition _get_monthly_comparison (db : DataAccess) (today : Z)
    (user : string) : result ComparisonStats :=
  let this_month_start := replace_day today 1 in
  let last_month_end := this_month_start - 1 in
  let last_month_start := replace_day last_month_end 1 in
  let! this_month_data :=
    _get_study_data_for_period db user this_month_start today in
  let! last_month_data :=
    _get_study_data_for_period db user last_month_start last_month_end in
  Ok (_calculate_comparison_stats this_month_data last_month_data).

Definition get_comparison_data (db : DataAccess) (today : Z)
    (user : string) (period : string) : result ComparisonStats :=
  if decide (period = "week") then _get_weekly_comparison db today user
  else if decide (period = "month") then _get_monthly_comparison db today user
  else Raise ValueError.

End BackendComparison.

(** The comparison of the data of the period from [current_start] to
    [current_end] with that of the period from [previous_start] to
    [previous_end]. *)
Definition compare_periods (db : Backend.DataAccess) (user : string)
    (current_start current_end previous_start previous_end : Z)
  : result Backend.ComparisonStats :=
  let! current_data :=
    Backend._get_study_data_for_period db user current_start current_end in
  let! previous_data :=
    Backend._get_study_data_for_period db user previous_start previous_end in
  Ok (Backend._calculate_comparison_stats current_data previous_data).

(** ** Months of the backend trend *)

(** [(current_month.replace(day=28) + timedelta(days=4)).replace(day=1)]. *)
Abbreviation next_month_start c :=
  (Calendar.replace_day (Calendar.replace_day c 28 + 4) 1).

(** The days from [first] to [last] on which a month starts. *)
Definition month_starts (first last : Z) : list Z :=
  filter (fun d => Calendar.day d = 1) (seqZ first (last - first + 1)).

(** The trend of the month that starts on [current_month], computed
    from what the data access returns for that month. *)
Definition month_trend_of (db : Backend.DataAccess) (user : string)
    (trend : Backend.MonthlyTrend) (current_month : Z) : Prop :=
  exists month_data,
    Backend._get_study_data_for_period db user current_month
      (next_month_start current_month - 1) = Ok month_data
    /\ Backend.month_label trend = Calendar.strftime_Ym current_month
    /\ Backend.total_duration trend
       = Numeric.sum (map Backend.duration month_data)
    /\ Backend.session_count trend = Numeric.len month_data.

(** What [_calculate_monthly_trends] yields over the months that start
    on [months]: a trend for each, or the exception that the data
    access raises for one of them. *)
Definition monthly_trends_of (db : Backend.DataAccess) (user : string)
    (months : list Z) (r : result (list Backend.MonthlyTrend)) : Prop :=
  match r with
  | Ok trends => Forall2 (month_trend_of db user) trends months
  | Raise e =>
      exists current_month,
        current_month ∈ months
        /\ Backend._get_study_data_for_period db user current_month
             (next_month_start current_month - 1) = Raise e
  end.

(** ** A store that selects as the service asks *)

Module Store.

Import Lambda.








End Store.

(** * Properties *)

(** ** Sums and sorting *)

Lemma sum_app (xs ys : list Z) :
  Numeric.sum (xs ++ ys) = Numeric.sum xs + Numeric.sum ys.
Proof.
  unfold Numeric.sum. induction xs as [|x xs IH]; simpl; [reflexivity|].
  rewrite IH. lia.
Qed.

Lemma sum_perm (xs ys : list Z) :
  Permutation xs ys -> Numeric.sum xs = Numeric.sum ys.
Proof.
  unfold Numeric.sum.
  induction 1; simpl; lia.
Qed.

Lemma stable_sort_snoc {A} (le : A -> A -> bool) (l : list A) (x : A) :
  PySort.stable_sort le (l ++ [x])
  = PySort.insert_sorted le x (PySort.stable_sort le l).
Proof. unfold PySort.stable_sort. now rewrite fold_left_app. Qed.

Lemma insert_sorted_perm {A} (le : A -> A -> bool) (x : A) (l : list A) :
  Permutation (PySort.insert_sorted le x l) (x :: l).
Proof.
  induction l as [|y l IH]; simpl; [reflexivity|].
  destruct (le y x); [|reflexivity].
  rewrite IH. apply perm_swap.
Qed.

Lemma stable_sort_perm {A} (le : A -> A -> bool) (l : list A) :
  Permutation (PySort.stable_sort le l) l.
Proof.
  induction l as [|x l IH] using rev_ind; [reflexivity|].
  rewrite stable_sort_snoc, insert_sorted_perm, IH.
  apply Permutation_cons_append.
Qed.

(** ** Weekly totals *)

Section WeeklyTotals.
Import Lambda.

Lemma lambda_group_by_date_lookup (l : list StudySession) (d : Z) :
  default [] (group_by_date l !! d) = filter (fun s => date s = d) l.
Proof.
  unfold group_by_date.
  induction l as [|x l IH] using rev_ind; [reflexivity|].
  rewrite fold_left_app, filter_app. simpl.
  destruct (decide (date x = d)) as [Heq|Hne].
  - rewrite Heq, lookup_insert_eq. simpl. rewrite IH.
    rewrite filter_cons_True by assumption. reflexivity.
  - rewrite lookup_insert_ne by assumption. rewrite IH.
    rewrite filter_cons_False by assumption.
    now rewrite app_nil_r.
Qed.




Lemma daily_loop_length (m : gmap Z (list StudySession)) (n : nat) (d0 : Z) :
  length (daily_loop m n d0) = n.
Proof. revert d0. induction n; intros; simpl; [reflexivity|]. now rewrite IHn. Qed.

Lemma filter_all {A} (P : A -> Prop) `{forall x, Decision (P x)} (l : list A) :
  Forall P l -> filter P l = l.
Proof.
  induction 1 as [|x l Hx _ IH]; [reflexivity|].
  rewrite filter_cons_True by assumption. now rewrite IH.
Qed.
End WeeklyTotals.

Section FetchRange.
Import Lambda Reference.






End FetchRange.

Section BackendWeekly.
Import Backend.


End BackendWeekly.

Lemma filter_ext_in {B} (P Q : B -> Prop) `{forall x, Decision (P x)}
    `{forall x, Decision (Q x)} (l : list B) :
  (forall x, x ∈ l -> (P x <-> Q x)) -> filter P l = filter Q l.
Proof.
  induction l as [|x l IH]; intros Hext; [reflexivity|].
  rewrite !filter_cons.
  assert (P x <-> Q x) as Hx by (apply Hext, list_elem_of_here).
  rewrite IH by (intros y Hy; apply Hext; now apply list_elem_of_further).
  destruct (decide (P x)), (decide (Q x)); tauto.
Qed.





(** ** Consistency score *)

Section ConsistencyScore.
Import Lambda Reference.

Lemma py_min_Qmin (a b : Q) : Numeric.py_min a b = Qmin a b.
Proof.
  unfold Numeric.py_min, Qmin, GenericMinMax.gmin.
  destruct (Qlt_le_dec b a) as [Hlt|Hle];
    destruct (a ?= b)%Q eqn:Hc; try reflexivity.
  - apply Qeq_alt in Hc. lra.
  - apply Qlt_alt in Hc. lra.
  - apply Qgt_alt in Hc. lra.
Qed.

Lemma py_max_Qmax (a b : Q) : Numeric.py_max a b = Qmax a b.
Proof.
  unfold Numeric.py_max, Qmax, GenericMinMax.gmax.
  destruct (Qlt_le_dec a b) as [Hlt|Hle];
    destruct (a ?= b)%Q eqn:Hc; try reflexivity.
  - apply Qeq_alt in Hc. lra.
  - apply Qgt_alt in Hc. lra.
  - apply Qlt_alt in Hc. lra.
Qed.

Lemma truediv_eq (a b : Z) : (Numeric.truediv a b == inject_Z a / inject_Z b)%Q.
Proof. unfold Numeric.truediv. apply Qred_correct. Qed.

Lemma truediv_pos (a b : Z) : 0 < a -> 0 < b -> (0 < Numeric.truediv a b)%Q.
Proof.
  intros Ha Hb. rewrite truediv_eq.
  apply Qlt_shift_div_l.
  - change 0%Q with (inject_Z 0). now rewrite <- Zlt_Qlt.
  - rewrite Qmult_0_l. change 0%Q with (inject_Z 0). now rewrite <- Zlt_Qlt.
Qed.

Lemma truediv_nonneg (a b : Z) : 0 <= a -> 0 < b -> (0 <= Numeric.truediv a b)%Q.
Proof.
  intros Ha Hb. rewrite truediv_eq.
  apply Qle_shift_div_l.
  - change 0%Q with (inject_Z 0). now rewrite <- Zlt_Qlt.
  - rewrite Qmult_0_l. change 0%Q with (inject_Z 0). now rewrite <- Zle_Qle.
Qed.

Lemma sum_ones {A} (l : list A) : Numeric.sum (map (fun _ => 1) l) = Numeric.len l.
Proof.
  unfold Numeric.sum, Numeric.len.
  induction l as [|x l IH]; simpl length; [reflexivity|].
  cbn [map foldr]. rewrite IH. lia.
Qed.

Lemma len_map {A B} (f : A -> B) (l : list A) :
  Numeric.len (map f l) = Numeric.len l.
Proof. unfold Numeric.len. now rewrite length_map. Qed.

Lemma study_day_totals (l : list DailySummary) :
  map ds_total_duration (filter (fun s => 0 < ds_total_duration s) l)
  = filter (fun t => 0 < t) (map ds_total_duration l).
Proof.
  induction l as [|x l IH]; [reflexivity|].
  cbn [map]. rewrite !filter_cons.
  destruct (decide (0 < ds_total_duration x)); cbn [map]; now rewrite IH.
Qed.

Lemma sum_positive (l : list Z) :
  Forall (fun t => 0 < t) l -> l <> [] -> 0 < Numeric.sum l.
Proof.
  unfold Numeric.sum.
  induction 1 as [|x l Hx Hl IH]; [congruence|]. intros _. simpl.
  destruct l as [|y l]; [simpl; lia|].
  assert (0 < foldr Z.add 0 (y :: l)) by (apply IH; congruence). lia.
Qed.

Lemma filter_positive (l : list Z) : Forall (fun t => 0 < t) (filter (fun t => 0 < t) l).
Proof.
  induction l as [|x l IH]; [constructor|].
  rewrite filter_cons. destruct (decide (0 < x)); [constructor|]; assumption.
Qed.

Lemma len_nonneg {A} (l : list A) : 0 <= Numeric.len l.
Proof. unfold Numeric.len. lia. Qed.

Lemma sum_sq_dev_squared_deviations (m : Q) (xs : list Z) :
  sum_sq_dev m xs = Qsum (map (fun x => (inject_Z x - m) ^ 2)%Q xs).
Proof.
  unfold sum_sq_dev, Qsum.
  induction xs as [|x xs IH]; [reflexivity|].
  cbn [foldr fold_right map]. now rewrite IH.
Qed.

Variable pow_half : Q -> Q.

Lemma consistency_refines_formula (daily_summaries : list DailySummary) :
  _calculate_study_consistency pow_half daily_summaries
  = consistency_formula pow_half (map ds_total_duration daily_summaries).
Proof.
  unfold _calculate_study_consistency, consistency_formula,
    coefficient_of_variation, population_variance, mean. cbv zeta.
  rewrite sum_sq_dev_squared_deviations.
  rewrite sum_ones, study_day_totals, !len_map.
  destruct (Numeric.len daily_summaries =? 0); [reflexivity|].
  rewrite py_min_Qmin.
  set (nonzero := filter (fun t => 0 < t) (map ds_total_duration daily_summaries)).
  rewrite <- (len_map ds_total_duration
                (filter (fun s => 0 < ds_total_duration s) daily_summaries)).
  rewrite study_day_totals. fold nonzero.
  f_equal. f_equal.
  destruct (1 <? Numeric.len nonzero) eqn:Hlen; [|reflexivity].
  apply Z.ltb_lt in Hlen.
  destruct (Qlt_le_dec 0 (Numeric.truediv (Numeric.sum nonzero) (Numeric.len nonzero)))
    as [Hpos|Hneg].
  - destruct (Qlt_le_dec _ (1 # 2)); [apply py_max_Qmax|reflexivity].
  - exfalso.
    assert (0 < Numeric.sum nonzero) as Hsum.
    { apply sum_positive; [apply filter_positive|].
      intros Hnil. rewrite Hnil in Hlen. unfold Numeric.len in Hlen. simpl in Hlen. lia. }
    assert (0 < Numeric.len nonzero) as Hlen0 by lia.
    pose proof (truediv_pos _ _ Hsum Hlen0). lra.
Qed.

Lemma consistency_bounds (daily_summaries : list DailySummary) :
  (0 <= _calculate_study_consistency pow_half daily_summaries <= 100)%Q.
Proof.
  unfold _calculate_study_consistency. cbv zeta.
  rewrite sum_ones.
  destruct (Numeric.len daily_summaries =? 0) eqn:HN; [lra|].
  apply Z.eqb_neq in HN.
  pose proof (len_nonneg daily_summaries).
  match goal with
  | |- (0 <= Numeric.py_min 100 (?b + ?s) <= 100)%Q =>
      assert (0 <= b)%Q as Hbase;
      [|assert (0 <= s)%Q as Hbonus;
        [|unfold Numeric.py_min; destruct (Qlt_le_dec (b + s) 100); lra]]
  end.
  - assert (0 < Numeric.len daily_summaries) as HN0 by lia.
    pose proof (truediv_nonneg
                  (Numeric.len (filter (fun s => 0 < ds_total_duration s) daily_summaries))
                  (Numeric.len daily_summaries) (len_nonneg _) HN0).
    lra.
  - destruct (1 <? _); [|lra].
    match goal with
    | |- context [Qlt_le_dec ?c (1 # 2)] => generalize c; intros cv
    end.
    destruct (Qlt_le_dec cv (1 # 2)); [|lra].
    unfold Numeric.py_max. destruct (Qlt_le_dec 0 _); lra.
Qed.
End ConsistencyScore.

(** C2. [_calculate_study_consistency] returns exactly
    [min(100, study_days / N * 100 + stability_bonus)], with the bonus
    [max(0, (0.5 - cv) * 20)] when more than one nonzero daily total exists
    and the coefficient of variation is below one half, and no bonus
    otherwise; the score lies in [[0, 100]] and is 0 for an empty period. *)
Theorem study_consistency_is_capped_formula
    (pow_half : Q -> Q) (daily_summaries : list Lambda.DailySummary) :
  Lambda._calculate_study_consistency pow_half daily_summaries
  = Reference.consistency_formula pow_half
      (map Lambda.ds_total_duration daily_summaries)
  /\ (0 <= Lambda._calculate_study_consistency pow_half daily_summaries <= 100)%Q
  /\ Lambda._calculate_study_consistency pow_half [] = 0%Q.
Proof.
  split; [apply consistency_refines_formula|].
  split; [apply consistency_bounds|reflexivity].
Qed.

(** ** Streaks *)

Section Streaks.
Import Lambda Reference.

(** A date above the walk does not matter to it. *)
Lemma current_streak_loop_remove fuel (study_dates : gset Z) later check_date n :
  check_date < later ->
  current_streak_loop fuel (study_dates ∖ {[later]}) check_date n
  = current_streak_loop fuel study_dates check_date n.
Proof.
  revert check_date n. induction fuel as [|fuel IH]; intros c n Hlt; simpl.
  - reflexivity.
  - rewrite IH by lia.
    destruct (decide (c ∈ study_dates ∖ {[later]})) as [Hin|Hnin];
      destruct (decide (c ∈ study_dates)) as [Hin'|Hnin'];
      try reflexivity; exfalso.
    + apply elem_of_difference in Hin as [Hin _]. contradiction.
    + apply Hnin, elem_of_difference. split; [assumption|].
      rewrite elem_of_singleton. lia.
Qed.

(** The walk ends within [size study_dates + 1] turns. *)
Lemma current_streak_loop_terminates fuel (study_dates : gset Z) check_date n :
  (size study_dates < fuel)%nat ->
  exists m, current_streak_loop fuel study_dates check_date n = Some m.
Proof.
  revert study_dates check_date n.
  induction fuel as [|fuel IH]; intros dates c n Hsize; [lia|]. simpl.
  destruct (decide (c ∈ dates)) as [Hin|Hnin]; [|eauto].
  rewrite <- (current_streak_loop_remove fuel dates c (c - 1) (n + 1)) by lia.
  apply IH.
  assert (size dates = size ({[c]} ∪ dates ∖ {[c]})) as Heq.
  { f_equal. apply set_eq. intros x.
    rewrite elem_of_union, elem_of_difference, elem_of_singleton.
    destruct (decide (x = c)) as [->|Hne]; tauto. }
  rewrite size_union, size_singleton in Heq; [lia|].
  intros x Hx1 Hx2. apply elem_of_difference in Hx2 as [_ Hx2].
  exact (Hx2 Hx1).
Qed.

(** What the walk has counted when it ends. *)
Lemma current_streak_loop_counts fuel (study_dates : gset Z) check_date n m :
  current_streak_loop fuel study_dates check_date n = Some m ->
  n <= m
  /\ (forall k, 0 <= k < m - n -> check_date - k ∈ study_dates)
  /\ check_date - (m - n) ∉ study_dates.
Proof.
  revert check_date n. induction fuel as [|fuel IH]; intros c n; simpl; [discriminate|].
  destruct (decide (c ∈ study_dates)) as [Hin|Hnin].
  - intros H. apply IH in H as (Hle & Hall & Hgap).
    split; [lia|]. split.
    + intros k Hk. destruct (decide (k = 0)) as [->|Hk0].
      * now replace (c - 0) with c by lia.
      * replace (c - k) with (c - 1 - (k - 1)) by lia. apply Hall. lia.
    + replace (c - (m - n)) with (c - 1 - (m - (n + 1))) by lia. exact Hgap.
  - intros [= <-]. split; [lia|]. split.
    + intros k Hk. lia.
    + now replace (c - (n - n)) with c by lia.
Qed.

Lemma streak_data_of_current today study_sessions :
  exists r,
    streak_data_of today study_sessions = Some r
    /\ strict_backward_walk
         (fun d => d ∈ (list_to_set (map date study_sessions) : gset Z))
         today (sd_current_streak r).
Proof.
  unfold streak_data_of.
  set (dates := list_to_set (map date study_sessions) : gset Z).
  destruct (current_streak_loop_terminates (S (size dates)) dates today 0)
    as [m Hm]; [lia|].
  rewrite Hm. eexists. split; [reflexivity|]. simpl.
  apply current_streak_loop_counts in Hm as (Hle & Hall & Hgap).
  split; [lia|]. split.
  - intros k Hk. apply Hall. lia.
  - now replace (m - 0) with m in Hgap by lia.
Qed.

Lemma lambda_current_streak_strict tables user today :
  exists r,
    get_study_streak_data tables user today = Some r
    /\ strict_backward_walk (fun d => d ∈ fetched_dates tables user today)
         today (sd_current_streak r).
Proof.
  unfold get_study_streak_data, fetched_dates.
  destruct (get_study_sessions_by_date_range tables user (today - 90) today)
    as [sessions|e].
  - apply streak_data_of_current.
  - exists zero_streak_data. split; [reflexivity|].
    split; [simpl; lia|]. split.
    + simpl. intros k Hk. lia.
    + apply not_elem_of_empty.
Qed.
End Streaks.

Section BackendStreaks.
Import Backend Reference.

Lemma sorted_study_dates_perm study_data :
  Permutation (sorted_study_dates study_data) (elements (backend_dates study_data)).
Proof. apply stable_sort_perm. Qed.

Lemma elem_of_sorted_study_dates study_data d :
  d ∈ sorted_study_dates study_data <-> d ∈ backend_dates study_data.
Proof.
  rewrite (sorted_study_dates_perm study_data). apply elem_of_elements.
Qed.

Lemma length_sorted_study_dates study_data :
  length (sorted_study_dates study_data) = size (backend_dates study_data).
Proof.
  rewrite (Permutation_length (sorted_study_dates_perm study_data)).
  reflexivity.
Qed.

(** The walk over the sorted list is the walk over the set. *)
Lemma backend_loop_as_set fuel (l : list Z) (dates : gset Z) check_date n :
  (forall d, d ∈ l <-> d ∈ dates) ->
  current_streak_loop fuel l check_date n
  = Lambda.current_streak_loop fuel dates check_date n.
Proof.
  intros Hmem. revert check_date n.
  induction fuel as [|fuel IH]; intros c n; simpl; [reflexivity|].
  rewrite IH.
  destruct (decide (c ∈ l)) as [Hin|Hnin];
    destruct (decide (c ∈ dates)) as [Hin'|Hnin'];
    try reflexivity; exfalso.
  - apply Hnin', Hmem, Hin.
  - apply Hnin, Hmem, Hin'.
Qed.

(** [_calculate_streaks] always returns. With [today] a study date its
    current streak is the strict backward walk from [today]; with
    neither [today] nor the day before a study date it is 0. *)
Lemma backend_current_streak today study_data :
  exists current_streak longest_streak,
    _calculate_streaks today study_data = Some (current_streak, longest_streak)
    /\ (today ∈ backend_dates study_data ->
        strict_backward_walk (fun d => d ∈ backend_dates study_data)
          today current_streak)
    /\ (today ∉ backend_dates study_data ->
        today - 1 ∉ backend_dates study_data ->
        current_streak = 0).
Proof.
  unfold _calculate_streaks.
  destruct study_data as [|s0 data0].
  { exists 0, 0. split; [reflexivity|]. split; [|reflexivity].
    intros Hin. exfalso. revert Hin. apply not_elem_of_empty. }
  set (study_data := s0 :: data0).
  pose proof (elem_of_sorted_study_dates study_data) as Hmem.
  pose proof (length_sorted_study_dates study_data) as Hlen.
  set (dates := backend_dates study_data) in *.
  destruct (sorted_study_dates study_data) as [|d0 l0] eqn:Hsorted.
  { exists 0, 0. split; [reflexivity|]. split; [|reflexivity].
    intros Hin. apply Hmem in Hin. inversion Hin. }
  set (study_dates := d0 :: l0) in *.
  destruct (fold_left (longest_streak_step study_dates)
              (seqZ 1 (Numeric.len study_dates - 1)) (0, 1)) as [longest temp].
  destruct (bool_decide (today ∈ study_dates)
            || bool_decide (today - 1 ∈ study_dates)) eqn:Hgrace.
  - rewrite (backend_loop_as_set _ study_dates dates) by exact Hmem.
    destruct (current_streak_loop_terminates
                (S (length study_dates)) dates (today - 1) 1) as [m Hm];
      [rewrite Hlen; lia|].
    rewrite Hm. exists m, (Z.max longest temp).
    split; [reflexivity|]. split.
    + intros Htoday.
      apply current_streak_loop_counts in Hm as (Hle & Hall & Hgap).
      split; [lia|]. split.
      * intros k Hk. destruct (decide (k = 0)) as [->|Hk0].
        -- now replace (today - 0) with today by lia.
        -- replace (today - k) with (today - 1 - (k - 1)) by lia.
           apply Hall. lia.
      * now replace (today - m) with (today - 1 - (m - 1)) by lia.
    + intros Hn1 Hn2. exfalso.
      apply orb_true_iff in Hgrace as [H|H];
        apply bool_decide_eq_true in H; apply Hmem in H; contradiction.
  - exists 0, (Z.max longest temp). split; [reflexivity|]. split; [|reflexivity].
    intros Htoday. exfalso.
    apply orb_false_iff in Hgrace as [H _].
    apply bool_decide_eq_false in H. apply H, Hmem, Htoday.
Qed.
End BackendStreaks.

(** C3, as amended. [get_study_streak_data] counts the current streak by
    walking backward from today, one day at a time, up to the first gap,
    and so returns 0 when today has no session. [_calculate_streaks]
    allows a day of grace: its current streak is that strict walk when
    today is a study date, and it is 0 when neither today nor yesterday
    is one. *)
Theorem current_streak_walks_back_from_today
    (tables : Lambda.Tables) (user : string) (today : Z)
    (study_data : list Backend.Session) :
  (exists r,
     Lambda.get_study_streak_data tables user today = Some r
     /\ Reference.strict_backward_walk
          (fun d => d ∈ Reference.fetched_dates tables user today)
          today (Lambda.sd_current_streak r))
  /\ (exists current_streak longest_streak,
        Backend._calculate_streaks today study_data
        = Some (current_streak, longest_streak)
        /\ (today ∈ Reference.backend_dates study_data ->
            Reference.strict_backward_walk
              (fun d => d ∈ Reference.backend_dates study_data)
              today current_streak)
        /\ (today ∉ Reference.backend_dates study_data ->
            today - 1 ∉ Reference.backend_dates study_data ->
            current_streak = 0)).
Proof.
  split.
  - apply lambda_current_streak_strict.
  - apply backend_current_streak.
Qed.

(** C3 as first stated fails for [_calculate_streaks]: on Friday
    2024-03-15, with the only session dated the day before, today has no
    session and yet the current streak is not 0. *)
Lemma grace_day_breaks_strict_walk :
  let today := 738960 in
  let study_data := [Reference.backend_session (today - 1) Missing 30] in
  Backend._calculate_streaks today study_data = Some (2, 1)
  /\ (today ∉ Reference.backend_dates study_data)
  /\ ~ Reference.strict_backward_walk
         (fun d => d ∈ Reference.backend_dates study_data) today 2.
Proof.
  intros today study_data.
  assert (today ∉ Reference.backend_dates study_data) as Hnot.
  { unfold Reference.backend_dates, study_data, today.
    rewrite elem_of_list_to_set. simpl.
    rewrite list_elem_of_singleton. lia. }
  split; [vm_compute; reflexivity|]. split; [exact Hnot|].
  intros (_ & Hall & _). apply Hnot.
  specialize (Hall 0 ltac:(lia)).
  now replace (today - 0) with today in Hall by lia.
Qed.

(** C4 fails on both streak computations. On 2024-03-15,
    [_calculate_streaks] with one session dated the day before returns a
    current streak of 2 and a longest streak of 1; and
    [get_study_streak_data] with a session, started at 09:00, on each of
    the 91 days of its window returns a current streak of 91 and a
    longest streak of 90. *)
Lemma current_streak_exceeds_longest_streak :
  let today := 738960 in
  Backend._calculate_streaks today [Reference.backend_session (today - 1) Missing 30]
  = Some (2, 1)
  /\ exists r,
       Lambda.get_study_streak_data
         (Reference.stored_tables
            (map (fun d =>
                    Reference.timer_item d (Some (d * 86400 + 9 * 3600)) 30)
               (seqZ (today - 90) 91)) [])
         "u" today = Some r
       /\ Lambda.sd_current_streak r = 91
       /\ Lambda.sd_longest_streak r = 90.
Proof.
  intros today. split; [vm_compute; reflexivity|].
  destruct (Lambda.get_study_streak_data _ "u" today) as [r|] eqn:H;
    vm_compute in H; [|discriminate].
  exists r. injection H as <-. repeat split.
Qed.

(** ** The lookback window of [get_study_streak_data] *)

Section StreakWindow.
Import Lambda Reference.

(** After scanning the days of [l], the run in progress is at most
    [length l] longer, and the longest run is at most the longest so
    far or the run in progress so extended. *)
Lemma longest_streak_fold_bound (study_dates : gset Z) end_date (l : list Z)
    longest temp :
  0 <= longest -> 0 <= temp ->
  let '(longest', temp') :=
    fold_left (longest_streak_step study_dates end_date) l (longest, temp) in
  0 <= longest' /\ 0 <= temp'
  /\ temp' <= temp + Z.of_nat (length l)
  /\ longest' <= Z.max longest (temp + Z.of_nat (length l)).
Proof.
  revert longest temp. induction l as [|i l IH]; intros longest temp Hl Ht.
  - simpl. lia.
  - cbn [fold_left]. unfold longest_streak_step at 2.
    destruct (decide (end_date - i ∈ study_dates)).
    + specialize (IH (Z.max longest (temp + 1)) (temp + 1) ltac:(lia) ltac:(lia)).
      destruct (fold_left _ l _) as [longest' temp'].
      cbn [length]. lia.
    + specialize (IH longest 0 ltac:(lia) ltac:(lia)).
      destruct (fold_left _ l _) as [longest' temp'].
      cbn [length]. lia.
Qed.

Lemma longest_streak_scan_bound (study_dates : gset Z) end_date :
  0 <= longest_streak_scan study_dates end_date <= 90.
Proof.
  unfold longest_streak_scan.
  pose proof (longest_streak_fold_bound study_dates end_date (seqZ 0 90) 0 0
                ltac:(lia) ltac:(lia)) as H.
  destruct (fold_left _ _ _) as [longest temp].
  rewrite length_seqZ in H. simpl. lia.
Qed.

Lemma fold_left_ext_in {A B} (f g : A -> B -> A) (l : list B) (a : A) :
  (forall a' b, b ∈ l -> f a' b = g a' b) ->
  fold_left f l a = fold_left g l a.
Proof.
  revert a. induction l as [|b l IH]; intros a Hfg; [reflexivity|].
  simpl. rewrite Hfg by apply list_elem_of_here.
  apply IH. intros a' b' Hb'. apply Hfg. now apply list_elem_of_further.
Qed.



End StreakWindow.

(** ** Monthly trends *)

(** C5 fails on [generate_monthly_trends]: stepping back [32 * i] days
    from the first of the current month lands, for [i = 1], in the month
    before the previous one. With [months_back = 2] on 2024-03-15 the
    buckets are January and March, and the 60 minutes of 2024-02-10 are
    in neither; on 2024-01-10 they are November and January, and
    December is skipped. *)
Lemma monthly_trends_skip_previous_month :
  let tables :=
    Reference.stored_tables
      [Reference.timer_item (Calendar.mkdate 2024 2 10)
         (Some (Calendar.mkdate 2024 2 10 * 86400 + 9 * 3600)) 60;
       Reference.timer_item (Calendar.mkdate 2023 12 24)
         (Some (Calendar.mkdate 2023 12 24 * 86400 + 9 * 3600)) 45] [] in
  (exists trends,
     Lambda.generate_monthly_trends tables (Calendar.mkdate 2024 3 15) "u" 2
     = Ok trends
     /\ map (fun t => (Lambda.mt_month t, Lambda.mt_total_duration t)) trends
        = [("2024-01"%string, 0); ("2024-03"%string, 0)])
  /\ (exists trends,
        Lambda.generate_monthly_trends tables (Calendar.mkdate 2024 1 10) "u" 2
        = Ok trends
        /\ map (fun t => (Lambda.mt_month t, Lambda.mt_total_duration t)) trends
           = [("2023-11"%string, 0); ("2024-01"%string, 0)]).
Proof.
  intros tables. split.
  - destruct (Lambda.generate_monthly_trends tables (Calendar.mkdate 2024 3 15) "u" 2)
      as [trends|] eqn:H; vm_compute in H; [|discriminate].
    exists trends. injection H as <-. split; reflexivity.
  - destruct (Lambda.generate_monthly_trends tables (Calendar.mkdate 2024 1 10) "u" 2)
      as [trends|] eqn:H; vm_compute in H; [|discriminate].
    exists trends. injection H as <-. split; reflexivity.
Qed.

Lemma same_month_eq (p q : Z * Z) : Reference.same_month p q = true -> p = q.
Proof.
  destruct p as [a b], q as [c d]. unfold Reference.same_month. simpl.
  intros H. apply andb_true_iff in H as [H1 H2].
  apply Z.eqb_eq in H1, H2. congruence.
Qed.

(** Turn 1 of the loop of [generate_monthly_trends], run on each of the
    7305 days from 2020-01-01 (ordinal 737425) to 2039-12-31. *)
Lemma second_bucket_checked :
  forallb
    (fun today =>
       Reference.same_month (Reference.bucket_month today 1)
         (Reference.months_before (Calendar.year today) (Calendar.month today) 2))
    (seqZ 737425 7305)
  = true.
Proof. vm_compute. reflexivity. Qed.

(** On every day from 2020-01-01 to 2039-12-31 the second bucket of
    [generate_monthly_trends] is the month two before the current one,
    never the previous month. *)
Lemma second_bucket_skips_a_month (today : Z) :
  Calendar.mkdate 2020 1 1 <= today <= Calendar.mkdate 2039 12 31 ->
  Reference.bucket_month today 1
  = Reference.months_before (Calendar.year today) (Calendar.month today) 2.
Proof.
  intros Hrange. apply same_month_eq.
  apply (proj1 (forallb_forall _ _) second_bucket_checked today).
  apply list_elem_of_In, elem_of_seqZ.
  change (Calendar.mkdate 2020 1 1) with 737425 in Hrange.
  change (Calendar.mkdate 2039 12 31) with 744729 in Hrange. lia.
Qed.

(** The sibling [_calculate_monthly_trends] steps from the first of a
    month to the first of the next and meets every month: from 2023-11-20
    to 2024-02-10 it reports November, December, January and February. *)
Lemma backend_monthly_trends_meet_every_month :
  let db :=
    {| Backend._get_study_data_for_period := fun _ _ _ => Ok [] |} in
  exists trends,
    Backend._calculate_monthly_trends db "u"
      (Calendar.mkdate 2023 11 20) (Calendar.mkdate 2024 2 10)
    = Some (Ok trends)
    /\ map Backend.month_label trends
       = ["2023-11"; "2023-12"; "2024-01"; "2024-02"]%string.
Proof.
  intros db.
  destruct (Backend._calculate_monthly_trends db "u" _ _) as [[trends|]|] eqn:H;
    vm_compute in H; try discriminate.
  exists trends. injection H as <-. split; reflexivity.
Qed.

(** ** Comparison statistics *)

Section Rounding.

Lemma round_half_even_near (q : Q) :
  (q - (1 # 2) <= inject_Z (Numeric.round_half_even q) <= q + (1 # 2))%Q.
Proof.
  destruct q as [n d]. unfold Numeric.round_half_even. simpl Qnum. simpl Qden.
  pose proof (Z.div_mod n (Z.pos d) ltac:(lia)) as Hdm.
  pose proof (Z.mod_pos_bound n (Z.pos d) ltac:(lia)) as Hr.
  set (f := n / Z.pos d) in *. set (r := n mod Z.pos d) in *.
  assert (forall z : Z,
             2 * (z * Z.pos d) - Z.pos d <= 2 * n <= 2 * (z * Z.pos d) + Z.pos d ->
             ((n # d) - (1 # 2) <= inject_Z z <= (n # d) + (1 # 2))%Q) as Hnear.
  { intros z Hz. unfold Qle, Qminus, Qplus, Qopp, inject_Z. simpl.
    rewrite ?Pos2Z.inj_mul. split; lia. }
  clearbody f r.
  destruct (2 * r ?= Z.pos d) eqn:Hc.
  - rewrite Z.compare_eq_iff in Hc. destruct (Z.even f); apply Hnear; nia.
  - rewrite Z.compare_lt_iff in Hc. apply Hnear; nia.
  - rewrite Z.compare_gt_iff in Hc. apply Hnear; nia.
Qed.

Lemma round1_rounds (q : Q) : Reference.rounded_to_one_decimal q (Numeric.round1 q).
Proof.
  unfold Reference.rounded_to_one_decimal, Numeric.round1.
  set (z := Numeric.round_half_even (q * 10)).
  assert (Qred (z # 10) == inject_Z z / 10)%Q as Hz.
  { rewrite Qred_correct. unfold Qeq, Qdiv, Qmult, Qinv, inject_Z. simpl. lia. }
  split; [exists z; exact Hz|].
  rewrite Hz. pose proof (round_half_even_near (q * 10)) as H. fold z in H.
  split.
  - apply Qle_shift_div_l; [reflexivity|]. lra.
  - apply Qle_shift_div_r; [reflexivity|]. lra.
Qed.
End Rounding.

Section Comparison.
Import Reference.

Lemma percentage_rounded (change previous : Z) :
  rounded_to_one_decimal
    (inject_Z change / inject_Z previous * 100)%Q
    (Numeric.round1 (Numeric.truediv change previous * 100)%Q).
Proof.
  destruct (round1_rounds (Numeric.truediv change previous * 100)%Q) as [Hn Hq].
  split; [exact Hn|].
  pose proof (truediv_eq change previous) as Heq.
  set (x := (inject_Z change / inject_Z previous)%Q) in *. clearbody x.
  set (t := Numeric.truediv change previous) in *. clearbody t.
  set (y := Numeric.round1 (t * 100)%Q) in *. clearbody y.
  lra.
Qed.

Lemma trend_cases (change : Z) :
  let trend :=
    if 0 <? change then Lambda.improving
    else if change <? 0 then Lambda.declining
    else Lambda.stable in
  (trend = Lambda.improving <-> 0 < change)
  /\ (trend = Lambda.declining <-> change < 0)
  /\ (trend = Lambda.stable <-> change = 0).
Proof.
  simpl. destruct (0 <? change) eqn:H1; [|destruct (change <? 0) eqn:H2];
    rewrite ?Z.ltb_lt, ?Z.ltb_ge in *;
    repeat split; intros; try discriminate; try lia; reflexivity.
Qed.
End Comparison.

(** C7, as amended. The change in duration is the integer difference of
    the two totals; the change percentage is that difference over the
    previous total, in percent, rounded to one decimal, and it is 0 when
    the previous total is not positive, so no division by zero occurs;
    the change in sessions is the difference of the two counts; and the
    trend of [_calculate_week_comparison] is improving, declining or
    stable as the change in duration is positive, negative or zero. The
    record of [_calculate_comparison_stats] has no trend. *)
Theorem comparison_stats_exact_up_to_rounding
    (current_sessions previous_sessions : list Lambda.StudySession)
    (current_data previous_data : list Backend.Session) :
  (let c := Lambda._calculate_week_comparison current_sessions previous_sessions in
   let current_total := Numeric.sum (map Lambda.duration current_sessions) in
   let previous_total := Numeric.sum (map Lambda.duration previous_sessions) in
   Lambda.wc_duration_change c = current_total - previous_total
   /\ (0 < previous_total ->
       Reference.rounded_to_one_decimal
         (inject_Z (current_total - previous_total) / inject_Z previous_total * 100)%Q
         (Lambda.wc_duration_change_percentage c))
   /\ (previous_total <= 0 -> Lambda.wc_duration_change_percentage c = 0%Q)
   /\ Lambda.wc_session_change c
      = Numeric.len current_sessions - Numeric.len previous_sessions
   /\ (Lambda.wc_trend c = Lambda.improving <-> 0 < Lambda.wc_duration_change c)
   /\ (Lambda.wc_trend c = Lambda.declining <-> Lambda.wc_duration_change c < 0)
   /\ (Lambda.wc_trend c = Lambda.stable <-> Lambda.wc_duration_change c = 0))
  /\ (let b := Backend._calculate_comparison_stats current_data previous_data in
      let current_total := Numeric.sum (map Backend.duration current_data) in
      let previous_total := Numeric.sum (map Backend.duration previous_data) in
      Backend.duration_change b = current_total - previous_total
      /\ (0 < previous_total ->
          Reference.rounded_to_one_decimal
            (inject_Z (current_total - previous_total) / inject_Z previous_total * 100)%Q
            (Backend.duration_change_percentage b))
      /\ (previous_total <= 0 -> Backend.duration_change_percentage b = 0%Q)
      /\ Backend.session_change b
         = Numeric.len current_data - Numeric.len previous_data).
Proof.
  split.
  - intros c current_total previous_total.
    unfold c, Lambda._calculate_week_comparison. simpl.
    fold current_total previous_total.
    split; [reflexivity|]. split.
    { intros Hpos. apply Z.ltb_lt in Hpos. rewrite Hpos. apply percentage_rounded. }
    split.
    { intros Hle. apply Z.ltb_ge in Hle. rewrite Hle. reflexivity. }
    split; [reflexivity|].
    apply (trend_cases (current_total - previous_total)).
  - intros b current_total previous_total.
    unfold b, Backend._calculate_comparison_stats. simpl.
    fold current_total previous_total.
    split; [reflexivity|]. split.
    { intros Hpos. apply Z.ltb_lt in Hpos. rewrite Hpos. apply percentage_rounded. }
    split; [|reflexivity].
    intros Hle. apply Z.ltb_ge in Hle. rewrite Hle. reflexivity.
Qed.

(** C7 as first stated fails: with 1 minute this period and 3 minutes the
    period before, the change is -2 and the exact percentage is -200/3,
    but the percentage returned is -66.7. *)
Lemma change_percentage_is_rounded :
  let c :=
    Lambda._calculate_week_comparison
      [Reference.study_session 738960 (738960 * 86400 + 9 * 3600) 1]
      [Reference.study_session 738953 (738953 * 86400 + 9 * 3600) 3] in
  Lambda.wc_duration_change c = -2
  /\ Lambda.wc_duration_change_percentage c = (-667 # 10)%Q
  /\ ~ (Lambda.wc_duration_change_percentage c
        == inject_Z (1 - 3) / inject_Z 3 * 100)%Q.
Proof.
  intros c. split; [reflexivity|]. split; [reflexivity|].
  intros H. vm_compute in H. discriminate.
Qed.

(** ** Storage failures *)

(** C9, as amended. A [ClientError] of a table query is replaced by an
    empty list for that table, so [get_study_sessions_by_date_range]
    never raises a [ClientError]; when both table queries raise it, the
    fetch returns the empty session list as a success; and
    [get_study_streak_data] returns the zeroed streak record whenever the
    fetch raises, whatever it raises. *)
Theorem storage_failures_become_empty_results
    (tables : Lambda.Tables) (user : string) (start_date end_date today : Z) :
  Lambda.get_study_sessions_by_date_range tables user start_date end_date
  <> Raise ClientError
  /\ (Lambda.timer_table_query tables user start_date end_date = Raise ClientError ->
      Lambda._get_timer_sessions tables user start_date end_date = Ok [])
  /\ (Lambda.records_table_query tables user start_date end_date = Raise ClientError ->
      Lambda._get_record_sessions tables user start_date end_date = Ok [])
  /\ (Lambda.timer_table_query tables user start_date end_date = Raise ClientError ->
      Lambda.records_table_query tables user start_date end_date = Raise ClientError ->
      Lambda.get_study_sessions_by_date_range tables user start_date end_date = Ok [])
  /\ (forall e,
        Lambda.get_study_sessions_by_date_range tables user (today - 90) today
        = Raise e ->
        Lambda.get_study_streak_data tables user today
        = Some Lambda.zero_streak_data).
Proof.
  split.
  { unfold Lambda.get_study_sessions_by_date_range, except_ClientError.
    destruct (bind _ _) as [l|e]; [discriminate|]. destruct e; discriminate. }
  split.
  { intros H. unfold Lambda._get_timer_sessions. rewrite H. reflexivity. }
  split.
  { intros H. unfold Lambda._get_record_sessions. rewrite H. reflexivity. }
  split.
  { intros Ht Hr.
    unfold Lambda.get_study_sessions_by_date_range, Lambda._get_timer_sessions,
      Lambda._get_record_sessions.
    rewrite Ht, Hr. reflexivity. }
  intros e H. unfold Lambda.get_study_streak_data. rewrite H. reflexivity.
Qed.

(** Both table queries raise [ClientError] for the 90 days up to
    2024-03-15. *)
Lemma storage_failures_become_empty_results_witness :
  let tables := Reference.failing_tables ClientError in
  Lambda.get_study_sessions_by_date_range tables "u" 738870 738960 = Ok [].
Proof.
  intros tables.
  apply (storage_failures_become_empty_results tables "u" 738870 738960 738960);
    reflexivity.
Defined.

(** C9 as first stated fails: with both table queries raising
    [ClientError], the fetch succeeds with the empty session list and
    the streak record is the zeroed one; no error reaches the caller. *)
Lemma storage_failure_returned_as_empty_success :
  let tables := Reference.failing_tables ClientError in
  Lambda.timer_table_query tables "u" 738870 738960 = Raise ClientError
  /\ Lambda.records_table_query tables "u" 738870 738960 = Raise ClientError
  /\ Lambda.get_study_sessions_by_date_range tables "u" 738870 738960 = Ok []
  /\ Lambda.get_study_streak_data tables "u" 738960
     = Some Lambda.zero_streak_data.
Proof. intros tables. repeat split. Qed.

(** ** The empty session list *)

Section EmptySessions.
Import Reference.







End EmptySessions.


(** ** Peak hours *)

Lemma filter_none {A} (P : A -> Prop) `{forall x, Decision (P x)} (l : list A) :
  Forall (fun x => ~ P x) l -> filter P l = [].
Proof.
  induction 1 as [|x l Hx _ IH]; [reflexivity|].
  rewrite filter_cons_False by assumption. exact IH.
Qed.

Section StableSorting.
Context {A : Type}.
Variable key : A -> Z.

Lemma insert_sorted_desc_sorted (x : A) (l : list A) :
  StronglySorted (fun a b => key b <= key a) l ->
  StronglySorted (fun a b => key b <= key a)
    (PySort.insert_sorted (fun a b => key b <=? key a) x l).
Proof.
  induction 1 as [|y l Hl IH Hy]; simpl.
  - repeat constructor.
  - destruct (key x <=? key y) eqn:Hxy.
    + apply Z.leb_le in Hxy. constructor; [exact IH|].
      eapply Permutation_Forall.
      * symmetry. apply insert_sorted_perm.
      * constructor; assumption.
    + apply Z.leb_gt in Hxy. constructor.
      * constructor; assumption.
      * constructor; [lia|].
        eapply Forall_impl; [exact Hy|]. simpl. intros a Ha. lia.
Qed.

Lemma sorted_by_key_reverse_sorted (l : list A) :
  StronglySorted (fun a b => key b <= key a) (PySort.sorted_by_key_reverse key l).
Proof.
  unfold PySort.sorted_by_key_reverse.
  induction l as [|x l IH] using rev_ind; [constructor|].
  rewrite stable_sort_snoc. now apply insert_sorted_desc_sorted.
Qed.

(** An element inserted into a sorted list goes behind the elements of
    its own key. *)
Lemma insert_sorted_desc_stable (v : Z) (x : A) (l : list A) :
  StronglySorted (fun a b => key b <= key a) l ->
  filter (fun a => key a = v)
    (PySort.insert_sorted (fun a b => key b <=? key a) x l)
  = filter (fun a => key a = v) l ++ filter (fun a => key a = v) [x].
Proof.
  induction 1 as [|y l Hl IH Hy]; simpl; [reflexivity|].
  destruct (key x <=? key y) eqn:Hxy.
  - rewrite !(filter_cons _ y), IH. destruct (decide (key y = v)); reflexivity.
  - apply Z.leb_gt in Hxy. rewrite (filter_cons _ x).
    destruct (decide (key x = v)) as [Hv|Hv].
    + replace (filter (fun a => key a = v) (y :: l)) with (@nil A).
      * rewrite filter_cons_True by exact Hv. reflexivity.
      * symmetry. apply filter_none. constructor; [lia|].
        eapply Forall_impl; [exact Hy|]. simpl. intros a Ha. lia.
    + rewrite (filter_cons_False _ x) by exact Hv.
      rewrite filter_nil, app_nil_r. reflexivity.
Qed.
End StableSorting.

Section Ranking.
Import Reference.

(** [sorted(..., reverse=True)] keeps the input order among equal keys. *)
Lemma sorted_by_key_reverse_stable {A} (key : A -> Z) (v : Z) (l : list A) :
  filter (fun a => key a = v) (PySort.sorted_by_key_reverse key l)
  = filter (fun a => key a = v) l.
Proof.
  induction l as [|x l IH] using rev_ind; [reflexivity|].
  unfold PySort.sorted_by_key_reverse in *. rewrite stable_sort_snoc.
  rewrite insert_sorted_desc_stable by apply sorted_by_key_reverse_sorted.
  rewrite IH, filter_app. reflexivity.
Qed.

Lemma insert_sorted_ext {A} (le1 le2 : A -> A -> bool) (x : A) (l : list A) :
  (forall a b, le1 a b = le2 a b) ->
  PySort.insert_sorted le1 x l = PySort.insert_sorted le2 x l.
Proof.
  intros Hle. induction l as [|y l IH]; simpl; [reflexivity|].
  rewrite Hle, IH. reflexivity.
Qed.

Lemma sorted_by_key_reverse_ext {A} (key1 key2 : A -> Z) (l : list A) :
  (forall a, key1 a = key2 a) ->
  PySort.sorted_by_key_reverse key1 l = PySort.sorted_by_key_reverse key2 l.
Proof.
  intros Hkey. unfold PySort.sorted_by_key_reverse.
  induction l as [|x l IH] using rev_ind; [reflexivity|].
  rewrite !stable_sort_snoc, IH.
  apply insert_sorted_ext. intros a b. now rewrite !Hkey.
Qed.

Lemma sorted_by_key_reverse_ranked (total : Z -> Z) (seen : list Z) :
  ranked_by_total total seen (PySort.sorted_by_key_reverse total seen).
Proof.
  split; [apply stable_sort_perm|].
  split; [apply sorted_by_key_reverse_sorted|].
  intros v. apply sorted_by_key_reverse_stable.
Qed.

(** *** Dictionaries *)

Lemma keys_update {V} (k : Z) (f : V -> V) (dflt : V) (d : list (Z * V)) :
  PyDict.keys (PyDict.update k f dflt d)
  = if decide (k ∈ PyDict.keys d) then PyDict.keys d else PyDict.keys d ++ [k].
Proof.
  unfold PyDict.keys. induction d as [|[k' v] d IH]; simpl.
  - destruct (decide (k ∈ [])) as [Hin|_]; [inversion Hin|reflexivity].
  - destruct (decide (k' = k)) as [->|Hne]; simpl.
    + rewrite decide_True by apply list_elem_of_here. reflexivity.
    + rewrite IH.
      destruct (decide (k ∈ map fst d)) as [Hin|Hnin].
      * rewrite decide_True by now apply list_elem_of_further. reflexivity.
      * rewrite decide_False; [reflexivity|].
        intros Hin. apply elem_of_cons in Hin as [->|Hin]; tauto.
Qed.

Lemma get_update (k k' : Z) (f : Z -> Z) (dflt : Z) (d : list (Z * Z)) :
  PyDict.get k' dflt (PyDict.update k f dflt d)
  = if decide (k = k') then f (PyDict.get k dflt d) else PyDict.get k' dflt d.
Proof.
  induction d as [|[k0 v] d IH]; simpl.
  - destruct (decide (k = k')); reflexivity.
  - destruct (decide (k0 = k)) as [->|Hne]; simpl.
    + destruct (decide (k = k')); reflexivity.
    + rewrite IH. destruct (decide (k0 = k')) as [->|Hne'].
      * rewrite (decide_False (P := k = k')) by congruence. reflexivity.
      * reflexivity.
Qed.

Lemma first_seen_snoc (l : list Z) (x : Z) :
  first_seen (l ++ [x])
  = if decide (x ∈ first_seen l) then first_seen l else first_seen l ++ [x].
Proof. unfold first_seen. now rewrite fold_left_app. Qed.

(** *** The hourly totals of the lambda *)

Lemma lambda_hourly_keys (study_sessions : list Lambda.StudySession) :
  PyDict.keys (Lambda.hourly_totals study_sessions)
  = first_seen (start_hours study_sessions).
Proof.
  unfold Lambda.hourly_totals, start_hours.
  induction study_sessions as [|s l IH] using rev_ind; [reflexivity|].
  rewrite fold_left_app, map_app. simpl.
  rewrite keys_update, first_seen_snoc, IH. reflexivity.
Qed.

Lemma lambda_hourly_get (study_sessions : list Lambda.StudySession) (h : Z) :
  PyDict.get h 0 (Lambda.hourly_totals study_sessions)
  = hour_total study_sessions h.
Proof.
  unfold Lambda.hourly_totals, hour_total.
  induction study_sessions as [|s l IH] using rev_ind; [reflexivity|].
  rewrite fold_left_app, filter_app, map_app, sum_app. simpl.
  rewrite filter_cons, filter_nil.
  rewrite get_update.
  destruct (decide (Calendar.hour (Lambda.start_time s) = h)) as [Heq|Hne].
  - rewrite Heq, IH. unfold Numeric.sum. simpl. lia.
  - rewrite IH. unfold Numeric.sum. simpl. lia.
Qed.

Lemma lambda_peak_hours_ranked (study_sessions : list Lambda.StudySession) :
  exists ranking,
    Lambda.top3_keys (Lambda.hourly_totals study_sessions) = take 3 ranking
    /\ ranked_by_total (hour_total study_sessions)
         (first_seen (start_hours study_sessions)) ranking.
Proof.
  exists (PySort.sorted_by_key_reverse (hour_total study_sessions)
            (first_seen (start_hours study_sessions))).
  split; [|apply sorted_by_key_reverse_ranked].
  unfold Lambda.top3_keys. rewrite lambda_hourly_keys. f_equal.
  apply sorted_by_key_reverse_ext, lambda_hourly_get.
Qed.

(** *** The hourly totals of the backend *)

Lemma backend_hourly_keys (study_data : list Backend.Session) :
  PyDict.keys (Backend.hourly_totals study_data)
  = first_seen (backend_start_hours study_data).
Proof.
  unfold Backend.hourly_totals, backend_start_hours.
  induction study_data as [|s l IH] using rev_ind; [reflexivity|].
  rewrite fold_left_app, omap_app. simpl.
  change (backend_start_hour s)
    with (match Backend.start_time s with
          | Parsed dt => Some (Calendar.hour dt)
          | Missing | NotAString | Malformed => None
          end).
  destruct (Backend.start_time s) as [| | |t]; simpl.
  - rewrite app_nil_r. exact IH.
  - rewrite app_nil_r. exact IH.
  - rewrite app_nil_r. exact IH.
  - rewrite keys_update, first_seen_snoc, IH. reflexivity.
Qed.

Lemma backend_hourly_get (study_data : list Backend.Session) (h : Z) :
  PyDict.get h 0 (Backend.hourly_totals study_data)
  = backend_hour_total study_data h.
Proof.
  unfold Backend.hourly_totals, backend_hour_total.
  induction study_data as [|s l IH] using rev_ind; [reflexivity|].
  rewrite fold_left_app, filter_app, map_app, sum_app. simpl.
  rewrite filter_cons, filter_nil.
  change (backend_start_hour s)
    with (match Backend.start_time s with
          | Parsed dt => Some (Calendar.hour dt)
          | Missing | NotAString | Malformed => None
          end).
  destruct (Backend.start_time s) as [| | |t]; simpl.
  - rewrite IH. try case_decide; try discriminate. unfold Numeric.sum. simpl. lia.
  - rewrite IH. try case_decide; try discriminate. unfold Numeric.sum. simpl. lia.
  - rewrite IH. try case_decide; try discriminate. unfold Numeric.sum. simpl. lia.
  - rewrite get_update.
    destruct (decide (Calendar.hour t = h)) as [->|Hne];
      rewrite IH; case_decide; try congruence; unfold Numeric.sum; simpl; lia.
Qed.

Lemma backend_peak_hours_ranked (study_data : list Backend.Session) :
  exists ranking,
    Backend.peak_hours (Backend._calculate_productivity_insights study_data)
    = take 3 ranking
    /\ ranked_by_total (backend_hour_total study_data)
         (first_seen (backend_start_hours study_data)) ranking.
Proof.
  exists (PySort.sorted_by_key_reverse (backend_hour_total study_data)
            (first_seen (backend_start_hours study_data))).
  split; [|apply sorted_by_key_reverse_ranked].
  unfold Backend._calculate_productivity_insights. simpl.
  rewrite backend_hourly_keys. f_equal.
  apply sorted_by_key_reverse_ext, backend_hourly_get.
Qed.
End Ranking.

Lemma productivity_metrics_returns
    (study_sessions : list Lambda.StudySession) (analysis_period_days : Z) :
  analysis_period_days <> 0 ->
  exists metrics,
    Lambda.productivity_metrics_of study_sessions analysis_period_days = Ok metrics
    /\ Lambda.pm_peak_hours metrics
       = Lambda.top3_keys (Lambda.hourly_totals study_sessions).
Proof.
  intros Hperiod. apply Z.eqb_neq in Hperiod.
  unfold Lambda.productivity_metrics_of, Lambda._generate_improvement_suggestions.
  rewrite Hperiod. cbn [bind]. eexists. split; reflexivity.
Qed.

(** C6, as amended. [peak_hours] holds at most 3 hours: the first three
    of the ranking of the hours in which sessions start (sessions without
    a start time left out) by summed duration, larger totals first; hours
    of equal total keep the order in which they are first seen in the
    session list. This is so in [generate_productivity_metrics], which
    returns for every period other than 0 days, and in
    [_calculate_productivity_insights]. *)
Theorem peak_hours_ranked_ties_first_seen
    (study_sessions : list Lambda.StudySession) (analysis_period_days : Z)
    (study_data : list Backend.Session) :
  analysis_period_days <> 0 ->
  (exists metrics ranking,
     Lambda.productivity_metrics_of study_sessions analysis_period_days = Ok metrics
     /\ (length (Lambda.pm_peak_hours metrics) <= 3)%nat
     /\ Lambda.pm_peak_hours metrics = take 3 ranking
     /\ Reference.ranked_by_total (Reference.hour_total study_sessions)
          (Reference.first_seen (Reference.start_hours study_sessions)) ranking)
  /\ (exists ranking,
        let insight := Backend._calculate_productivity_insights study_data in
        (length (Backend.peak_hours insight) <= 3)%nat
        /\ Backend.peak_hours insight = take 3 ranking
        /\ Reference.ranked_by_total (Reference.backend_hour_total study_data)
             (Reference.first_seen (Reference.backend_start_hours study_data))
             ranking).
Proof.
  intros Hperiod. split.
  - destruct (productivity_metrics_returns study_sessions analysis_period_days Hperiod)
      as (metrics & Hm & Hpeak).
    destruct (lambda_peak_hours_ranked study_sessions) as (ranking & Htake & Hrank).
    exists metrics, ranking. rewrite Hpeak, Htake.
    repeat split; try apply Hrank; try assumption.
    rewrite length_take. lia.
  - destruct (backend_peak_hours_ranked study_data) as (ranking & Htake & Hrank).
    exists ranking. cbv zeta. rewrite Htake.
    repeat split; try apply Hrank.
    rewrite length_take. lia.
Qed.

(** Sessions at 10:00, 09:00 and 11:00 of 30, 30 and 40 minutes. *)
Lemma peak_hours_ranked_ties_first_seen_witness :
  let study_sessions :=
    [Reference.study_session 738959 (738959 * 86400 + 10 * 3600) 30;
     Reference.study_session 738960 (738960 * 86400 + 9 * 3600) 30;
     Reference.study_session 738960 (738960 * 86400 + 11 * 3600) 40] in
  exists metrics,
    Lambda.productivity_metrics_of study_sessions 30 = Ok metrics
    /\ Lambda.pm_peak_hours metrics = [11; 10; 9]
    /\ (length (Lambda.pm_peak_hours metrics) <= 3)%nat.
Proof.
  intros study_sessions.
  destruct (peak_hours_ranked_ties_first_seen study_sessions 30 [] ltac:(discriminate))
    as [(metrics & ranking & Hm & Hlen & _) _].
  exists metrics. split; [exact Hm|]. split; [|exact Hlen].
  vm_compute in Hm. injection Hm as <-. reflexivity.
Defined.

(** C6 as first stated fails: with 30 minutes at 10:00 on 2024-03-14 and
    30 minutes at 09:00 on 2024-03-15, the hours 10 and 9 tie and the
    peak hours are 10 and then 9, the larger hour first; with the two
    days exchanged they are 9 and then 10. *)
Lemma peak_hours_tie_follows_first_seen :
  let at_10 d := Reference.timer_item d (Some (d * 86400 + 10 * 3600)) 30 in
  let at_9 d := Reference.timer_item d (Some (d * 86400 + 9 * 3600)) 30 in
  (exists metrics,
     Lambda.generate_productivity_metrics
       (Reference.stored_tables [at_10 738959; at_9 738960] []) 738960 "u" 30
     = Ok metrics
     /\ Lambda.pm_peak_hours metrics = [10; 9])
  /\ (exists metrics,
        Lambda.generate_productivity_metrics
          (Reference.stored_tables [at_9 738959; at_10 738960] []) 738960 "u" 30
        = Ok metrics
        /\ Lambda.pm_peak_hours metrics = [9; 10])
  /\ Backend.peak_hours
       (Backend._calculate_productivity_insights
          [Reference.backend_session 738959 (Parsed (Calendar.utc (738959 * 86400 + 10 * 3600))) 30;
           Reference.backend_session 738960 (Parsed (Calendar.utc (738960 * 86400 + 9 * 3600))) 30])
     = [10; 9].
Proof.
  intros at_10 at_9. split; [|split].
  - destruct (Lambda.generate_productivity_metrics _ 738960 "u" 30) as [m|] eqn:H;
      vm_compute in H; [|discriminate].
    exists m. injection H as <-. split; reflexivity.
  - destruct (Lambda.generate_productivity_metrics _ 738960 "u" 30) as [m|] eqn:H;
      vm_compute in H; [|discriminate].
    exists m. injection H as <-. split; reflexivity.
  - vm_compute. reflexivity.
Qed.

(** * Further properties *)

(** ** The cache service *)

Section CacheFacts.
Context {A : Type}.
Implicit Types (cache : list (string * Cache.CacheItem A)) (item : Cache.CacheItem A).

Lemma cache_lookup_assign key item cache :
  Cache.lookup key (Cache.assign key item cache) = Some item.
Proof.
  unfold Cache.assign. induction cache as [|[k v] rest IH]; simpl.
  - rewrite decide_True by reflexivity. reflexivity.
  - destruct (decide (k = key)) as [->|Hne]; simpl.
    + rewrite decide_True by reflexivity. reflexivity.
    + rewrite decide_False by exact Hne. exact IH.
Qed.

Lemma cache_lookup_assign_ne key key' item cache :
  key <> key' ->
  Cache.lookup key' (Cache.assign key item cache) = Cache.lookup key' cache.
Proof.
  intros Hne. unfold Cache.assign. induction cache as [|[k v] rest IH]; simpl.
  - rewrite decide_False by exact Hne. reflexivity.
  - destruct (decide (k = key)) as [->|Hk]; simpl.
    + rewrite !decide_False by exact Hne. reflexivity.
    + destruct (decide (k = key')); [reflexivity|exact IH].
Qed.

Lemma cache_length_assign key item cache :
  (length (Cache.assign key item cache) <= S (length cache))%nat.
Proof.
  unfold Cache.assign. induction cache as [|[k v] rest IH]; simpl; [lia|].
  destruct (decide (k = key)); simpl; lia.
Qed.

Lemma cache_lookup_remove key cache :
  Cache.lookup key (Cache.remove key cache) = None.
Proof.
  unfold Cache.remove. induction cache as [|[k v] rest IH]; [reflexivity|].
  rewrite filter_cons. simpl. destruct (decide (k <> key)) as [Hne|Heq]; simpl.
  - rewrite decide_False by exact Hne. exact IH.
  - exact IH.
Qed.

Lemma cache_lookup_remove_ne key key' cache :
  key <> key' ->
  Cache.lookup key' (Cache.remove key cache) = Cache.lookup key' cache.
Proof.
  intros Hne. unfold Cache.remove. induction cache as [|[k v] rest IH]; [reflexivity|].
  rewrite filter_cons. simpl. destruct (decide (k <> key)) as [Hk|Hk]; simpl.
  - rewrite IH. reflexivity.
  - apply dec_stable in Hk. subst k.
    rewrite decide_False by exact Hne. exact IH.
Qed.

Lemma cache_length_remove key cache :
  is_Some (Cache.lookup key cache) ->
  (length (Cache.remove key cache) < length cache)%nat.
Proof.
  unfold Cache.remove. induction cache as [|[k v] rest IH].
  - intros [x Hx]. discriminate.
  - rewrite filter_cons. simpl.
    pose proof (length_filter (fun e : string * Cache.CacheItem A => fst e <> key) rest).
    destruct (decide (k = key)) as [->|Hne].
    + intros _. rewrite decide_False by (intros H'; apply H'; reflexivity). lia.
    + intros Hsome. rewrite decide_True by exact Hne. simpl.
      specialize (IH Hsome). lia.
Qed.

Lemma cache_oldest_key_found cache :
  cache <> [] ->
  exists k, Cache.oldest_key cache = Some k /\ is_Some (Cache.lookup k cache).
Proof.
  induction cache as [|[k v] rest IH]; [congruence|]. intros _. simpl.
  destruct (forallb _ rest) eqn:Hall.
  - exists k. rewrite decide_True by reflexivity. eauto.
  - destruct rest as [|e rest']; [discriminate|].
    destruct IH as (k' & Hk' & Hin); [congruence|].
    exists k'. split; [exact Hk'|].
    destruct (decide (k = k')); [eauto|exact Hin].
Qed.
End CacheFacts.

(** X1. When the expiry [now + ttl] is an instant that a datetime can
    hold, [set] returns [True], and the value stored in a cache of
    fewer than 100 entries is what [get] returns for that key at any
    instant up to the expiry. Otherwise (the addition overflows) [set]
    returns [False] and leaves the cache as it was. *)
Theorem cache_set_then_get {A} (default_ttl now now' : Z) (key : string)
    (value : A) (ttl_arg : option Z) (cache : list (string * Cache.CacheItem A)) :
  let expires := now + Cache.effective_ttl default_ttl ttl_arg in
  let after := Cache.set default_ttl now key value ttl_arg cache in
  if (Cache.min_instant <=? expires) && (expires <=? Cache.max_instant)
  then
    fst after = true
    /\ ((length cache < 100)%nat -> now' <= expires ->
        fst (Cache.get now' key (snd after)) = Some value)
  else after = (false, cache).
Proof.
  intros expires after. unfold after, Cache.set. cbv zeta. fold expires.
  destruct ((Cache.min_instant <=? expires) && (expires <=? Cache.max_instant));
    [|reflexivity].
  split; [reflexivity|]. intros Hlen Hnow. cbn [snd].
  match goal with
  | |- context [Cache.assign key ?i cache] => set (item := i)
  end.
  pose proof (cache_length_assign key item cache) as Hassign.
  replace (100 <? Numeric.len (Cache.assign key item cache)) with false
    by (symmetry; apply Z.ltb_ge; unfold Numeric.len; lia).
  unfold Cache.get. rewrite cache_lookup_assign. simpl.
  replace (expires <? now') with false by (symmetry; apply Z.ltb_ge; lia).
  reflexivity.
Qed.

Lemma cache_set_then_get_witness :
  fst (Cache.get 63846144050 "weekly"
         (snd (Cache.set 300 63846144000 "weekly" 7 (Some 60) []))) = Some 7
  /\ Cache.set 300 63846144000 "weekly" 7 (Some 1000000000000) []
     = (false, []).
Proof.
  split.
  - apply (cache_set_then_get 300 63846144000 63846144050 "weekly" 7 (Some 60) []);
      simpl; lia.
  - exact (cache_set_then_get 300 63846144000 0 "weekly" 7
             (Some 1000000000000) []).
Defined.

(** X2. [set] keeps the cache within its limit: a cache of at most 100
    entries has at most 100 entries after any [set]. *)
Theorem cache_set_keeps_limit {A} (default_ttl now : Z) (key : string)
    (value : A) (ttl_arg : option Z) (cache : list (string * Cache.CacheItem A)) :
  (length cache <= 100)%nat ->
  (length (snd (Cache.set default_ttl now key value ttl_arg cache)) <= 100)%nat.
Proof.
  intros Hlen. unfold Cache.set. cbv zeta.
  destruct (_ && _); [|exact Hlen]. cbn [snd].
  match goal with
  | |- context [Cache.assign key ?i cache] => set (item := i)
  end.
  pose proof (cache_length_assign key item cache) as Hassign.
  destruct (100 <? Numeric.len (Cache.assign key item cache)) eqn:Hover.
  - unfold Cache._evict_oldest.
    destruct (cache_oldest_key_found (Cache.assign key item cache))
      as (k & Hk & Hin).
    { intros Hnil. rewrite Hnil in Hover. discriminate. }
    rewrite Hk. pose proof (cache_length_remove k _ Hin). lia.
  - apply Z.ltb_ge in Hover. unfold Numeric.len in Hover. lia.
Qed.

Lemma cache_set_keeps_limit_witness :
  (length (snd (Cache.set 300 63846144000 "k" 7 None
             (map (fun i => (Calendar.zero_padded 3 i,
                             {| Cache.data := 0; Cache.created_at := i;
                                Cache.expires_at := i + 300; Cache.ttl := 300;
                                Cache.hit_count := 0;
                                Cache.last_accessed := None |}))
                  (seqZ 0 100)))) <= 100)%nat.
Proof.
  apply cache_set_keeps_limit. rewrite length_map, length_seqZ. simpl. lia.
Defined.

(** X3. [get] never serves an expired entry: a value it returns is that
    of an entry whose expiry is not before the instant of the call, and
    an entry past its expiry yields nothing and is deleted. *)
Theorem cache_get_respects_expiry {A} (now : Z) (key : string)
    (cache : list (string * Cache.CacheItem A)) :
  (forall value,
     fst (Cache.get now key cache) = Some value ->
     exists item,
       Cache.lookup key cache = Some item
       /\ Cache.data item = value
       /\ now <= Cache.expires_at item)
  /\ (forall item,
        Cache.lookup key cache = Some item ->
        Cache.expires_at item < now ->
        fst (Cache.get now key cache) = None
        /\ Cache.lookup key (snd (Cache.get now key cache)) = None).
Proof.
  unfold Cache.get. split.
  - intros value. destruct (Cache.lookup key cache) as [item|]; [|discriminate].
    destruct (Cache.expires_at item <? now) eqn:Hexp; [discriminate|].
    simpl. intros [= <-]. exists item. apply Z.ltb_ge in Hexp. auto.
  - intros item -> Hexp. apply Z.ltb_lt in Hexp. rewrite Hexp. simpl.
    split; [reflexivity|apply cache_lookup_remove].
Qed.

Lemma cache_get_respects_expiry_witness :
  let entry : Cache.CacheItem Z :=
    {| Cache.data := 7; Cache.created_at := 0; Cache.expires_at := 50;
       Cache.ttl := 50; Cache.hit_count := 0; Cache.last_accessed := None |} in
  let cache := [("a", entry)] in
  (exists item,
     Cache.lookup "a" cache = Some item
     /\ Cache.data item = 7
     /\ 30 <= Cache.expires_at item)
  /\ fst (Cache.get 60 "a" cache) = None
  /\ Cache.lookup "a" (snd (Cache.get 60 "a" cache)) = None.
Proof.
  intros entry cache. split.
  - exact (proj1 (cache_get_respects_expiry 30 "a" cache) 7 eq_refl).
  - apply (proj2 (cache_get_respects_expiry 60 "a" cache) entry);
      [reflexivity|simpl; lia].
Defined.

(** X4. After [delete], the key is gone and every other key is as it
    was. *)
Theorem cache_delete_removes_only_key {A} (key : string)
    (cache : list (string * Cache.CacheItem A)) :
  Cache.lookup key (Cache.delete key cache) = None
  /\ forall key', key <> key' ->
       Cache.lookup key' (Cache.delete key cache) = Cache.lookup key' cache.
Proof.
  unfold Cache.delete. destruct (Cache.lookup key cache) eqn:Hl.
  - split; [apply cache_lookup_remove|].
    intros key' Hne. now apply cache_lookup_remove_ne.
  - split; [exact Hl|reflexivity].
Qed.

Lemma cache_delete_removes_only_key_witness :
  let entry : Cache.CacheItem Z :=
    {| Cache.data := 7; Cache.created_at := 0; Cache.expires_at := 50;
       Cache.ttl := 50; Cache.hit_count := 0; Cache.last_accessed := None |} in
  let cache := [("a", entry); ("b", entry)] in
  Cache.lookup "a" (Cache.delete "a" cache) = None
  /\ Cache.lookup "b" (Cache.delete "a" cache) = Cache.lookup "b" cache.
Proof.
  intros entry cache.
  destruct (cache_delete_removes_only_key "a" cache) as [Hgone Hkept].
  split; [exact Hgone|]. apply Hkept. discriminate.
Defined.

Section CacheCleanup.
Context {A : Type}.
Implicit Types (cache : list (string * Cache.CacheItem A)).

Lemma length_filter_split {B} (P : B -> Prop) `{forall x, Decision (P x)}
    (l : list B) :
  length l = (length (filter P l) + length (filter (fun x => ~ P x) l))%nat.
Proof.
  induction l as [|x l IH]; [reflexivity|].
  rewrite !filter_cons.
  destruct (decide (P x)), (decide (~ P x)); simpl; try tauto; lia.
Qed.

Lemma cache_remove_all (keys : list string) cache :
  fold_left (fun c k => Cache.remove k c) keys cache
  = filter (fun e => fst e ∉ keys) cache.
Proof.
  revert cache. induction keys as [|k keys IH]; intros cache; simpl.
  - symmetry. apply filter_all. apply Forall_forall. intros e _ Hin. inversion Hin.
  - rewrite IH. unfold Cache.remove.
    induction cache as [|e cache IHc]; [reflexivity|].
    rewrite !(filter_cons _ e).
    destruct (decide (fst e <> k)) as [Hne|Heq].
    + rewrite filter_cons, IHc.
      destruct (decide (fst e ∉ keys)) as [Hk|Hk].
      * rewrite decide_True; [reflexivity|].
        intros Hin. apply elem_of_cons in Hin as [Hin|Hin]; tauto.
      * rewrite decide_False; [reflexivity|].
        intros Hn. apply Hk. intros Hin. apply Hn. now apply list_elem_of_further.
    + rewrite IHc. rewrite decide_False; [reflexivity|].
      intros Hn. apply Heq. intros Hek. apply Hn. rewrite Hek.
      apply list_elem_of_here.
Qed.

Lemma unique_key_entry cache e e' :
  NoDup (map fst cache) -> e ∈ cache -> e' ∈ cache -> fst e = fst e' -> e = e'.
Proof.
  induction cache as [|x cache IH]; intros Hnd He He' Hfst; [inversion He|].
  apply NoDup_cons in Hnd as [Hx Hnd].
  apply elem_of_cons in He as [He|He]; apply elem_of_cons in He' as [He'|He'].
  - congruence.
  - exfalso. apply Hx. rewrite <- He, Hfst.
    apply (list_elem_of_fmap_2 fst). exact He'.
  - exfalso. apply Hx. rewrite <- He', <- Hfst.
    apply (list_elem_of_fmap_2 fst). exact He.
  - now apply IH.
Qed.
End CacheCleanup.

(** X5. On a cache with distinct keys, [cleanup_expired] deletes
    exactly the entries whose expiry is before the instant of the call,
    keeps the others in their order, and returns the number deleted. *)
Theorem cache_cleanup_removes_expired {A} (now : Z)
    (cache : list (string * Cache.CacheItem A)) :
  NoDup (map fst cache) ->
  snd (Cache.cleanup_expired now cache)
  = filter (fun e => now <= Cache.expires_at (snd e)) cache
  /\ fst (Cache.cleanup_expired now cache)
     = Numeric.len cache - Numeric.len (snd (Cache.cleanup_expired now cache))
  /\ Forall (fun e => now <= Cache.expires_at (snd e))
       (snd (Cache.cleanup_expired now cache)).
Proof.
  intros Hnd.
  assert (snd (Cache.cleanup_expired now cache)
          = filter (fun e => now <= Cache.expires_at (snd e)) cache) as Hkept.
  { unfold Cache.cleanup_expired. simpl. rewrite cache_remove_all.
    apply filter_ext_in. intros e He. split.
    - intros Hnot. destruct (Z_le_gt_dec now (Cache.expires_at (snd e))); [assumption|].
      exfalso. apply Hnot. apply list_elem_of_fmap_2.
      apply list_elem_of_filter. split; [lia|exact He].
    - intros Hle Hin. apply list_elem_of_fmap in Hin as (e' & Hfst & He').
      apply list_elem_of_filter in He' as [Hexp He'].
      assert (e = e') as -> by (eapply unique_key_entry; eassumption).
      lia. }
  split; [exact Hkept|]. split.
  - rewrite Hkept. unfold Cache.cleanup_expired, Numeric.len. simpl.
    rewrite length_map.
    rewrite (length_filter_split (fun e => Cache.expires_at (snd e) < now) cache).
    rewrite (filter_ext_in (fun e => ~ Cache.expires_at (snd e) < now)
               (fun e => now <= Cache.expires_at (snd e)) cache)
      by (intros; lia).
    lia.
  - rewrite Hkept. apply Forall_forall. intros e He.
    now apply list_elem_of_filter in He as [He _].
Qed.

Lemma cache_cleanup_removes_expired_witness :
  let entry expires : Cache.CacheItem Z :=
    {| Cache.data := 0; Cache.created_at := 0; Cache.expires_at := expires;
       Cache.ttl := 300; Cache.hit_count := 0; Cache.last_accessed := None |} in
  fst (Cache.cleanup_expired 500 [("a"%string, entry 300); ("b"%string, entry 700)])
  = 1.
Proof.
  intros entry.
  assert (NoDup (map fst [("a"%string, entry 300); ("b"%string, entry 700)]))
    as Hnd.
  { apply NoDup_cons. split.
    - rewrite list_elem_of_singleton. discriminate.
    - apply NoDup_singleton. }
  destruct (cache_cleanup_removes_expired 500 _ Hnd) as (_ & Hcount & _).
  rewrite Hcount. reflexivity.
Defined.

(** ** Daily summaries and suggestions *)

Lemma daily_loop_days (l : list Lambda.StudySession) (n : nat) (d0 : Z) :
  map Lambda.ds_date (Lambda.daily_loop (Lambda.group_by_date l) n d0)
  = seqZ d0 (Z.of_nat n)
  /\ Forall
       (fun s =>
          Lambda.ds_session_count s
          = Numeric.len (filter (fun x => Lambda.date x = Lambda.ds_date s) l)
          /\ Lambda.ds_total_duration s
             = Numeric.sum
                 (map Lambda.duration
                    (filter (fun x => Lambda.date x = Lambda.ds_date s) l)))
       (Lambda.daily_loop (Lambda.group_by_date l) n d0).
Proof.
  revert d0. induction n as [|n IH]; intros d0.
  - split; [reflexivity|constructor].
  - destruct (IH (d0 + 1)) as [IH1 IH2]. split.
    + cbn [Lambda.daily_loop map]. rewrite IH1.
      rewrite (seqZ_cons d0 (Z.of_nat (S n))) by lia.
      f_equal. f_equal; lia.
    + cbn [Lambda.daily_loop]. constructor; [|exact IH2].
      unfold Lambda.summarize_day. simpl.
      rewrite lambda_group_by_date_lookup. split; reflexivity.
Qed.

(** X6. [_calculate_daily_summaries] emits one summary for each day
    from [week_start] to [week_end], in order, and none when the range
    is empty; the session count and the total of a day are the number
    and the summed duration of the sessions dated that day. *)
Theorem daily_summaries_cover_each_day
    (study_sessions : list Lambda.StudySession) (week_start week_end : Z) :
  let summaries :=
    Lambda._calculate_daily_summaries study_sessions week_start week_end in
  map Lambda.ds_date summaries = seqZ week_start (week_end - week_start + 1)
  /\ (week_end < week_start <-> summaries = [])
  /\ Forall
       (fun s =>
          Lambda.ds_session_count s
          = Numeric.len
              (filter (fun x => Lambda.date x = Lambda.ds_date s) study_sessions)
          /\ Lambda.ds_total_duration s
             = Numeric.sum
                 (map Lambda.duration
                    (filter (fun x => Lambda.date x = Lambda.ds_date s)
                       study_sessions)))
       summaries.
Proof.
  intros summaries. unfold summaries, Lambda._calculate_daily_summaries.
  destruct (daily_loop_days study_sessions
              (Z.to_nat (week_end - week_start + 1)) week_start) as [Hdays Hall].
  split; [|split; [|exact Hall]].
  - rewrite Hdays. unfold seqZ. rewrite Nat2Z.id. reflexivity.
  - split.
    + intros Hlt. replace (Z.to_nat (week_end - week_start + 1)) with 0%nat by lia.
      reflexivity.
    + intros Hnil.
      pose proof (daily_loop_length (Lambda.group_by_date study_sessions)
                    (Z.to_nat (week_end - week_start + 1)) week_start) as Hlen.
      rewrite Hnil in Hlen. simpl in Hlen. lia.
Qed.

(** X7. [_generate_improvement_suggestions] raises [ZeroDivisionError]
    exactly when the period has 0 days; otherwise it returns between one
    and three suggestions, none twice, and the message to keep the
    current pattern only when no rule has fired. *)
Theorem improvement_suggestions_shape
    (peak_hours : list Z) (optimal_session_length total_sessions period_days : Z) :
  (period_days = 0 <->
   Lambda._generate_improvement_suggestions peak_hours optimal_session_length
     total_sessions period_days = Raise ZeroDivisionError)
  /\ (period_days <> 0 ->
      exists suggestions,
        Lambda._generate_improvement_suggestions peak_hours optimal_session_length
          total_sessions period_days = Ok suggestions
        /\ (1 <= length suggestions <= 3)%nat
        /\ NoDup suggestions
        /\ (Lambda.KeepCurrentPattern ∈ suggestions ->
            suggestions = [Lambda.KeepCurrentPattern])).
Proof.
  unfold Lambda._generate_improvement_suggestions.
  destruct (period_days =? 0) eqn:Hp.
  - apply Z.eqb_eq in Hp. split; [split; [reflexivity|intros _; exact Hp]|].
    intros Hne. contradiction.
  - apply Z.eqb_neq in Hp. cbn [bind]. split.
    + split; [intros H; contradiction|].
      intros H. exfalso. revert H.
      destruct (optimal_session_length <? 25), (60 <? optimal_session_length),
        (Qlt_le_dec _ (1 # 2)), peak_hours as [|h hs];
        simpl; try destruct (20 <=? foldr Z.min h hs); discriminate.
    + intros _.
      destruct (optimal_session_length <? 25), (60 <? optimal_session_length),
        (Qlt_le_dec _ (1 # 2)), peak_hours as [|h hs];
        simpl; try destruct (20 <=? foldr Z.min h hs);
        eexists; (split; [reflexivity|]); simpl;
        (split; [lia|]); split; by_evaluation.
Qed.

Lemma improvement_suggestions_shape_witness :
  exists suggestions,
    Lambda._generate_improvement_suggestions [21; 22] 20 3 30 = Ok suggestions
    /\ (1 <= length suggestions <= 3)%nat.
Proof.
  destruct (proj2 (improvement_suggestions_shape [21; 22] 20 3 30) ltac:(discriminate))
    as (suggestions & H & Hlen & _).
  exists suggestions. split; assumption.
Defined.

(** ** Top subjects *)

Section DictFacts.
Context {K V : Type} `{EqDecision K}.
Implicit Types (d : list (K * V)).

Lemma dict_keys_update (k : K) (f : V -> V) (dflt : V) d :
  PyDict.keys (PyDict.update k f dflt d)
  = if decide (k ∈ PyDict.keys d) then PyDict.keys d else PyDict.keys d ++ [k].
Proof.
  unfold PyDict.keys. induction d as [|[k' v] d IH]; simpl.
  - destruct (decide (k ∈ [])) as [Hin|_]; [inversion Hin|reflexivity].
  - destruct (decide (k' = k)) as [Heq|Hne]; simpl.
    + rewrite Heq. rewrite decide_True by apply list_elem_of_here. reflexivity.
    + rewrite IH.
      destruct (decide (k ∈ map fst d)) as [Hin|Hnin].
      * rewrite decide_True by now apply list_elem_of_further. reflexivity.
      * rewrite decide_False; [reflexivity|].
        intros Hin. apply elem_of_cons in Hin as [Hin|Hin]; [congruence|tauto].
Qed.

Lemma dict_get_update (k k' : K) (f : V -> V) (dflt : V) d :
  PyDict.get k' dflt (PyDict.update k f dflt d)
  = if decide (k = k') then f (PyDict.get k dflt d) else PyDict.get k' dflt d.
Proof.
  induction d as [|[k0 v] d IH]; simpl.
  - destruct (decide (k = k')); reflexivity.
  - destruct (decide (k0 = k)) as [Heq|Hne]; simpl.
    + rewrite Heq. destruct (decide (k = k')); reflexivity.
    + rewrite IH. destruct (decide (k0 = k')) as [Heq'|Hne'].
      * rewrite (decide_False (P := k = k')) by congruence. reflexivity.
      * reflexivity.
Qed.

Lemma dict_keys_update_NoDup (k : K) (f : V -> V) (dflt : V) d :
  NoDup (PyDict.keys d) -> NoDup (PyDict.keys (PyDict.update k f dflt d)).
Proof.
  intros Hnd. rewrite dict_keys_update.
  destruct (decide (k ∈ PyDict.keys d)) as [Hin|Hnin]; [exact Hnd|].
  apply NoDup_app. split; [exact Hnd|]. split.
  - intros x Hx Hx'. apply list_elem_of_singleton in Hx'. congruence.
  - apply NoDup_singleton.
Qed.

Lemma dict_get_elem (k : K) (v dflt : V) d :
  NoDup (PyDict.keys d) -> (k, v) ∈ d -> PyDict.get k dflt d = v.
Proof.
  unfold PyDict.keys. induction d as [|[k0 v0] d IH]; intros Hnd Hin.
  - inversion Hin.
  - simpl in Hnd. apply NoDup_cons in Hnd as [Hk0 Hnd].
    apply elem_of_cons in Hin as [Heq|Hin]; simpl.
    + injection Heq as -> ->. rewrite decide_True by reflexivity. reflexivity.
    + destruct (decide (k0 = k)) as [->|Hne]; [|now apply IH].
      exfalso. apply Hk0. apply (list_elem_of_fmap_2 fst) in Hin. exact Hin.
Qed.
End DictFacts.

Lemma StronglySorted_take {B} (R : B -> B -> Prop) (n : nat) (l : list B) :
  StronglySorted R l -> StronglySorted R (take n l).
Proof.
  intros Hl. revert n. induction Hl as [|x l Hl IH Hx]; intros [|n]; simpl;
    try constructor.
  - apply IH.
  - now apply Forall_take.
Qed.

Section TopSubjects.
Import Lambda.

Lemma subject_totals_NoDup (l : list StudySession) :
  NoDup (PyDict.keys (subject_totals l)).
Proof.
  unfold subject_totals.
  induction l as [|s l IH] using rev_ind; [apply NoDup_nil_2|].
  rewrite fold_left_app. simpl. now apply dict_keys_update_NoDup.
Qed.

Lemma subject_totals_get (l : list StudySession) (k : string) :
  PyDict.get k (0, 0) (subject_totals l)
  = (Numeric.sum (map duration (filter (fun s => subject s = k) l)),
     Numeric.len (filter (fun s => subject s = k) l)).
Proof.
  unfold subject_totals.
  induction l as [|s l IH] using rev_ind; [reflexivity|].
  rewrite fold_left_app, filter_app, map_app, sum_app. simpl.
  rewrite dict_get_update, filter_cons, filter_nil.
  unfold Numeric.len. rewrite length_app.
  destruct (decide (subject s = k)) as [Heq|Hne].
  - rewrite Heq in *. rewrite IH. simpl. unfold Numeric.sum, Numeric.len. simpl.
    f_equal; lia.
  - rewrite IH. simpl. unfold Numeric.sum, Numeric.len. simpl.
    f_equal; lia.
Qed.
End TopSubjects.

(** X8. [_calculate_top_subjects] returns at most 5 entries, no
    subject twice, ordered by duration with the largest first; the
    duration and the session count of an entry are the summed duration
    and the number of the sessions of its subject. *)
Theorem top_subjects_ranked_and_aggregated
    (study_sessions : list Lambda.StudySession) :
  let top := Lambda._calculate_top_subjects study_sessions in
  (length top <= 5)%nat
  /\ NoDup (map Lambda.te_subject top)
  /\ StronglySorted
       (fun a b => Lambda.te_duration b <= Lambda.te_duration a) top
  /\ Forall
       (fun e =>
          Lambda.te_duration e
          = Numeric.sum
              (map Lambda.duration
                 (filter (fun s => Lambda.subject s = Lambda.te_subject e)
                    study_sessions))
          /\ Lambda.te_sessions e
             = Numeric.len
                 (filter (fun s => Lambda.subject s = Lambda.te_subject e)
                    study_sessions))
       top.
Proof.
  intros top. unfold top, Lambda._calculate_top_subjects. cbv zeta.
  set (subject_data := Lambda.subject_totals study_sessions).
  match goal with
  | |- context [PySort.sorted_by_key_reverse _ (map ?f subject_data)] =>
      set (entry := f)
  end.
  set (ranking := PySort.sorted_by_key_reverse Lambda.te_duration
                    (map entry subject_data)).
  assert (Permutation ranking (map entry subject_data)) as Hperm
    by apply stable_sort_perm.
  split; [rewrite length_take; lia|]. split; [|split].
  - assert (map Lambda.te_subject (take 5 ranking)
            `sublist_of` map Lambda.te_subject ranking) as Hsub
      by (apply (fmap_sublist Lambda.te_subject); apply sublist_take).
    refine (sublist_NoDup _ _ _ Hsub).
    rewrite Hperm, map_map. simpl.
    apply (subject_totals_NoDup study_sessions).
  - apply StronglySorted_take, sorted_by_key_reverse_sorted.
  - apply Forall_take. eapply Permutation_Forall; [symmetry; exact Hperm|].
    apply Forall_forall. intros e He.
    apply list_elem_of_fmap in He as ([k [d n]] & -> & Hin).
    pose proof (dict_get_elem k (d, n) (0, 0) subject_data
                  (subject_totals_NoDup study_sessions) Hin) as Hget.
    unfold subject_data in Hget. rewrite subject_totals_get in Hget.
    injection Hget as Hd Hn. simpl. split; congruence.
Qed.


Section ItemConversion.
Import Lambda Parsing.



End ItemConversion.




Section AscendingSort.
Context {A : Type}.
Variable key : A -> Z.

Lemma insert_sorted_asc_sorted (x : A) (l : list A) :
  StronglySorted (fun a b => key a <= key b) l ->
  StronglySorted (fun a b => key a <= key b)
    (PySort.insert_sorted (fun a b => key a <=? key b) x l).
Proof.
  induction 1 as [|y l Hl IH Hy]; simpl.
  - repeat constructor.
  - destruct (key y <=? key x) eqn:Hxy.
    + apply Z.leb_le in Hxy. constructor; [exact IH|].
      eapply Permutation_Forall.
      * symmetry. apply insert_sorted_perm.
      * constructor; assumption.
    + apply Z.leb_gt in Hxy. constructor.
      * constructor; assumption.
      * constructor; [lia|].
        eapply Forall_impl; [exact Hy|]. simpl. intros a Ha. lia.
Qed.

Lemma sorted_by_key_sorted (l : list A) :
  StronglySorted (fun a b => key a <= key b) (PySort.sorted_by_key key l).
Proof.
  unfold PySort.sorted_by_key.
  induction l as [|x l IH] using rev_ind; [constructor|].
  rewrite stable_sort_snoc. now apply insert_sorted_asc_sorted.
Qed.
End AscendingSort.

Lemma sorted_NoDup_strict (l : list Z) :
  StronglySorted Z.le l -> NoDup l -> StronglySorted Z.lt l.
Proof.
  induction 1 as [|x l Hl IH Hx]; intros Hnd; [constructor|].
  apply NoDup_cons in Hnd as [Hnin Hnd].
  constructor; [now apply IH|].
  apply Forall_forall. intros y Hy.
  rewrite Forall_forall in Hx. specialize (Hx y Hy).
  assert (x <> y) by (intros ->; contradiction). lia.
Qed.

Lemma length_within_set (l : list Z) (dates : gset Z) :
  NoDup l -> (forall d, d ∈ l -> d ∈ dates) ->
  (length l <= size dates)%nat.
Proof.
  intros Hnd Hin.
  rewrite <- (size_list_to_set (C:=gset Z) l Hnd).
  apply subseteq_size. intros d Hd.
  apply elem_of_list_to_set in Hd. now apply Hin.
Qed.

Section StreakSummary.
Import Lambda.

Lemma NoDup_days_back (end_date : Z) (l : list Z) :
  NoDup l -> NoDup (map (fun i => end_date - i) l).
Proof.
  intros Hnd.
  assert (Inj eq eq (fun i => end_date - i)) by (intros i j Hij; lia).
  now apply (NoDup_fmap_2 (fun i => end_date - i)).
Qed.

Lemma longest_streak_fold_days (study_dates : gset Z) end_date (l : list Z)
    longest temp c :
  0 <= c -> longest <= c -> temp <= c ->
  fst (fold_left (longest_streak_step study_dates end_date) l (longest, temp))
  <= c + Z.of_nat (length (filter (fun i => end_date - i ∈ study_dates) l)).
Proof.
  revert longest temp c.
  induction l as [|i l IH]; intros longest temp c Hc Hl Ht.
  - simpl. lia.
  - cbn [fold_left]. unfold longest_streak_step at 2.
    destruct (decide (end_date - i ∈ study_dates)) as [Hin|Hnin].
    + rewrite filter_cons_True by exact Hin.
      specialize (IH (Z.max longest (temp + 1)) (temp + 1) (c + 1)
                    ltac:(lia) ltac:(lia) ltac:(lia)).
      cbn [length]. lia.
    + rewrite filter_cons_False by exact Hnin.
      exact (IH longest 0 c Hc Hl Hc).
Qed.

Lemma longest_streak_scan_days (study_dates : gset Z) end_date :
  longest_streak_scan study_dates end_date <= Z.of_nat (size study_dates).
Proof.
  unfold longest_streak_scan.
  pose proof (longest_streak_fold_days study_dates end_date (seqZ 0 90) 0 0 0
                ltac:(lia) ltac:(lia) ltac:(lia)) as Hfold.
  set (days := filter (fun i => end_date - i ∈ study_dates) (seqZ 0 90)) in Hfold.
  assert (length days <= size study_dates)%nat as Hlen.
  { rewrite <- (length_map (fun i => end_date - i) days).
    apply length_within_set.
    - apply NoDup_days_back, NoDup_filter, NoDup_seqZ.
    - intros d Hd. apply list_elem_of_fmap in Hd as (i & -> & Hi).
      now apply list_elem_of_filter in Hi as [Hi _]. }
  lia.
Qed.

Lemma current_streak_days fuel (study_dates : gset Z) check_date m :
  current_streak_loop fuel study_dates check_date 0 = Some m ->
  0 <= m <= Z.of_nat (size study_dates).
Proof.
  intros Hm. apply current_streak_loop_counts in Hm as (Hle & Hall & _).
  split; [exact Hle|].
  assert (length (map (fun i => (check_date - i)%Z) (seqZ 0 m))
          <= size study_dates)%nat as Hlen.
  { apply length_within_set.
    - apply NoDup_days_back, NoDup_seqZ.
    - intros d Hd. apply list_elem_of_fmap in Hd as (i & -> & Hi).
      apply elem_of_seqZ in Hi. apply Hall. lia. }
  rewrite length_map, length_seqZ in Hlen. lia.
Qed.
End StreakSummary.




(** X10. The streak record of [get_study_streak_data] is consistent:
    [study_dates] is strictly ascending (no date twice) and holds
    exactly the dates of the fetched sessions, [total_study_days] is
    its length, and neither streak exceeds [total_study_days]. *)
Theorem streak_data_consistent
    (tables : Lambda.Tables) (user : string) (today : Z) :
  exists r,
    Lambda.get_study_streak_data tables user today = Some r
    /\ StronglySorted Z.lt (Lambda.sd_study_dates r)
    /\ (forall d, d ∈ Lambda.sd_study_dates r
                  <-> d ∈ Reference.fetched_dates tables user today)
    /\ Lambda.sd_total_study_days r = Numeric.len (Lambda.sd_study_dates r)
    /\ 0 <= Lambda.sd_current_streak r <= Lambda.sd_total_study_days r
    /\ 0 <= Lambda.sd_longest_streak r <= Lambda.sd_total_study_days r.
Proof.
  unfold Lambda.get_study_streak_data, Reference.fetched_dates.
  destruct (Lambda.get_study_sessions_by_date_range tables user (today - 90) today)
    as [sessions|e].
  - unfold Lambda.streak_data_of.
    set (dates := list_to_set (map Lambda.date sessions) : gset Z).
    destruct (current_streak_loop_terminates (S (size dates)) dates today 0)
      as [m Hm]; [lia|].
    rewrite Hm. eexists. split; [reflexivity|]. simpl.
    assert (Permutation (PySort.sorted_by_key id (elements dates))
              (elements dates)) as Hperm by apply stable_sort_perm.
    split; [|split; [|split; [|split]]].
    + apply sorted_NoDup_strict.
      * apply (sorted_by_key_sorted id).
      * rewrite Hperm. apply NoDup_elements.
    + intros d. rewrite Hperm. apply elem_of_elements.
    + unfold Numeric.len. rewrite Hperm. reflexivity.
    + eapply current_streak_days. exact Hm.
    + split; [apply longest_streak_scan_bound|apply longest_streak_scan_days].
  - exists Lambda.zero_streak_data. split; [reflexivity|]. simpl.
    split; [constructor|]. split; [|unfold Numeric.len; simpl; lia].
    intros d. split; intros Hd.
    + apply elem_of_nil in Hd. contradiction.
    + apply elem_of_empty in Hd. contradiction.
Qed.


Section Median.

Lemma StronglySorted_middle {B} (R : B -> B -> Prop) (l1 l2 : list B) (x : B) :
  StronglySorted R (l1 ++ x :: l2) ->
  Forall (fun a => R a x) l1 /\ Forall (R x) l2.
Proof.
  induction l1 as [|a l1 IH]; simpl; intros Hs.
  - apply StronglySorted_inv in Hs as [_ Hx]. split; [constructor|exact Hx].
  - apply StronglySorted_inv in Hs as [Hs Ha].
    destruct (IH Hs) as [H1 H2]. split; [|exact H2].
    constructor; [|exact H1].
    rewrite Forall_forall in Ha. apply Ha.
    apply elem_of_app. right. apply list_elem_of_here.
Qed.

Lemma length_filter_perm (P : Z -> Prop) `{forall x, Decision (P x)}
    (l l' : list Z) :
  Permutation l l' -> length (filter P l) = length (filter P l').
Proof.
  intros Hperm. apply Permutation_length. now apply filter_Permutation.
Qed.

(** The element at position [i] of an ascending list has at least
    [i + 1] elements that are no larger and at least [length l - i]
    that are no smaller. *)
Lemma sorted_nth_counts (l : list Z) (i : nat) (m : Z) :
  StronglySorted Z.le l -> l !! i = Some m ->
  (i + 1 <= length (filter (fun d => (d <= m)%Z) l))%nat
  /\ (length l - i <= length (filter (fun d => (m <= d)%Z) l))%nat.
Proof.
  intros Hs Hi.
  pose proof (lookup_lt_Some _ _ _ Hi) as Hlt.
  rewrite <- (take_drop_middle l i m Hi) in Hs.
  apply StronglySorted_middle in Hs as [Hbefore Hafter].
  rewrite <- (take_drop_middle l i m Hi) at 1 3.
  rewrite !filter_app, !length_app.
  rewrite (filter_all (fun d => d <= m) (take i l)) by exact Hbefore.
  rewrite (filter_cons_True (fun d => d <= m)) by lia.
  rewrite (filter_cons_True (fun d => m <= d)) by lia.
  rewrite (filter_all (fun d => m <= d) (drop (S i) l)) by exact Hafter.
  rewrite length_take. cbn [length]. rewrite length_drop. lia.
Qed.
End Median.

Section ProductivityNumbers.
Import Lambda.

Lemma productivity_metrics_numbers study_sessions analysis_period_days r :
  productivity_metrics_of study_sessions analysis_period_days = Ok r ->
  let session_durations := PySort.sorted_by_key id (map duration study_sessions) in
  pm_optimal_session_length r
  = match session_durations with
    | [] => 0
    | _ => nth (Z.to_nat (Numeric.len session_durations / 2)) session_durations 0
    end
  /\ pm_focus_score r
     = Numeric.round1
         match session_durations with
         | [] => 0%Q
         | _ =>
             Numeric.py_min 100
               (Numeric.truediv (Numeric.sum session_durations)
                  (Numeric.len session_durations) / 45 * 100)%Q
         end.
Proof.
  unfold productivity_metrics_of.
  destruct (_generate_improvement_suggestions _ _ _ _); [|discriminate].
  cbn [bind]. intros [= <-]. split; reflexivity.
Qed.
End ProductivityNumbers.

(** X11. For a non-empty session list, [optimal_session_length] of
    [generate_productivity_metrics] is the upper median of the session
    durations: it is the duration of one of the sessions, more than
    half of the sessions are no longer than it, and at least half are
    no shorter. *)
Theorem optimal_session_length_is_upper_median
    (study_sessions : list Lambda.StudySession) (analysis_period_days : Z)
    (r : Lambda.ProductivityMetrics)
    (Hr : Lambda.productivity_metrics_of study_sessions analysis_period_days
          = Ok r)
    (Hsessions : study_sessions <> []) :
  let durations := map Lambda.duration study_sessions in
  let m := Lambda.pm_optimal_session_length r in
  m ∈ durations
  /\ Numeric.len durations
     < 2 * Numeric.len (filter (fun d => d <= m) durations)
  /\ Numeric.len durations
     <= 2 * Numeric.len (filter (fun d => m <= d) durations).
Proof.
  intros durations m.
  apply productivity_metrics_numbers in Hr as [Hm _]. cbv zeta in Hm.
  fold durations in Hm. fold m in Hm.
  set (sorted := PySort.sorted_by_key id durations) in Hm.
  assert (Permutation sorted durations) as Hperm by apply stable_sort_perm.
  assert (length sorted = length durations) as Hlen
    by now apply Permutation_length.
  assert (0 < length durations)%nat as Hpos.
  { unfold durations. rewrite length_map.
    destruct study_sessions; [contradiction|simpl; lia]. }
  set (i := Z.to_nat (Numeric.len sorted / 2)) in Hm.
  assert (i = (length sorted / 2)%nat) as Hi.
  { unfold i, Numeric.len.
    rewrite <- (Nat2Z.inj_div _ 2). apply Nat2Z.id. }
  assert (i < length sorted)%nat as Hlt.
  { rewrite Hi. apply Nat.div_lt; lia. }
  assert (sorted !! i = Some m) as Hlookup.
  { destruct (lookup_lt_is_Some_2 sorted i Hlt) as [x Hx].
    rewrite Hx. f_equal.
    rewrite Hm. destruct sorted as [|y sorted'] eqn:Hsorted;
      [simpl in Hlt; lia|].
    symmetry. apply nth_lookup_Some with (d := 0) in Hx. exact Hx. }
  destruct (sorted_nth_counts sorted i m
              (sorted_by_key_sorted id durations) Hlookup) as [Hle Hge].
  rewrite (length_filter_perm _ _ _ Hperm) in Hle.
  rewrite (length_filter_perm _ _ _ Hperm) in Hge.
  split; [|split].
  - rewrite <- Hperm. eapply list_elem_of_lookup_2. exact Hlookup.
  - unfold Numeric.len.
    pose proof (Nat.div_mod_eq (length sorted) 2) as Hdiv.
    pose proof (Nat.mod_upper_bound (length sorted) 2 ltac:(lia)). lia.
  - unfold Numeric.len.
    pose proof (Nat.div_mod_eq (length sorted) 2) as Hdiv.
    pose proof (Nat.mod_upper_bound (length sorted) 2 ltac:(lia)). lia.
Qed.

Lemma optimal_session_length_is_upper_median_witness :
  let study_sessions :=
    [Reference.study_session 738000 (738000 * 86400 + 9 * 3600) 50;
     Reference.study_session 738000 (738000 * 86400 + 9 * 3600) 20;
     Reference.study_session 738001 (738001 * 86400 + 9 * 3600) 30;
     Reference.study_session 738002 (738002 * 86400 + 9 * 3600) 40] in
  exists r,
    Lambda.productivity_metrics_of study_sessions 30 = Ok r
    /\ Lambda.pm_optimal_session_length r = 40
    /\ 40 ∈ map Lambda.duration study_sessions.
Proof.
  intros study_sessions. eexists. split; [reflexivity|].
  split; [reflexivity|].
  exact (proj1 (optimal_session_length_is_upper_median study_sessions 30 _
                  eq_refl ltac:(discriminate))).
Defined.


Section RoundingBounds.

Lemma round_half_even_le (q : Q) (k : Z) :
  (q <= inject_Z k)%Q -> Numeric.round_half_even q <= k.
Proof.
  destruct q as [n d]. unfold Numeric.round_half_even, Qle. simpl.
  intros Hq.
  pose proof (Z.div_mod n (Z.pos d) ltac:(lia)) as Hdm.
  pose proof (Z.mod_pos_bound n (Z.pos d) ltac:(lia)) as Hr.
  set (f := n / Z.pos d) in *. set (r := n mod Z.pos d) in *.
  clearbody f r.
  destruct (2 * r ?= Z.pos d) eqn:Hc.
  - rewrite Z.compare_eq_iff in Hc. destruct (Z.even f); nia.
  - nia.
  - rewrite Z.compare_gt_iff in Hc. nia.
Qed.

Lemma round_half_even_ge (q : Q) (k : Z) :
  (inject_Z k <= q)%Q -> k <= Numeric.round_half_even q.
Proof.
  destruct q as [n d]. unfold Numeric.round_half_even, Qle. simpl.
  intros Hq.
  pose proof (Z.div_mod n (Z.pos d) ltac:(lia)) as Hdm.
  pose proof (Z.mod_pos_bound n (Z.pos d) ltac:(lia)) as Hr.
  set (f := n / Z.pos d) in *. set (r := n mod Z.pos d) in *.
  clearbody f r.
  destruct (2 * r ?= Z.pos d) eqn:Hc.
  - destruct (Z.even f); nia.
  - nia.
  - nia.
Qed.

Lemma round1_le (q : Q) (k : Z) :
  (q <= inject_Z k)%Q -> (Numeric.round1 q <= inject_Z k)%Q.
Proof.
  intros Hq. unfold Numeric.round1. rewrite Qred_correct.
  assert (Numeric.round_half_even (q * 10) <= k * 10) as Hz.
  { apply round_half_even_le. rewrite inject_Z_mult. 
    apply Qmult_le_compat_r; [exact Hq|discriminate]. }
  unfold Qle, inject_Z. simpl. lia.
Qed.

Lemma round1_ge (q : Q) (k : Z) :
  (inject_Z k <= q)%Q -> (inject_Z k <= Numeric.round1 q)%Q.
Proof.
  intros Hq. unfold Numeric.round1. rewrite Qred_correct.
  assert (k * 10 <= Numeric.round_half_even (q * 10)) as Hz.
  { apply round_half_even_ge. rewrite inject_Z_mult.
    apply Qmult_le_compat_r; [exact Hq|discriminate]. }
  unfold Qle, inject_Z. simpl. lia.
Qed.

Lemma sum_nonneg (l : list Z) : Forall (fun d => 0 <= d) l -> 0 <= Numeric.sum l.
Proof. induction 1; simpl; lia. Qed.
End RoundingBounds.

(** X12. [focus_score] of [generate_productivity_metrics] never
    exceeds 100; it is not negative when no session has a negative
    duration; and it is 100 as soon as the sessions average 45 minutes
    or more. *)
Theorem focus_score_bounds
    (study_sessions : list Lambda.StudySession) (analysis_period_days : Z)
    (r : Lambda.ProductivityMetrics)
    (Hr : Lambda.productivity_metrics_of study_sessions analysis_period_days
          = Ok r) :
  (Lambda.pm_focus_score r <= 100)%Q
  /\ (Forall (fun s => 0 <= Lambda.duration s) study_sessions ->
      (0 <= Lambda.pm_focus_score r)%Q)
  /\ (study_sessions <> [] ->
      45 * Numeric.len study_sessions
      <= Numeric.sum (map Lambda.duration study_sessions) ->
      (Lambda.pm_focus_score r == 100)%Q).
Proof.
  apply productivity_metrics_numbers in Hr as [_ Hf]. cbv zeta in Hf.
  set (durations := map Lambda.duration study_sessions) in *.
  set (sorted := PySort.sorted_by_key id durations) in Hf.
  assert (Permutation sorted durations) as Hperm by apply stable_sort_perm.
  assert (Numeric.sum sorted = Numeric.sum durations) as Hsum
    by now apply sum_perm.
  assert (Numeric.len sorted = Numeric.len study_sessions) as Hlen.
  { unfold Numeric.len, durations. f_equal.
    rewrite (Permutation_length Hperm). apply length_map. }
  rewrite Hf. clear Hf.
  destruct sorted as [|d0 sorted'] eqn:Hsorted.
  { split; [discriminate|]. split; [discriminate|].
    intros Hne _. exfalso. destruct study_sessions; [contradiction|].
    unfold Numeric.len in Hlen. simpl in Hlen. lia. }
  rewrite <- Hsorted in *. rewrite Hsum, Hlen.
  assert (0 < Numeric.len study_sessions) as Hn.
  { rewrite <- Hlen, Hsorted. unfold Numeric.len. simpl. lia. }
  set (score := (Numeric.truediv (Numeric.sum durations)
                   (Numeric.len study_sessions) / 45 * 100)%Q).
  assert (score == inject_Z (Numeric.sum durations) * 100
                   / (inject_Z (Numeric.len study_sessions) * 45))%Q as Hscore.
  { unfold score. rewrite truediv_eq. field.
    intros H0. unfold Qeq, inject_Z in H0. simpl in H0. lia. }
  assert (0 < inject_Z (Numeric.len study_sessions) * 45)%Q as Hden.
  { unfold Qlt, inject_Z. simpl. lia. }
  unfold Numeric.py_min.
  split; [|split].
  - apply (round1_le _ 100).
    destruct (Qlt_le_dec score 100) as [Hlt|Hge];
      [apply Qlt_le_weak; exact Hlt|apply Qle_refl].
  - intros Hnonneg. apply (round1_ge _ 0).
    destruct (Qlt_le_dec score 100) as [Hlt|Hge]; [|discriminate].
    rewrite Hscore. apply Qle_shift_div_l; [exact Hden|].
    assert (0 <= Numeric.sum durations) as H0.
    { apply sum_nonneg. unfold durations. rewrite Forall_map. exact Hnonneg. }
    unfold Qle, inject_Z. simpl. lia.
  - intros _ Havg.
    destruct (Qlt_le_dec score 100) as [Hlt|Hge]; [|reflexivity].
    exfalso. rewrite Hscore in Hlt.
    apply Qlt_not_le in Hlt. apply Hlt.
    apply Qle_shift_div_l; [exact Hden|].
    unfold Qle, inject_Z. simpl. rewrite ?Pos.mul_1_l. lia.
Qed.

Lemma focus_score_bounds_witness :
  let study_sessions :=
    [Reference.study_session 738000 (738000 * 86400 + 9 * 3600) 60;
     Reference.study_session 738001 (738001 * 86400 + 9 * 3600) 30] in
  exists r,
    Lambda.productivity_metrics_of study_sessions 30 = Ok r
    /\ (Lambda.pm_focus_score r == 100)%Q.
Proof.
  intros study_sessions. eexists. split; [reflexivity|].
  refine (proj2 (proj2 (focus_score_bounds study_sessions 30 _ eq_refl)) _ _).
  - discriminate.
  - vm_compute. discriminate.
Defined.


Section MaxKey.
Context {K : Type}.

(** [max(d, key=d.get)] yields a key of [d] whose value no other value
    exceeds, and nothing only for the empty dictionary. *)
Lemma max_key_largest (d : list (K * Z)) :
  match Backend.max_key d with
  | None => d = []
  | Some k => exists v, (k, v) ∈ d /\ Forall (fun e => snd e <= v) d
  end.
Proof.
  induction d as [|[k0 v0] d IH]; simpl; [reflexivity|].
  destruct (Backend.max_key d) as [k'|].
  - destruct IH as (v' & Hin & Hall).
    destruct (forallb (fun e => snd e <=? v0) d) eqn:Hfirst.
    + exists v0. split; [apply list_elem_of_here|].
      constructor; [simpl; lia|].
      apply Forall_forall. intros e He.
      rewrite forallb_forall in Hfirst.
      apply Z.leb_le, Hfirst, list_elem_of_In, He.
    + exists v'. split; [now apply list_elem_of_further|].
      constructor; [|exact Hall]. simpl.
      destruct (Z.le_gt_cases v0 v') as [Hle|Hgt]; [exact Hle|].
      exfalso. rewrite <- Bool.not_true_iff_false in Hfirst. apply Hfirst.
      apply forallb_forall. intros e He. apply Z.leb_le.
      rewrite Forall_forall in Hall.
      apply list_elem_of_In, Hall in He. lia.
  - subst d. exists v0. split; [apply list_elem_of_here|].
    constructor; [simpl; lia|constructor].
Qed.
End MaxKey.

Section SubjectDurations.
Import Backend.

Lemma subject_durations_NoDup (l : list Session) :
  NoDup (PyDict.keys (subject_durations l)).
Proof.
  unfold subject_durations.
  induction l as [|s l IH] using rev_ind; [apply NoDup_nil_2|].
  rewrite fold_left_app. simpl. now apply dict_keys_update_NoDup.
Qed.

Lemma subject_durations_keys (l : list Session) (k : string) :
  k ∈ PyDict.keys (subject_durations l) <-> k ∈ map subject l.
Proof.
  unfold subject_durations.
  induction l as [|s l IH] using rev_ind.
  - reflexivity.
  - rewrite fold_left_app, map_app. simpl. rewrite dict_keys_update.
    rewrite elem_of_app, list_elem_of_singleton, <- IH.
    destruct (decide (subject s ∈ PyDict.keys _)) as [Hin|Hnin].
    + split; [tauto|]. intros [Hk|Hk]; [exact Hk|congruence].
    + rewrite elem_of_app, list_elem_of_singleton. reflexivity.
Qed.

Lemma subject_durations_get (l : list Session) (k : string) :
  PyDict.get k 0 (subject_durations l)
  = Numeric.sum (map duration (filter (fun s => subject s = k) l)).
Proof.
  unfold subject_durations.
  induction l as [|s l IH] using rev_ind; [reflexivity|].
  rewrite fold_left_app, filter_app, map_app, sum_app. simpl.
  rewrite dict_get_update, filter_cons, filter_nil, IH.
  destruct (decide (subject s = k)) as [Heq|Hne].
  - rewrite Heq. simpl. lia.
  - simpl. lia.
Qed.

Lemma weekly_stats_most_studied study_data week_start week_end :
  ws_most_studied_subject (_calculate_weekly_stats study_data week_start week_end)
  = max_key (subject_durations study_data).
Proof.
  unfold _calculate_weekly_stats.
  destruct (weekly_loop _ _ _ _) as [[daily_sessions total] subjects].
  reflexivity.
Qed.
End SubjectDurations.

(** X13. [most_studied_subject] of [_calculate_weekly_stats] is the
    subject of one of the sessions, and no subject of the sessions has
    a larger summed duration; it is [None] only when there is no
    session. *)
Theorem most_studied_subject_has_largest_total
    (study_data : list Backend.Session) (week_start week_end : Z) :
  let total k :=
    Numeric.sum
      (map Backend.duration
         (filter (fun s => Backend.subject s = k) study_data)) in
  match Backend.ws_most_studied_subject
          (Backend._calculate_weekly_stats study_data week_start week_end) with
  | None => study_data = []
  | Some k =>
      k ∈ map Backend.subject study_data
      /\ Forall (fun s => total (Backend.subject s) <= total k) study_data
  end.
Proof.
  intros total. rewrite weekly_stats_most_studied.
  pose proof (max_key_largest (Backend.subject_durations study_data)) as Hmax.
  destruct (Backend.max_key (Backend.subject_durations study_data)) as [k|].
  - destruct Hmax as (v & Hin & Hall).
    assert (v = total k) as ->.
    { rewrite <- (dict_get_elem k v 0 _
                    (subject_durations_NoDup study_data) Hin).
      apply subject_durations_get. }
    split.
    + apply subject_durations_keys. apply (list_elem_of_fmap_2 fst) in Hin.
      exact Hin.
    + apply Forall_forall. intros s Hs.
      assert (Backend.subject s
              ∈ PyDict.keys (Backend.subject_durations study_data)) as Hkey.
      { apply subject_durations_keys. now apply list_elem_of_fmap_2. }
      apply list_elem_of_fmap in Hkey as ([k' v'] & Hk' & Hin').
      simpl in Hk'. subst k'.
      rewrite Forall_forall in Hall. specialize (Hall _ Hin'). simpl in Hall.
      unfold total at 1. rewrite <- subject_durations_get.
      rewrite (dict_get_elem _ v' 0 _
                 (subject_durations_NoDup study_data) Hin').
      exact Hall.
  - destruct study_data as [|s l]; [reflexivity|]. exfalso.
    assert (Backend.subject s
            ∈ PyDict.keys (Backend.subject_durations (s :: l))) as Hkey.
    { apply subject_durations_keys. apply list_elem_of_here. }
    rewrite Hmax in Hkey. inversion Hkey.
Qed.


Section KeyedTotalsFacts.
Context {S K : Type} `{EqDecision K}.
Variable key : S -> option K.
Variable val : S -> Z.

Lemma keyed_totals_snoc (l : list S) (s : S) :
  keyed_totals key val (l ++ [s])
  = match key s with
    | Some k => PyDict.update k (fun v => v + val s) 0 (keyed_totals key val l)
    | None => keyed_totals key val l
    end.
Proof. unfold keyed_totals. rewrite fold_left_app. reflexivity. Qed.

Lemma keyed_totals_NoDup (l : list S) :
  NoDup (PyDict.keys (keyed_totals key val l)).
Proof.
  induction l as [|s l IH] using rev_ind; [apply NoDup_nil_2|].
  rewrite keyed_totals_snoc. destruct (key s); [|exact IH].
  now apply dict_keys_update_NoDup.
Qed.

Lemma keyed_totals_keys (l : list S) (k : K) :
  k ∈ PyDict.keys (keyed_totals key val l) <-> Some k ∈ map key l.
Proof.
  induction l as [|s l IH] using rev_ind.
  - split; intros Hin; inversion Hin.
  - rewrite keyed_totals_snoc, map_app, elem_of_app. simpl.
    rewrite list_elem_of_singleton, <- IH.
    destruct (key s) as [k0|].
    + rewrite dict_keys_update.
      destruct (decide (k0 ∈ PyDict.keys _)) as [Hin|Hnin].
      * split; [tauto|]. intros [Hk|Hk]; [exact Hk|congruence].
      * rewrite elem_of_app, list_elem_of_singleton.
        split; (intros [Hk|Hk]; [now left|right; congruence]).
    + split; [tauto|]. intros [Hk|Hk]; [exact Hk|discriminate].
Qed.

Lemma keyed_totals_get (l : list S) (k : K) :
  PyDict.get k 0 (keyed_totals key val l) = key_total key val l k.
Proof.
  unfold key_total.
  induction l as [|s l IH] using rev_ind; [reflexivity|].
  rewrite keyed_totals_snoc, filter_app, map_app, sum_app, <- IH.
  rewrite filter_cons, filter_nil.
  destruct (key s) as [k0|].
  - rewrite dict_get_update.
    destruct (decide (k0 = k)) as [->|Hne].
    + rewrite decide_True by reflexivity. simpl. lia.
    + rewrite decide_False by congruence. simpl. lia.
  - rewrite decide_False by discriminate. simpl. lia.
Qed.

Lemma keyed_totals_elem (l : list S) (k : K) (v : Z) :
  (k, v) ∈ keyed_totals key val l -> v = key_total key val l k.
Proof.
  intros Hin. rewrite <- keyed_totals_get.
  symmetry. apply dict_get_elem; [apply keyed_totals_NoDup|exact Hin].
Qed.

(** The totals add up to the summed value of the elements that have a
    key. *)
Lemma keyed_totals_sum (l : list S) :
  Numeric.sum (map snd (keyed_totals key val l))
  = Numeric.sum (map val (filter (fun s => is_Some (key s)) l)).
Proof.
  induction l as [|s l IH] using rev_ind; [reflexivity|].
  rewrite keyed_totals_snoc, filter_app, map_app, sum_app, <- IH.
  rewrite filter_cons, filter_nil.
  destruct (key s) as [k0|].
  - rewrite decide_True by (eexists; reflexivity).
    generalize (keyed_totals key val l). intros d.
    induction d as [|[k' v'] d IHd]; simpl; [lia|].
    destruct (decide (k' = k0)); simpl in *; lia.
  - rewrite decide_False by (intros [? ?]; discriminate). simpl. lia.
Qed.
End KeyedTotalsFacts.

Lemma sum_filter_nonneg {S} (val : S -> Z) (P : S -> Prop)
    `{forall s, Decision (P s)} (l : list S) :
  (forall s, P s -> 0 < val s) ->
  0 <= Numeric.sum (map val (filter P l))
  /\ ((exists s, s ∈ l /\ P s) -> 0 < Numeric.sum (map val (filter P l))).
Proof.
  intros Hpos. induction l as [|s l [IH0 IH1]].
  - split; [simpl; lia|]. intros (s & Hs & _). inversion Hs.
  - rewrite filter_cons. destruct (decide (P s)) as [Hs|Hs]; simpl.
    + specialize (Hpos s Hs). split; lia.
    + split; [exact IH0|]. intros (s' & Hin & Hs').
      apply elem_of_cons in Hin as [->|Hin]; [contradiction|].
      apply IH1. eauto.
Qed.

Section ProductiveHour.
Import Backend BackendReports.

Lemma productive_hour_totals_keyed study_data :
  productive_hour_totals study_data
  = keyed_totals productive_start_hour duration study_data.
Proof.
  unfold productive_hour_totals, keyed_totals.
  apply fold_left_ext_in. intros d s _. unfold productive_start_hour.
  destruct (start_time s); try reflexivity.
  destruct (0 <? duration s); reflexivity.
Qed.

Lemma productive_start_hour_counts s h :
  productive_start_hour s = Some h -> 0 <= h < 24 /\ 0 < duration s.
Proof.
  unfold productive_start_hour. destruct (start_time s); try discriminate.
  destruct (0 <? duration s) eqn:Hd; [|discriminate].
  intros [= <-]. apply Z.ltb_lt in Hd. split; [|exact Hd].
  unfold Calendar.hour. apply Z.mod_pos_bound. lia.
Qed.
End ProductiveHour.

(** X14. [_find_most_productive_hour] counts the sessions whose start
    time parses and whose duration is positive. It returns [None] when
    there is none; otherwise it returns an hour from 0 to 23 in which
    such a session starts, and no hour has a larger summed duration. *)
Theorem most_productive_hour_has_largest_total
    (study_data : list Backend.Session) :
  let total := key_total productive_start_hour Backend.duration study_data in
  match BackendReports._find_most_productive_hour study_data with
  | None => Forall (fun s => productive_start_hour s = None) study_data
  | Some h =>
      0 <= h < 24
      /\ Some h ∈ map productive_start_hour study_data
      /\ 0 < total h
      /\ forall h', total h' <= total h
  end.
Proof.
  intros total. unfold BackendReports._find_most_productive_hour.
  rewrite productive_hour_totals_keyed.
  set (d := keyed_totals productive_start_hour Backend.duration study_data).
  pose proof (max_key_largest d) as Hmax.
  destruct (Backend.max_key d) as [h|].
  - destruct Hmax as (v & Hin & Hall).
    pose proof (keyed_totals_elem _ _ _ _ _ Hin) as Hv. fold total in Hv.
    subst v.
    assert (Some h ∈ map productive_start_hour study_data) as Hkey.
    { apply (keyed_totals_keys _ Backend.duration).
      apply (list_elem_of_fmap_2 fst) in Hin. exact Hin. }
    assert (forall k,
               0 <= total k
               /\ (Some k ∈ map productive_start_hour study_data -> 0 < total k))
      as Htotal.
    { intros k.
      destruct (sum_filter_nonneg Backend.duration
                  (fun s => productive_start_hour s = Some k) study_data)
        as [H0 H1].
      - intros s Hs. now apply productive_start_hour_counts in Hs.
      - split; [exact H0|]. intros Hk. apply H1.
        apply list_elem_of_fmap in Hk as (s & Hs & Hin'). eauto. }
    split; [|split; [exact Hkey|split; [now apply Htotal|]]].
    + apply list_elem_of_fmap in Hkey as (s & Hs & _).
      symmetry in Hs. now apply productive_start_hour_counts in Hs.
    + intros h'.
      destruct (decide (h' ∈ PyDict.keys d)) as [Hk|Hk].
      * apply list_elem_of_fmap in Hk as ([k' v'] & Hk' & Hin').
        simpl in Hk'. subst k'.
        rewrite Forall_forall in Hall. specialize (Hall _ Hin').
        apply keyed_totals_elem in Hin'. fold total in Hin'. subst v'.
        exact Hall.
      * assert (total h' = 0) as ->; [|apply Z.lt_le_incl, Htotal, Hkey].
        unfold total, key_total. rewrite filter_none; [reflexivity|].
        apply Forall_forall. intros s Hs Hs'. apply Hk.
        apply keyed_totals_keys. rewrite <- Hs'. now apply list_elem_of_fmap_2.
  - apply Forall_forall. intros s Hs.
    destruct (productive_start_hour s) as [h|] eqn:Hh; [|reflexivity].
    exfalso.
    assert (h ∈ PyDict.keys d) as Hk.
    { apply keyed_totals_keys. rewrite <- Hh. now apply list_elem_of_fmap_2. }
    rewrite Hmax in Hk. inversion Hk.
Qed.


Section SubjectBreakdown.
Import Backend BackendReports.

Lemma subject_data_snoc (l : list Session) (s : Session) :
  subject_data (l ++ [s])
  = PyDict.update (subject s)
      (fun data => (fst data + duration s, snd data + 1)) (0, 0)
      (subject_data l).
Proof. unfold subject_data. rewrite fold_left_app. reflexivity. Qed.

Lemma subject_data_NoDup (l : list Session) :
  NoDup (PyDict.keys (subject_data l)).
Proof.
  induction l as [|s l IH] using rev_ind; [apply NoDup_nil_2|].
  rewrite subject_data_snoc. now apply dict_keys_update_NoDup.
Qed.

Lemma subject_data_keys (l : list Session) (k : string) :
  k ∈ PyDict.keys (subject_data l) <-> k ∈ map subject l.
Proof.
  induction l as [|s l IH] using rev_ind; [reflexivity|].
  rewrite subject_data_snoc, map_app, dict_keys_update. simpl.
  rewrite elem_of_app, list_elem_of_singleton, <- IH.
  destruct (decide (subject s ∈ PyDict.keys _)) as [Hin|Hnin].
  - split; [tauto|]. intros [Hk|Hk]; [exact Hk|congruence].
  - rewrite elem_of_app, list_elem_of_singleton. reflexivity.
Qed.

Lemma subject_data_get (l : list Session) (k : string) :
  PyDict.get k (0, 0) (subject_data l)
  = (Numeric.sum (map duration (filter (fun s => subject s = k) l)),
     Numeric.len (filter (fun s => subject s = k) l)).
Proof.
  induction l as [|s l IH] using rev_ind; [reflexivity|].
  rewrite subject_data_snoc, filter_app, map_app, sum_app.
  rewrite dict_get_update, filter_cons, filter_nil.
  unfold Numeric.len. rewrite length_app.
  destruct (decide (subject s = k)) as [Heq|Hne].
  - rewrite Heq in *. rewrite IH. simpl. unfold Numeric.len.
    f_equal; lia.
  - rewrite IH. simpl. unfold Numeric.len. f_equal; lia.
Qed.

Lemma subject_data_sums (l : list Session) :
  Numeric.sum (map (fun e => fst (snd e)) (subject_data l))
  = Numeric.sum (map duration l)
  /\ Numeric.sum (map (fun e => snd (snd e)) (subject_data l)) = Numeric.len l.
Proof.
  induction l as [|s l [IH1 IH2]] using rev_ind; [split; reflexivity|].
  rewrite subject_data_snoc, map_app, sum_app. unfold Numeric.len.
  rewrite length_app, Nat2Z.inj_add. fold (Numeric.len l).
  rewrite <- IH1, <- IH2. clear IH1 IH2.
  generalize (subject_data l). intros d.
  induction d as [|[k [a b]] d [IHa IHb]]; simpl; [split; lia|].
  destruct (decide (k = subject s)); simpl in *; split; lia.
Qed.

End SubjectBreakdown.

(** X15. [_calculate_subject_breakdown] splits the sessions by
    subject: it has one entry for each subject of the sessions and no
    subject twice, ordered by duration with the largest first; the
    duration and session count of an entry are the summed duration and
    the number of the sessions of its subject, so that the durations
    add up to the total duration and the session counts to the number
    of sessions. *)
Theorem subject_breakdown_partitions_sessions
    (study_data : list Backend.Session) :
  let breakdown := BackendReports._calculate_subject_breakdown study_data in
  NoDup (map BackendReports.st_subject breakdown)
  /\ (forall k, k ∈ map BackendReports.st_subject breakdown
                <-> k ∈ map Backend.subject study_data)
  /\ StronglySorted
       (fun a b => BackendReports.st_duration b <= BackendReports.st_duration a)
       breakdown
  /\ Forall
       (fun e =>
          BackendReports.st_duration e
          = Numeric.sum
              (map Backend.duration
                 (filter
                    (fun s => Backend.subject s = BackendReports.st_subject e)
                    study_data))
          /\ BackendReports.st_session_count e
             = Numeric.len
                 (filter
                    (fun s => Backend.subject s = BackendReports.st_subject e)
                    study_data))
       breakdown
  /\ Numeric.sum (map BackendReports.st_duration breakdown)
     = Numeric.sum (map Backend.duration study_data)
  /\ Numeric.sum (map BackendReports.st_session_count breakdown)
     = Numeric.len study_data.
Proof.
  intros breakdown. unfold breakdown, BackendReports._calculate_subject_breakdown.
  cbv zeta.
  set (data := BackendReports.subject_data study_data).
  match goal with
  | |- context [PySort.sorted_by_key_reverse _ (map ?f data)] => set (entry := f)
  end.
  set (ranking := PySort.sorted_by_key_reverse BackendReports.st_duration
                    (map entry data)).
  assert (Permutation ranking (map entry data)) as Hperm
    by apply stable_sort_perm.
  assert (Permutation (map BackendReports.st_subject ranking) (PyDict.keys data))
    as Hkeys.
  { rewrite Hperm, map_map. reflexivity. }
  destruct (subject_data_sums study_data) as [Hsum Hcount].
  split; [|split; [|split; [|split; [|split]]]].
  - rewrite Hkeys. apply subject_data_NoDup.
  - intros k. rewrite Hkeys. apply subject_data_keys.
  - apply sorted_by_key_reverse_sorted.
  - eapply Permutation_Forall; [symmetry; exact Hperm|].
    apply Forall_forall. intros e He.
    apply list_elem_of_fmap in He as ([k [d n]] & -> & Hin).
    pose proof (dict_get_elem k (d, n) (0, 0) data
                  (subject_data_NoDup study_data) Hin) as Hget.
    unfold data in Hget. rewrite subject_data_get in Hget.
    injection Hget as Hd Hn. simpl. split; congruence.
  - rewrite (sum_perm _ _ (Permutation_map _ Hperm)), map_map. exact Hsum.
  - rewrite (sum_perm _ _ (Permutation_map _ Hperm)), map_map. exact Hcount.
Qed.


Section KeyCover.
Context {S : Type}.
Variable key : S -> option Z.
Variable val : S -> Z.

Lemma sum_pointwise_add (f g : Z -> Z) (ks : list Z) :
  Numeric.sum (map (fun k => f k + g k) ks)
  = Numeric.sum (map f ks) + Numeric.sum (map g ks).
Proof. induction ks as [|k ks IH]; simpl; lia. Qed.

Lemma sum_single_key (o : option Z) (v : Z) (ks : list Z) :
  NoDup ks ->
  Numeric.sum (map (fun k => if decide (o = Some k) then v else 0) ks)
  = match o with
    | Some k0 => if decide (k0 ∈ ks) then v else 0
    | None => 0
    end.
Proof.
  induction 1 as [|k ks Hk Hnd IH]; simpl.
  - destruct o as [k0|]; [|reflexivity].
    destruct (decide (k0 ∈ [])) as [Hin|_]; [inversion Hin|reflexivity].
  - rewrite IH. destruct o as [k0|].
    + destruct (decide (Some k0 = Some k)) as [Heq|Hne].
      * injection Heq as ->. rewrite decide_False by exact Hk.
        rewrite decide_True by apply list_elem_of_here. lia.
      * destruct (decide (k0 ∈ ks)) as [Hin|Hnin].
        -- rewrite decide_True by now apply list_elem_of_further. lia.
        -- rewrite decide_False; [lia|].
           intros Hin. apply elem_of_cons in Hin as [Heq|Hin];
             [congruence|tauto].
    + destruct (decide (None = Some k)); [discriminate|reflexivity].
Qed.

(** Over keys that cover every key in use, the totals add up to the
    summed value of the elements that have a key. *)
Lemma key_totals_cover (ks : list Z) (l : list S) :
  NoDup ks ->
  (forall s k, s ∈ l -> key s = Some k -> k ∈ ks) ->
  Numeric.sum (map (key_total key val l) ks)
  = Numeric.sum (map val (filter (fun s => is_Some (key s)) l)).
Proof.
  intros Hnd. induction l as [|s l IH]; intros Hcover.
  - unfold key_total. simpl. induction ks; simpl; [reflexivity|].
    apply NoDup_cons in Hnd as [_ Hnd]. now apply IHks.
  - assert (forall k,
               key_total key val (s :: l) k
               = (if decide (key s = Some k) then val s else 0)
                 + key_total key val l k) as Hstep.
    { intros k. unfold key_total. rewrite filter_cons.
      destruct (decide (key s = Some k)); simpl; lia. }
    rewrite (map_ext _ _ Hstep), sum_pointwise_add, IH.
    2:{ intros s' k Hs'. apply Hcover. now apply list_elem_of_further. }
    rewrite sum_single_key by exact Hnd.
    rewrite filter_cons. destruct (key s) as [k0|] eqn:Hk0.
    + rewrite (decide_True (P := is_Some (Some k0))) by (eexists; reflexivity).
      rewrite (decide_True (P := k0 ∈ ks)); [reflexivity|].
      apply (Hcover s); [apply list_elem_of_here|exact Hk0].
    + rewrite (decide_False (P := is_Some None))
        by (intros [? ?]; discriminate).
      reflexivity.
Qed.
End KeyCover.

Section TypedTotals.
Import Backend BackendReports.
Context {K : Type} `{EqDecision K}.
Variable key : Session -> option K.

Lemma typed_totals_snoc (l : list Session) (s : Session) :
  typed_totals key (l ++ [s])
  = match key s with
    | Some k =>
        PyDict.update k (fun v => add_duration v s) (0, false)
          (typed_totals key l)
    | None => typed_totals key l
    end.
Proof. unfold typed_totals. rewrite fold_left_app. reflexivity. Qed.

(** The total of a key is the summed duration of its sessions, and it
    is a [Decimal] exactly when one of them is. *)
Lemma typed_totals_get (l : list Session) (k : K) :
  PyDict.get k (0, false) (typed_totals key l)
  = (key_total key duration l k,
     decimal_duration_among (fun s => bool_decide (key s = Some k)) l).
Proof.
  unfold key_total, decimal_duration_among.
  induction l as [|s l IH] using rev_ind; [reflexivity|].
  rewrite typed_totals_snoc, filter_app, map_app, sum_app, existsb_app.
  rewrite filter_cons, filter_nil. cbn [existsb].
  destruct (key s) as [k0|].
  - rewrite dict_get_update. destruct (decide (k0 = k)) as [->|Hne].
    + rewrite IH, decide_True by reflexivity.
      rewrite bool_decide_eq_true_2 by reflexivity.
      unfold add_duration. simpl. rewrite orb_false_r. f_equal. lia.
    + rewrite IH, decide_False by congruence.
      rewrite bool_decide_eq_false_2 by congruence.
      simpl. rewrite orb_false_r. f_equal. lia.
  - rewrite IH, decide_False by discriminate.
    rewrite bool_decide_eq_false_2 by discriminate.
    simpl. rewrite orb_false_r. f_equal. lia.
Qed.

(** Over keys [ks] that are the keys of the sessions [counted], some
    total is a [Decimal] exactly when a counted session has a [Decimal]
    duration. *)
Lemma typed_totals_decimal (ks : list K) (counted : Session -> bool)
    (l : list Session) :
  (forall s, s ∈ l ->
     counted s = true <-> exists k, k ∈ ks /\ key s = Some k) ->
  existsb (fun k => snd (PyDict.get k (0, false) (typed_totals key l))) ks
  = decimal_duration_among counted l.
Proof.
  intros Hcounted. apply eq_true_iff_eq. unfold decimal_duration_among.
  rewrite !existsb_exists. split.
  - intros (k & Hk & Hdecimal). rewrite typed_totals_get in Hdecimal.
    apply existsb_exists in Hdecimal as (s & Hs & Hb).
    apply andb_prop in Hb as [Hkey Hd]. apply bool_decide_eq_true in Hkey.
    exists s. split; [exact Hs|]. apply andb_true_intro. split; [|exact Hd].
    apply Hcounted; [now apply list_elem_of_In|].
    exists k. split; [now apply list_elem_of_In|exact Hkey].
  - intros (s & Hs & Hb). apply andb_prop in Hb as [Hc Hd].
    apply Hcounted in Hc as (k & Hk & Hkey); [|now apply list_elem_of_In].
    exists k. split; [now apply list_elem_of_In|].
    rewrite typed_totals_get. apply existsb_exists.
    exists s. split; [exact Hs|]. apply andb_true_intro.
    split; [now apply bool_decide_eq_true|exact Hd].
Qed.
End TypedTotals.

Section HourlyDistribution.
Import Backend BackendReports.

Lemma hourly_durations_typed study_data :
  hourly_durations study_data
  = typed_totals Reference.backend_start_hour study_data.
Proof.
  unfold hourly_durations, typed_totals.
  apply fold_left_ext_in. intros d s _. unfold Reference.backend_start_hour.
  destruct (start_time s); reflexivity.
Qed.

Lemma backend_start_hour_range s h :
  Reference.backend_start_hour s = Some h -> 0 <= h < 24.
Proof.
  unfold Reference.backend_start_hour. destruct (start_time s); try discriminate.
  intros [= <-]. unfold Calendar.hour. apply Z.mod_pos_bound. lia.
Qed.

(** A loop whose body divides a total by 60.0 raises [TypeError] when
    one of the totals is a [Decimal]. *)
Lemma for_each_hours {A} (total : A -> Z * bool)
    (point : A -> Q -> ChartDataPoint) (l : list A) :
  for_each (fun x => let! value := hours (total x) in Ok (point x value)) l
  = if existsb (fun x => snd (total x)) l then Raise TypeError
    else Ok (map (fun x => point x (Numeric.truediv (fst (total x)) 60)) l).
Proof.
  induction l as [|x l IH]; [reflexivity|].
  cbn [for_each existsb map]. unfold hours at 1.
  destruct (snd (total x)); [reflexivity|].
  cbn [bind orb]. rewrite IH. destruct (existsb _ l); reflexivity.
Qed.
End HourlyDistribution.

(** X16. [_calculate_hourly_distribution] divides the total of each
    hour by the float 60.0, which a [decimal.Decimal] total does not
    support. When a session whose start time parses has a [Decimal]
    duration, as the numbers read from the table are, the call raises
    [TypeError]. Otherwise it returns 24 points, one for each hour from
    0 to 23 in order, and the value of the point of an hour is the
    summed duration, in hours, of the sessions whose start time parses
    to that hour. Every session whose start time parses falls in
    exactly one hour: the 24 totals add up to the summed duration of
    these sessions. *)
Theorem hourly_distribution_covers_the_day
    (study_data : list Backend.Session) :
  let counted :=
    fun s => bool_decide (is_Some (Reference.backend_start_hour s)) in
  let total :=
    key_total Reference.backend_start_hour Backend.duration study_data in
  (if decimal_duration_among counted study_data
   then BackendReports._calculate_hourly_distribution study_data
        = Raise TypeError
   else exists points,
       BackendReports._calculate_hourly_distribution study_data = Ok points
       /\ length points = 24%nat
       /\ map BackendReports.cp_date points
          = map (fun h => (Calendar.zero_padded 2 h ++ ":00")%string)
              (seqZ 0 24)
       /\ map BackendReports.cp_value points
          = map (fun h => Numeric.truediv (total h) 60) (seqZ 0 24))
  /\ Numeric.sum (map total (seqZ 0 24))
     = Numeric.sum
         (map Backend.duration
            (filter (fun s => is_Some (Reference.backend_start_hour s))
               study_data)).
Proof.
  intros counted total. split.
  - unfold BackendReports._calculate_hourly_distribution. cbv zeta.
    rewrite hourly_durations_typed.
    rewrite (for_each_hours
               (fun h => PyDict.get h (0, false)
                           (typed_totals Reference.backend_start_hour
                              study_data))
               (fun h value =>
                  BackendReports.hour_point h
                    (fst (PyDict.get h (0, false)
                            (typed_totals Reference.backend_start_hour
                               study_data))) value)).
    rewrite (typed_totals_decimal Reference.backend_start_hour
               (seqZ 0 24) counted).
    2:{ intros s _. unfold counted. rewrite bool_decide_eq_true. split.
        - intros [h Hh]. exists h. split; [|exact Hh].
          apply elem_of_seqZ. apply backend_start_hour_range in Hh. lia.
        - intros (h & _ & Hh). now exists h. }
    destruct (decimal_duration_among counted study_data); [reflexivity|].
    eexists. split; [reflexivity|].
    split; [rewrite length_map; reflexivity|].
    split; [rewrite map_map; reflexivity|].
    rewrite map_map. apply map_ext. intros h. simpl.
    now rewrite typed_totals_get.
  - apply key_totals_cover; [apply NoDup_seqZ|].
    intros s k _ Hk. apply elem_of_seqZ.
    apply backend_start_hour_range in Hk. lia.
Qed.

(** A session that starts at 09:00 with a [Decimal] duration makes the
    call raise; with an [int] duration the 24 points come back. *)
Lemma hourly_distribution_covers_the_day_witness :
  let started := Parsed (Calendar.utc (738960 * 86400 + 9 * 3600)) in
  BackendReports._calculate_hourly_distribution
    [Reference.backend_session 738960 started 30]
  = Raise TypeError
  /\ exists points,
      BackendReports._calculate_hourly_distribution
        [Reference.backend_session_of_int 738960 started 30]
      = Ok points
      /\ length points = 24%nat
      /\ map BackendReports.cp_date points
         = map (fun h => (Calendar.zero_padded 2 h ++ ":00")%string)
             (seqZ 0 24)
      /\ map BackendReports.cp_value points
         = map (fun h =>
                  Numeric.truediv
                    (key_total Reference.backend_start_hour Backend.duration
                       [Reference.backend_session_of_int 738960 started 30] h)
                    60)
             (seqZ 0 24).
Proof.
  intros started. split.
  - exact (proj1 (hourly_distribution_covers_the_day
                    [Reference.backend_session 738960 started 30])).
  - exact (proj1 (hourly_distribution_covers_the_day
                    [Reference.backend_session_of_int 738960 started 30])).
Defined.

Section ChartLoops.
Import Backend BackendReports.

Lemma weeks_loop_runs fuel (data : list (Z * (Z * bool)))
    current_week end_week chart_data :
  (Z.to_nat (end_week - current_week + 1) < fuel)%nat ->
  weeks_loop fuel data current_week end_week chart_data
  = Some
      (if existsb (fun w => snd (PyDict.get w (0, false) data))
            (map (fun i => current_week + 7 * i)
               (seqZ 0 ((end_week - current_week) / 7 + 1)))
       then Raise TypeError
       else Ok (chart_data
                ++ map (fun w =>
                          week_point w
                            (Numeric.truediv
                               (fst (PyDict.get w (0, false) data)) 60))
                     (map (fun i => current_week + 7 * i)
                        (seqZ 0 ((end_week - current_week) / 7 + 1))))).
Proof.
  revert current_week chart_data.
  induction fuel as [|fuel IH]; intros c acc Hfuel; [lia|].
  cbn [weeks_loop]. destruct (c <=? end_week) eqn:Hc.
  - apply Z.leb_le in Hc.
    assert (0 < (end_week - c) / 7 + 1) as Hn
      by (Z.to_euclidean_division_equations; lia).
    rewrite (seqZ_cons 0 ((end_week - c) / 7 + 1)) by exact Hn.
    replace (Z.pred ((end_week - c) / 7 + 1))
      with ((end_week - (c + 7)) / 7 + 1)
      by (Z.to_euclidean_division_equations; lia).
    rewrite <- (fmap_add_seqZ 1 0). cbn [map existsb].
    replace (c + 7 * 0) with c by lia.
    change (fmap (Z.add 1)) with (map (Z.add 1)).
    rewrite (map_map (Z.add 1)).
    rewrite (map_ext (fun i => c + 7 * (1 + i)) (fun i => c + 7 + 7 * i))
      by (intros i; lia).
    unfold hours at 1. destruct (snd (PyDict.get c (0, false) data));
      [reflexivity|].
    cbn [orb]. rewrite IH by lia.
    destruct (existsb _ _); [reflexivity|].
    rewrite <- app_assoc. reflexivity.
  - apply Z.leb_gt in Hc. rewrite seqZ_nil; [cbn; now rewrite app_nil_r|].
    Z.to_euclidean_division_equations; lia.
Qed.

Lemma days_loop_runs fuel (data : list (Z * (Z * bool)))
    current_date end_date chart_data :
  (Z.to_nat (end_date - current_date + 1) < fuel)%nat ->
  days_loop fuel data current_date end_date chart_data
  = Some
      (if existsb (fun d => snd (PyDict.get d (0, false) data))
            (seqZ current_date (end_date - current_date + 1))
       then Raise TypeError
       else Ok (chart_data
                ++ map (fun d =>
                          day_point d (fst (PyDict.get d (0, false) data))
                            (Numeric.truediv
                               (fst (PyDict.get d (0, false) data)) 60))
                     (seqZ current_date (end_date - current_date + 1)))).
Proof.
  revert current_date chart_data.
  induction fuel as [|fuel IH]; intros c acc Hfuel; [lia|].
  cbn [days_loop]. destruct (c <=? end_date) eqn:Hc.
  - apply Z.leb_le in Hc.
    rewrite (seqZ_cons c (end_date - c + 1)) by lia.
    replace (Z.pred (end_date - c + 1)) with (end_date - (c + 1) + 1) by lia.
    replace (Z.succ c) with (c + 1) by lia.
    cbn [map existsb]. unfold hours at 1.
    destruct (snd (PyDict.get c (0, false) data)); [reflexivity|].
    cbn [orb]. rewrite IH by lia.
    destruct (existsb _ _); [reflexivity|].
    rewrite <- app_assoc. reflexivity.
  - apply Z.leb_gt in Hc. rewrite seqZ_nil by lia. cbn.
    now rewrite app_nil_r.
Qed.

Lemma weekly_data_typed study_data :
  weekly_data study_data = typed_totals session_week study_data.
Proof.
  unfold weekly_data, typed_totals.
  apply fold_left_ext_in. intros d s _. unfold session_week.
  destruct (date s); reflexivity.
Qed.

Lemma daily_durations_typed study_data :
  daily_durations study_data = typed_totals date study_data.
Proof.
  unfold daily_durations, typed_totals.
  apply fold_left_ext_in. intros d s _. destruct (date s); reflexivity.
Qed.

Lemma week_total_is_period_total study_data w :
  Calendar.weekday w = 0 ->
  key_total session_week duration study_data w
  = backend_period_total study_data w (w + 6).
Proof.
  intros Hw. unfold key_total, backend_period_total. f_equal. f_equal.
  apply filter_ext_in. intros s _.
  unfold session_week, backend_dated_within.
  destruct (date s) as [d|]; [|split; discriminate].
  unfold Calendar.weekday in *.
  rewrite andb_true_iff, !Z.leb_le. split.
  - intros [= Hd]. Z.to_euclidean_division_equations; lia.
  - intros Hd. f_equal. Z.to_euclidean_division_equations; lia.
Qed.

Lemma day_total_is_period_total study_data d :
  key_total date duration study_data d = backend_period_total study_data d d.
Proof.
  unfold key_total, backend_period_total. f_equal. f_equal.
  apply filter_ext_in. intros s _. unfold backend_dated_within.
  destruct (date s) as [d'|]; [|split; discriminate].
  rewrite andb_true_iff, !Z.leb_le. split.
  - intros [= ->]. lia.
  - intros Hd. f_equal. lia.
Qed.

(** The sessions dated from the first Monday to the Sunday after the
    last one are those whose week is one of the weeks of the loop. *)
Lemma dated_within_weeks first_week last_week s :
  Calendar.weekday first_week = 0 ->
  Calendar.weekday last_week = 0 ->
  backend_dated_within first_week (last_week + 6) s = true
  <-> exists w,
      w ∈ map (fun i => first_week + 7 * i)
            (seqZ 0 ((last_week - first_week) / 7 + 1))
      /\ session_week s = Some w.
Proof.
  intros Hfirst Hlast. unfold backend_dated_within, session_week.
  destruct (date s) as [d|].
  - rewrite andb_true_iff, !Z.leb_le. unfold Calendar.weekday in *. split.
    + intros Hd. exists (d - (d + 6) mod 7). split; [|reflexivity].
      apply list_elem_of_fmap.
      exists ((d - (d + 6) mod 7 - first_week) / 7). split.
      * Z.to_euclidean_division_equations; lia.
      * apply elem_of_seqZ. Z.to_euclidean_division_equations; lia.
    + intros (w & Hw & [= Hd]).
      apply list_elem_of_fmap in Hw as (i & -> & Hi).
      apply elem_of_seqZ in Hi.
      Z.to_euclidean_division_equations; lia.
  - split; [discriminate|]. intros (w & _ & Hw). discriminate.
Qed.

Lemma dated_within_days start_date end_date s :
  backend_dated_within start_date end_date s = true
  <-> exists d,
      d ∈ seqZ start_date (end_date - start_date + 1) /\ date s = Some d.
Proof.
  unfold backend_dated_within. destruct (date s) as [d|].
  - rewrite andb_true_iff, !Z.leb_le. split.
    + intros Hd. exists d. split; [|reflexivity]. apply elem_of_seqZ. lia.
    + intros (d' & Hd' & [= ->]). apply elem_of_seqZ in Hd'. lia.
  - split; [discriminate|]. intros (d & _ & Hd). discriminate.
Qed.
End ChartLoops.

(** X17. [_calculate_weekly_consistency] visits the weeks from the week
    of [start_date] to the week of [end_date], in order: each of them
    starts on a Monday, and the Mondays are 7 days apart. It divides
    the total of each week by the float 60.0: when a session dated from
    the first Monday to the Sunday after the last one has a [Decimal]
    duration, as the numbers read from the table are, the call raises
    [TypeError]. Otherwise it returns one point for each week, and the
    value of a point is the summed duration, in hours, of the sessions
    dated from that Monday to the following Sunday. *)
Theorem weekly_consistency_one_point_per_week
    (study_data : list Backend.Session) (start_date end_date : Z) :
  let first_week := start_date - Calendar.weekday start_date in
  let last_week := end_date - Calendar.weekday end_date in
  let weeks :=
    map (fun i => first_week + 7 * i)
      (seqZ 0 ((last_week - first_week) / 7 + 1)) in
  Forall (fun w => Calendar.weekday w = 0 /\ first_week <= w <= last_week)
    weeks
  /\ if decimal_duration_among
          (backend_dated_within first_week (last_week + 6)) study_data
     then BackendReports._calculate_weekly_consistency study_data
            start_date end_date
          = Some (Raise TypeError)
     else exists points,
         BackendReports._calculate_weekly_consistency study_data
           start_date end_date
         = Some (Ok points)
         /\ map BackendReports.cp_date points
            = map BackendReports.isoformat weeks
         /\ map BackendReports.cp_value points
            = map (fun w =>
                     Numeric.truediv
                       (backend_period_total study_data w (w + 6)) 60)
                weeks.
Proof.
  intros first_week last_week weeks.
  assert (Forall (fun w => Calendar.weekday w = 0
                           /\ first_week <= w <= last_week) weeks) as Hweeks.
  { apply Forall_forall. intros w Hw.
    apply list_elem_of_fmap in Hw as (i & -> & Hi).
    apply elem_of_seqZ in Hi.
    unfold first_week, last_week, Calendar.weekday in *.
    Z.to_euclidean_division_equations; lia. }
  split; [exact Hweeks|].
  unfold BackendReports._calculate_weekly_consistency. cbv zeta.
  fold first_week last_week.
  rewrite weeks_loop_runs by lia.
  fold weeks. rewrite weekly_data_typed.
  rewrite (typed_totals_decimal session_week weeks
             (backend_dated_within first_week (last_week + 6))).
  2:{ intros s _. apply dated_within_weeks.
      - unfold first_week, Calendar.weekday.
        Z.to_euclidean_division_equations; lia.
      - unfold last_week, Calendar.weekday.
        Z.to_euclidean_division_equations; lia. }
  destruct (decimal_duration_among _ study_data); [reflexivity|].
  eexists. split; [reflexivity|]. cbn [app].
  split; [rewrite map_map; reflexivity|].
  rewrite map_map. apply map_ext_in. intros w Hw.
  rewrite Forall_forall in Hweeks.
  apply list_elem_of_In, Hweeks in Hw as [Hw _].
  simpl. rewrite typed_totals_get. simpl.
  now rewrite week_total_is_period_total.
Qed.

(** Over the week of Monday 2024-03-11, a session of that week with a
    [Decimal] duration makes the call raise; with an [int] duration the
    point of the week comes back. *)
Lemma weekly_consistency_one_point_per_week_witness :
  BackendReports._calculate_weekly_consistency
    [Reference.backend_session 738960 Missing 90] 738959 738961
  = Some (Raise TypeError)
  /\ exists points,
      BackendReports._calculate_weekly_consistency
        [Reference.backend_session_of_int 738960 Missing 90] 738959 738961
      = Some (Ok points)
      /\ map BackendReports.cp_date points = ["2024-03-11"]
      /\ map BackendReports.cp_value points = [Numeric.truediv 90 60].
Proof.
  split.
  - exact (proj2 (weekly_consistency_one_point_per_week
                    [Reference.backend_session 738960 Missing 90]
                    738959 738961)).
  - exact (proj2 (weekly_consistency_one_point_per_week
                    [Reference.backend_session_of_int 738960 Missing 90]
                    738959 738961)).
Defined.

(** X18. [_generate_daily_chart_data] visits the days from [start_date]
    to [end_date], in order, and none when [end_date] is before
    [start_date]. It divides the total of each day by the float 60.0:
    when a session dated from [start_date] to [end_date] has a
    [Decimal] duration, as the numbers read from the table are, the
    call raises [TypeError]. Otherwise it returns one point for each
    day, and the value of a point is the summed duration, in hours, of
    the sessions dated that day. *)
Theorem daily_chart_one_point_per_day
    (study_data : list Backend.Session) (start_date end_date : Z) :
  let days := seqZ start_date (end_date - start_date + 1) in
  if decimal_duration_among
       (backend_dated_within start_date end_date) study_data
  then BackendReports._generate_daily_chart_data study_data
         start_date end_date
       = Some (Raise TypeError)
  else exists points,
      BackendReports._generate_daily_chart_data study_data
        start_date end_date
      = Some (Ok points)
      /\ map BackendReports.cp_date points
         = map BackendReports.isoformat days
      /\ map BackendReports.cp_value points
         = map (fun d =>
                  Numeric.truediv (backend_period_total study_data d d) 60)
             days.
Proof.
  intros days.
  unfold BackendReports._generate_daily_chart_data.
  rewrite days_loop_runs by lia. fold days.
  rewrite daily_durations_typed.
  rewrite (typed_totals_decimal Backend.date days
             (backend_dated_within start_date end_date))
    by (intros s _; apply dated_within_days).
  destruct (decimal_duration_among _ study_data); [reflexivity|].
  eexists. split; [reflexivity|]. cbn [app].
  split; [rewrite map_map; reflexivity|].
  rewrite map_map. apply map_ext. intros d.
  simpl. rewrite typed_totals_get. simpl.
  now rewrite day_total_is_period_total.
Qed.

(** Over 2024-03-14 and 2024-03-15, a session of 2024-03-15 with a
    [Decimal] duration makes the call raise; with an [int] duration
    the two points come back. *)
Lemma daily_chart_one_point_per_day_witness :
  BackendReports._generate_daily_chart_data
    [Reference.backend_session 738960 Missing 90] 738959 738960
  = Some (Raise TypeError)
  /\ exists points,
      BackendReports._generate_daily_chart_data
        [Reference.backend_session_of_int 738960 Missing 90] 738959 738960
      = Some (Ok points)
      /\ map BackendReports.cp_date points = ["2024-03-14"; "2024-03-15"]
      /\ map BackendReports.cp_value points = [0%Q; Numeric.truediv 90 60].
Proof.
  split.
  - exact (daily_chart_one_point_per_day
             [Reference.backend_session 738960 Missing 90] 738959 738960).
  - exact (daily_chart_one_point_per_day
             [Reference.backend_session_of_int 738960 Missing 90]
             738959 738960).
Defined.


Section CacheStats.
Context {A : Type}.
Implicit Types (cache : list (string * Cache.CacheItem A)).

Lemma cache_cleanup_kept now cache :
  NoDup (map fst cache) ->
  snd (Cache.cleanup_expired now cache)
  = filter (fun e => now <= Cache.expires_at (snd e)) cache.
Proof.
  intros Hnd. unfold Cache.cleanup_expired. simpl. rewrite cache_remove_all.
  apply filter_ext_in. intros e He. split.
  - intros Hnot. destruct (Z_le_gt_dec now (Cache.expires_at (snd e)));
      [assumption|].
    exfalso. apply Hnot. apply list_elem_of_fmap_2.
    apply list_elem_of_filter. split; [lia|exact He].
  - intros Hle Hin. apply list_elem_of_fmap in Hin as (e' & Hfst & He').
    apply list_elem_of_filter in He' as [Hexp He'].
    assert (e = e') as -> by (eapply unique_key_entry; eassumption).
    lia.
Qed.

(** Replacing the entry of a key by one of the same expiry keeps the
    keys and the expiries and moves the hit total by the difference of
    the two hit counts. *)
Lemma cache_assign_same_expiry key item item' cache :
  Cache.lookup key cache = Some item ->
  Cache.expires_at item' = Cache.expires_at item ->
  map fst (Cache.assign key item' cache) = map fst cache
  /\ map (fun e => Cache.expires_at (snd e)) (Cache.assign key item' cache)
     = map (fun e => Cache.expires_at (snd e)) cache
  /\ Numeric.sum (map (fun e => Cache.hit_count (snd e))
                    (Cache.assign key item' cache))
     = Numeric.sum (map (fun e => Cache.hit_count (snd e)) cache)
       - Cache.hit_count item + Cache.hit_count item'.
Proof.
  intros Hlookup Hexp. unfold Cache.assign.
  induction cache as [|[k x] cache IH]; simpl in *; [discriminate|].
  destruct (decide (k = key)) as [Hk|Hk]; simpl.
  - injection Hlookup as ->. rewrite Hexp. repeat split; lia.
  - destruct (IH Hlookup) as (IH1 & IH2 & IH3).
    rewrite IH1, IH2, IH3. repeat split; lia.
Qed.

Lemma length_filter_expiry now cache cache' :
  map (fun e => Cache.expires_at (snd e)) cache'
  = map (fun e => Cache.expires_at (snd e)) cache ->
  length (filter (fun e => Cache.expires_at (snd e) < now) cache')
  = length (filter (fun e => Cache.expires_at (snd e) < now) cache).
Proof.
  revert cache'. induction cache as [|e cache IH]; intros [|e' cache'];
    simpl; try discriminate; [reflexivity|].
  intros [= He Hrest]. rewrite !filter_cons.
  destruct (decide (Cache.expires_at (snd e') < now)) as [H1|H1];
    destruct (decide (Cache.expires_at (snd e) < now)) as [H2|H2];
    simpl; rewrite ?(IH _ Hrest); try reflexivity; lia.
Qed.
End CacheStats.

(** X19. After [cleanup_expired] on a cache with distinct keys,
    [get_cache_stats] taken at the same instant reports no expired
    item: the number of entries deleted is the number of expired items
    reported before, and the items left are the active items reported
    before, all of them active. *)
Theorem cache_stats_after_cleanup {A} (now : Z)
    (cache : list (string * Cache.CacheItem A))
    (Hkeys : NoDup (map fst cache)) :
  let '(total_items, expired_items, active_items, _) :=
    Cache.get_cache_stats now cache in
  let '(total_items', expired_items', active_items', _) :=
    Cache.get_cache_stats now (snd (Cache.cleanup_expired now cache)) in
  fst (Cache.cleanup_expired now cache) = expired_items
  /\ total_items' = active_items
  /\ expired_items' = 0
  /\ active_items' = active_items.
Proof.
  rewrite (cache_cleanup_kept now cache Hkeys).
  unfold Cache.get_cache_stats, Cache.cleanup_expired, Numeric.len. simpl.
  rewrite length_map.
  pose proof (length_filter_split
                (fun e => Cache.expires_at (snd e) < now) cache) as Hsplit.
  rewrite (filter_ext_in (fun e => ~ Cache.expires_at (snd e) < now)
             (fun e => now <= Cache.expires_at (snd e)) cache) in Hsplit
    by (intros; lia).
  rewrite (filter_none (fun e => Cache.expires_at (snd e) < now)
             (filter (fun e => now <= Cache.expires_at (snd e)) cache)).
  2:{ apply Forall_forall. intros e He.
      apply list_elem_of_filter in He as [He _]. lia. }
  simpl. repeat split; lia.
Qed.

Lemma cache_stats_after_cleanup_witness :
  let entry expires : Cache.CacheItem Z :=
    {| Cache.data := 0; Cache.created_at := 0; Cache.expires_at := expires;
       Cache.ttl := 300; Cache.hit_count := 2; Cache.last_accessed := None |} in
  let cache := [("a", entry 10); ("b", entry 50); ("c", entry 20)] in
  fst (Cache.cleanup_expired 30 cache) = 2
  /\ Cache.get_cache_stats 30 (snd (Cache.cleanup_expired 30 cache))
     = (1, 0, 1, 2).
Proof.
  intros entry cache.
  assert (NoDup (map fst cache)) as Hkeys by by_evaluation.
  pose proof (cache_stats_after_cleanup 30 cache Hkeys) as H.
  split; [exact (proj1 H)|reflexivity].
Defined.

(** X20. A [get] that returns a value counts one hit and changes no
    other counter: [get_cache_stats], taken at any instant afterwards,
    reports the same total, expired and active items as it would have
    before the [get], and one more hit. *)
Theorem cache_get_counts_one_hit {A} (now now' : Z) (key : string)
    (cache cache' : list (string * Cache.CacheItem A)) (value : A)
    (Hget : Cache.get now key cache = (Some value, cache')) :
  let '(total_items, expired_items, active_items, total_hits) :=
    Cache.get_cache_stats now' cache in
  Cache.get_cache_stats now' cache'
  = (total_items, expired_items, active_items, total_hits + 1).
Proof.
  unfold Cache.get in Hget.
  destruct (Cache.lookup key cache) as [item|] eqn:Hlookup; [|discriminate].
  destruct (Cache.expires_at item <? now); [discriminate|].
  injection Hget as _ <-.
  match goal with
  | |- context [Cache.assign key ?x cache] => set (item' := x)
  end.
  destruct (cache_assign_same_expiry key item item' cache Hlookup eq_refl)
    as (Hk & He & Hh).
  unfold Cache.get_cache_stats, Numeric.len.
  rewrite (length_filter_expiry now' cache _ He), Hh.
  assert (length (Cache.assign key item' cache) = length cache) as ->.
  { rewrite <- (length_map fst), Hk. apply length_map. }
  simpl. f_equal. lia.
Qed.

Lemma cache_get_counts_one_hit_witness :
  let entry : Cache.CacheItem Z :=
    {| Cache.data := 7; Cache.created_at := 0; Cache.expires_at := 50;
       Cache.ttl := 50; Cache.hit_count := 2; Cache.last_accessed := None |} in
  let cache := [("a", entry); ("b", entry)] in
  Cache.get_cache_stats 60 (snd (Cache.get 30 "b" cache)) = (2, 2, 0, 5).
Proof.
  intros entry cache.
  exact (cache_get_counts_one_hit 30 60 "b" cache _ 7 eq_refl).
Defined.


Section GoalTracking.
Import Goals.

Lemma goal_tracking_consistent type target current g :
  goal_tracking type target current = Ok g ->
  target_value g <> 0
  /\ (achievement_rate g <= 100)%Q
  /\ 0 <= remaining_to_goal g
  /\ (is_achieved g = true <-> remaining_to_goal g = 0)
  /\ (0 < target_value g ->
      (is_achieved g = true <-> (achievement_rate g == 100)%Q)).
Proof.
  unfold goal_tracking. destruct target as [t|]; [|discriminate].
  destruct (t =? 0) eqn:Ht; [destruct (current =? 0); discriminate|].
  apply Z.eqb_neq in Ht.
  intros [= <-]. simpl.
  split; [exact Ht|]. unfold Numeric.py_min.
  set (rate := (Numeric.truediv current t * 100)%Q).
  split; [|split; [lia|split; [rewrite Z.leb_le; lia|]]].
  - destruct (Qlt_le_dec rate 100) as [Hlt|Hge];
      [apply Qlt_le_weak; exact Hlt|apply Qle_refl].
  - intros Hpos.
    assert (rate == inject_Z current * 100 / inject_Z t)%Q as Hrate.
    { unfold rate. rewrite truediv_eq. field.
      intros H0. unfold Qeq, inject_Z in H0. simpl in H0. lia. }
    assert (0 < inject_Z t)%Q as Hden by (unfold Qlt, inject_Z; simpl; lia).
    rewrite Z.leb_le.
    destruct (Qlt_le_dec rate 100) as [Hlt|Hge]; split.
    + intros Hle. exfalso. apply Qlt_not_le in Hlt. apply Hlt.
      rewrite Hrate. apply Qle_shift_div_l; [exact Hden|].
      unfold Qle, inject_Z. simpl. lia.
    + intros Heq. exfalso. rewrite Heq in Hlt.
      now apply Qlt_irrefl in Hlt.
    + intros _. reflexivity.
    + intros _. rewrite Hrate in Hge.
      destruct (Z_le_gt_dec t current) as [Hle|Hgt]; [exact Hle|].
      exfalso. apply Qle_not_lt in Hge. apply Hge.
      apply Qlt_shift_div_r; [exact Hden|].
      unfold Qlt, inject_Z. simpl. lia.
Qed.
End GoalTracking.

(** X21. The goals that [track_goals] returns are consistent: there
    are at most two (daily, weekly); the target of a goal is not 0; its
    achievement rate is at most 100 and its remaining amount is not
    negative; the goal is marked achieved exactly when nothing remains,
    and, for a positive target, exactly when the achievement rate is
    100. *)
Theorem tracked_goals_consistent
    (users_table : Goals.UsersTable) (tables : Lambda.Tables) (today : Z)
    (user : string) (goals : list Goals.GoalTracking)
    (Hgoals : Goals.track_goals users_table tables today user = Ok goals) :
  (length goals <= 2)%nat
  /\ Forall
       (fun g =>
          Goals.target_value g <> 0
          /\ (Goals.achievement_rate g <= 100)%Q
          /\ 0 <= Goals.remaining_to_goal g
          /\ (Goals.is_achieved g = true <-> Goals.remaining_to_goal g = 0)
          /\ (0 < Goals.target_value g ->
              (Goals.is_achieved g = true
               <-> (Goals.achievement_rate g == 100)%Q)))
       goals.
Proof.
  unfold Goals.track_goals in Hgoals.
  destruct (Goals.get_user_goals users_table user) as [user_goals|];
    [|discriminate].
  cbn [bind] in Hgoals.
  destruct (decide (user_goals = ∅)) as [_|_].
  { injection Hgoals as <-. split; [simpl; lia|constructor]. }
  assert (forall type target fetched (r : list Goals.GoalTracking),
             (let! sessions := fetched in
              let! goal :=
                Goals.goal_tracking type target
                  (Numeric.sum (map Lambda.duration sessions)) in
              Ok [goal]) = Ok r ->
             exists g, r = [g]
               /\ Goals.goal_tracking type target (Goals.current_value g) = Ok g)
    as Hone.
  { intros type target fetched r Hr.
    destruct fetched as [sessions|]; [|discriminate]. cbn [bind] in Hr.
    destruct (Goals.goal_tracking type target _) as [g|] eqn:Hg;
      [|discriminate].
    injection Hr as <-. exists g. split; [reflexivity|].
    rewrite <- Hg. f_equal. unfold Goals.goal_tracking in Hg.
    destruct target as [t|]; [|discriminate].
    destruct (t =? 0); [destruct (_ =? 0); discriminate|].
    injection Hg as <-. reflexivity. }
  assert (forall type (entry : option Goals.GoalValue) fetched
                 (r : list Goals.GoalTracking),
             match entry with
             | Some target =>
                 let! sessions := fetched in
                 let! goal :=
                   Goals.goal_tracking type target
                     (Numeric.sum (map Lambda.duration sessions)) in
                 Ok [goal]
             | None => Ok []
             end = Ok r ->
             (length r <= 1)%nat
             /\ Forall
                  (fun g => exists type target,
                       Goals.goal_tracking type target (Goals.current_value g)
                       = Ok g) r) as Hblock.
  { intros type [target|] fetched r Hr.
    - apply Hone in Hr as (g & -> & Hg). split; [simpl; lia|].
      constructor; [eauto|constructor].
    - injection Hr as <-. split; [simpl; lia|constructor]. }
  match type of Hgoals with
  | (let! daily := ?d in _) = _ => destruct d as [daily|] eqn:Hdaily
  end; [|discriminate].
  cbn [bind] in Hgoals.
  match type of Hgoals with
  | (let! weekly := ?w in _) = _ => destruct w as [weekly|] eqn:Hweekly
  end; [|discriminate].
  cbn [bind] in Hgoals. injection Hgoals as <-.
  apply Hblock in Hdaily as [Hd1 Hd2]. apply Hblock in Hweekly as [Hw1 Hw2].
  split; [rewrite length_app; lia|].
  apply Forall_app. split;
    (eapply Forall_impl; [eassumption|]);
    intros g (type & target & Hg);
    exact (goal_tracking_consistent _ _ _ _ Hg).
Qed.

Lemma tracked_goals_consistent_witness :
  let tables :=
    Reference.stored_tables
      [Reference.timer_item 738000 (Some (738000 * 86400 + 9 * 3600)) 60; Reference.timer_item 737999 (Some (737999 * 86400 + 9 * 3600)) 15]
      [] in
  exists goals,
    Goals.track_goals (Goals.users_with None) tables 738000 "u" = Ok goals
    /\ map Goals.target_value goals = [60; 420]
    /\ map Goals.is_achieved goals = [true; false]
    /\ (length goals <= 2)%nat.
Proof.
  intros tables.
  exists (match Goals.track_goals (Goals.users_with None) tables 738000 "u" with
          | Ok goals => goals
          | Raise _ => []
          end).
  split; [vm_compute; reflexivity|].
  split; [vm_compute; reflexivity|]. split; [vm_compute; reflexivity|].
  refine (proj1 (tracked_goals_consistent (Goals.users_with None) tables
                   738000 "u" _ _)).
  vm_compute. reflexivity.
Defined.

(** X22. [track_goals] divides by the stored target without a guard:
    when the goals of the user hold a daily target of 0 minutes and the
    sessions of today are fetched, it returns no goal at all. It raises
    ZeroDivisionError when the minutes of today are not 0, and
    [decimal.InvalidOperation], which is no ZeroDivisionError, when
    they are 0. *)
Theorem zero_daily_target_raises
    (users_table : Goals.UsersTable) (tables : Lambda.Tables) (today : Z)
    (user : string) (user_goals : gmap string Goals.GoalValue)
    (sessions : list Lambda.StudySession)
    (Hgoals : users_table user = Ok (Some user_goals))
    (Htarget : user_goals !! "daily_target_minutes" = Some (Goals.Minutes 0))
    (Hfetch : Lambda.get_study_sessions_by_date_range tables user today today
              = Ok sessions) :
  Goals.track_goals users_table tables today user
  = Raise (if Numeric.sum (map Lambda.duration sessions) =? 0
           then InvalidOperation
           else ZeroDivisionError).
Proof.
  unfold Goals.track_goals, Goals.get_user_goals.
  rewrite Hgoals. cbn [bind except_ClientError].
  destruct (decide (user_goals = ∅)) as [Hempty|_].
  { rewrite Hempty in Htarget. rewrite lookup_empty in Htarget. discriminate. }
  rewrite Htarget, Hfetch. cbn [bind]. unfold Goals.goal_tracking.
  cbn [Z.eqb]. destruct (Numeric.sum (map Lambda.duration sessions) =? 0);
    reflexivity.
Qed.

(** A daily target of 0 with one session of 60 minutes today, started
    at 09:00, and with no session at all. *)
Lemma zero_daily_target_raises_witness :
  let users :=
    Goals.users_with (Some {["daily_target_minutes" := Goals.Minutes 0]}) in
  let tables :=
    Reference.stored_tables
      [Reference.timer_item 738000 (Some (738000 * 86400 + 9 * 3600)) 60] [] in
  Goals.track_goals users tables 738000 "u" = Raise ZeroDivisionError
  /\ Goals.track_goals users (Reference.stored_tables [] []) 738000 "u"
     = Raise InvalidOperation.
Proof.
  intros users tables.
  assert (forall t,
             Lambda.get_study_sessions_by_date_range t "u" 738000 738000
             = Ok (match Lambda.get_study_sessions_by_date_range t "u"
                           738000 738000 with
                   | Ok l => l
                   | Raise _ => []
                   end) ->
             Goals.track_goals users t 738000 "u"
             = Raise (if Numeric.sum
                           (map Lambda.duration
                              (match Lambda.get_study_sessions_by_date_range t
                                       "u" 738000 738000 with
                               | Ok l => l
                               | Raise _ => []
                               end)) =? 0
                      then InvalidOperation
                      else ZeroDivisionError)) as Hraise.
  { intros t Hfetch.
    apply (zero_daily_target_raises users t 738000 "u"
             {["daily_target_minutes" := Goals.Minutes 0]} _ eq_refl);
      [vm_compute; reflexivity|exact Hfetch]. }
  split.
  - rewrite (Hraise tables) by (vm_compute; reflexivity).
    vm_compute. reflexivity.
  - rewrite (Hraise (Reference.stored_tables [] [])) by (vm_compute; reflexivity).
    vm_compute. reflexivity.
Defined.


(** The periods of [_get_monthly_comparison], computed on each of the
    7305 days from 2020-01-01 (ordinal 737425) to 2039-12-31. *)
Lemma previous_month_checked :
  forallb
    (fun today =>
       let first := Calendar.replace_day today 1 in
       let previous_first := Calendar.replace_day (first - 1) 1 in
       let previous_month :=
         Reference.months_before (Calendar.year today) (Calendar.month today) 1 in
       (Calendar.day first =? 1)
       && Reference.same_month (Calendar.year first, Calendar.month first)
            (Calendar.year today, Calendar.month today)
       && (first <=? today)
       && (Calendar.day previous_first =? 1)
       && Reference.same_month
            (Calendar.year previous_first, Calendar.month previous_first)
            previous_month
       && Reference.same_month
            (Calendar.year (first - 1), Calendar.month (first - 1))
            previous_month
       && (previous_first <? first))
    (seqZ 737425 7305)
  = true.
Proof. vm_compute. reflexivity. Qed.

(** X23. [get_comparison_data] compares adjacent calendar periods. For
    "week": the week of today, Monday to Sunday, with the week before
    it. For "month", on every day from 2020-01-01 to 2039-12-31: the
    current month from its first day to today with the whole previous
    calendar month, from its first day to the day before the current
    month starts. Any other period raises ValueError. *)
Theorem comparison_data_compares_adjacent_periods
    (db : Backend.DataAccess) (today : Z) (user : string)
    (Hrange : Calendar.mkdate 2020 1 1 <= today <= Calendar.mkdate 2039 12 31) :
  (exists monday,
     Calendar.weekday monday = 0
     /\ monday <= today <= monday + 6
     /\ BackendComparison.get_comparison_data db today user "week"
        = compare_periods db user monday (monday + 6) (monday - 7) (monday - 1))
  /\ (exists first previous_first,
        Calendar.day first = 1
        /\ (Calendar.year first, Calendar.month first)
           = (Calendar.year today, Calendar.month today)
        /\ first <= today
        /\ Calendar.day previous_first = 1
        /\ (Calendar.year previous_first, Calendar.month previous_first)
           = Reference.months_before (Calendar.year today)
               (Calendar.month today) 1
        /\ (Calendar.year (first - 1), Calendar.month (first - 1))
           = Reference.months_before (Calendar.year today)
               (Calendar.month today) 1
        /\ previous_first < first
        /\ BackendComparison.get_comparison_data db today user "month"
           = compare_periods db user first today previous_first (first - 1))
  /\ (forall period,
        period <> "week"%string -> period <> "month"%string ->
        BackendComparison.get_comparison_data db today user period
        = Raise ValueError).
Proof.
  split; [|split].
  - exists (today - Calendar.weekday today).
    split; [|split; [|reflexivity]].
    + unfold Calendar.weekday. Z.to_euclidean_division_equations; lia.
    + unfold Calendar.weekday. Z.to_euclidean_division_equations; lia.
  - assert (today ∈ seqZ 737425 7305) as Hin.
    { apply elem_of_seqZ.
      change (Calendar.mkdate 2020 1 1) with 737425 in Hrange.
      change (Calendar.mkdate 2039 12 31) with 744729 in Hrange. lia. }
    apply list_elem_of_In in Hin.
    pose proof (proj1 (forallb_forall _ _) previous_month_checked today Hin)
      as H.
    cbv beta zeta in H.
    apply andb_prop in H as [H H7]. apply andb_prop in H as [H H6].
    apply andb_prop in H as [H H5]. apply andb_prop in H as [H H4].
    apply andb_prop in H as [H H3]. apply andb_prop in H as [H1 H2].
    exists (Calendar.replace_day today 1).
    exists (Calendar.replace_day (Calendar.replace_day today 1 - 1) 1).
    split; [apply Z.eqb_eq; exact H1|].
    split; [apply same_month_eq; exact H2|].
    split; [apply Z.leb_le; exact H3|].
    split; [apply Z.eqb_eq; exact H4|].
    split; [apply same_month_eq; exact H5|].
    split; [apply same_month_eq; exact H6|].
    split; [apply Z.ltb_lt; exact H7|].
    reflexivity.
  - intros period Hweek Hmonth. unfold BackendComparison.get_comparison_data.
    rewrite decide_False by exact Hweek.
    rewrite decide_False by exact Hmonth. reflexivity.
Qed.

Lemma comparison_data_compares_adjacent_periods_witness :
  let db := {| Backend._get_study_data_for_period := fun _ _ _ => Ok [] |} in
  BackendComparison.get_comparison_data db (Calendar.mkdate 2024 3 15) "u" "year"
  = Raise ValueError.
Proof.
  intros db.
  refine (proj2 (proj2 (comparison_data_compares_adjacent_periods db
                          (Calendar.mkdate 2024 3 15) "u" _)) "year" _ _).
  - vm_compute. split; discriminate.
  - discriminate.
  - discriminate.
Defined.


(** The month arithmetic of [_calculate_monthly_trends], computed on
    each of the 7305 days from 2020-01-01 (ordinal 737425) to
    2039-12-31. *)
Lemma month_steps_checked :
  forallb
    (fun d =>
       let first := Calendar.replace_day d 1 in
       (Calendar.day first =? 1)
       && (737425 <=? first)
       && (first <=? d)
       && (d <? next_month_start first)
       && (if Calendar.day d =? 1
           then
             let next := next_month_start d in
             (d <? next)
             && (Calendar.day next =? 1)
             && forallb (fun k => negb (Calendar.day k =? 1))
                  (seqZ (d + 1) (next - d - 1))
           else true))
    (seqZ 737425 7305)
  = true.
Proof. vm_compute. reflexivity. Qed.


Section BackendMonths.
Import Backend.

Lemma month_start_of_day (d : Z) :
  737425 <= d <= 744729 ->
  Calendar.day (Calendar.replace_day d 1) = 1
  /\ 737425 <= Calendar.replace_day d 1 <= d
  /\ d < next_month_start (Calendar.replace_day d 1).
Proof.
  intros Hd.
  assert (In d (seqZ 737425 7305)) as Hin
    by (apply list_elem_of_In, elem_of_seqZ; lia).
  pose proof (proj1 (forallb_forall _ _) month_steps_checked d Hin) as H.
  cbv beta zeta in H.
  apply andb_prop in H as [H _]. apply andb_prop in H as [H H4].
  apply andb_prop in H as [H H3]. apply andb_prop in H as [H1 H2].
  apply Z.eqb_eq in H1. apply Z.leb_le in H2, H3. apply Z.ltb_lt in H4.
  split; [exact H1|]. split; [split; assumption|exact H4].
Qed.

Lemma next_month_start_step (c : Z) :
  737425 <= c <= 744729 -> Calendar.day c = 1 ->
  c < next_month_start c
  /\ Calendar.day (next_month_start c) = 1
  /\ forall k, c < k < next_month_start c -> Calendar.day k <> 1.
Proof.
  intros Hc Hday.
  assert (In c (seqZ 737425 7305)) as Hin
    by (apply list_elem_of_In, elem_of_seqZ; lia).
  pose proof (proj1 (forallb_forall _ _) month_steps_checked c Hin) as H.
  cbv beta zeta in H.
  apply andb_prop in H as [_ H].
  apply Z.eqb_eq in Hday. rewrite Hday in H.
  apply andb_prop in H as [H H3]. apply andb_prop in H as [H1 H2].
  apply Z.ltb_lt in H1. apply Z.eqb_eq in H2.
  split; [exact H1|]. split; [exact H2|].
  intros k Hk.
  assert (In k (seqZ (c + 1) (next_month_start c - c - 1))) as Hink
    by (apply list_elem_of_In, elem_of_seqZ; lia).
  pose proof (proj1 (forallb_forall _ _) H3 k Hink) as Hnot.
  cbv beta in Hnot. apply negb_true_iff, Z.eqb_neq in Hnot. exact Hnot.
Qed.

Lemma filter_seqZ_skip (P : Z -> Prop) `{forall k, Decision (P k)}
    (a b n : Z) :
  a <= b -> (forall k, a <= k < b -> ~ P k) ->
  filter P (seqZ a n) = filter P (seqZ b (n - (b - a))).
Proof.
  intros Hab Hnone.
  destruct (Z_le_gt_dec n (b - a)) as [Hn|Hn].
  - rewrite (seqZ_nil b) by lia. rewrite filter_nil.
    apply filter_none. apply Forall_forall. intros k Hk.
    apply elem_of_seqZ in Hk. apply Hnone. lia.
  - replace n with ((b - a) + (n - (b - a))) at 1 by lia.
    rewrite seqZ_app by lia. rewrite filter_app.
    rewrite (filter_none P (seqZ a (b - a))).
    + replace (a + (b - a)) with b by lia. reflexivity.
    + apply Forall_forall. intros k Hk.
      apply elem_of_seqZ in Hk. apply Hnone. lia.
Qed.

Lemma month_starts_step (c last : Z) :
  737425 <= c <= 744729 -> Calendar.day c = 1 -> c <= last ->
  month_starts c last = c :: month_starts (next_month_start c) last.
Proof.
  intros Hc Hday Hlast.
  destruct (next_month_start_step c Hc Hday) as (Hnext & _ & Hnone).
  unfold month_starts.
  rewrite (seqZ_cons c (last - c + 1)) by lia.
  rewrite filter_cons_True by exact Hday. f_equal.
  rewrite (filter_seqZ_skip (fun d => Calendar.day d = 1) (Z.succ c)
             (next_month_start c) (Z.pred (last - c + 1))).
  - f_equal. f_equal. lia.
  - lia.
  - intros k Hk. apply Hnone. lia.
Qed.

Lemma month_starts_none (c last : Z) : last < c -> month_starts c last = [].
Proof. intros Hlt. unfold month_starts. now rewrite seqZ_nil by lia. Qed.

Lemma monthly_loop_runs (db : DataAccess) (user : string) (end_date : Z)
    (fuel : nat) (c d : Z) :
  end_date <= 744729 -> 737425 <= c -> Calendar.day c = 1 ->
  c <= d < next_month_start c ->
  (Z.to_nat (end_date - d) + 2 <= fuel)%nat ->
  exists r,
    monthly_loop fuel db user c end_date = Some r
    /\ monthly_trends_of db user (month_starts c end_date) r.
Proof.
  intros Hend. revert c d.
  induction fuel as [|fuel IH]; intros c d Hc Hday Hd Hfuel; [lia|].
  cbn [monthly_loop]. destruct (c <=? end_date) eqn:Hle.
  - apply Z.leb_le in Hle.
    assert (737425 <= c <= 744729) as Hrange by lia.
    destruct (next_month_start_step c Hrange Hday) as (Hnext & Hnday & _).
    rewrite (month_starts_step c end_date Hrange Hday Hle).
    cbv zeta.
    destruct (_get_study_data_for_period db user c (next_month_start c - 1))
      as [month_data|e] eqn:Hdata.
    + destruct (next_month_start c - 1 - c + 1 =? 0) eqn:Hdays;
        [apply Z.eqb_eq in Hdays; lia|].
      assert (exists r,
                 monthly_loop fuel db user (next_month_start c) end_date = Some r
                 /\ monthly_trends_of db user
                      (month_starts (next_month_start c) end_date) r)
        as (r & Hr & Hmonths).
      { destruct (Z_le_gt_dec (next_month_start c) end_date) as [Hin|Hout].
        - assert (737425 <= next_month_start c <= 744729) as Hrange' by lia.
          destruct (next_month_start_step _ Hrange' Hnday) as (Hnext' & _ & _).
          apply (IH (next_month_start c) (next_month_start c));
            [lia|exact Hnday|lia|lia].
        - destruct fuel as [|fuel']; [lia|]. cbn [monthly_loop].
          assert ((next_month_start c <=? end_date) = false) as ->
            by (apply Z.leb_gt; lia).
          rewrite month_starts_none by lia.
          eexists. split; [reflexivity|]. constructor. }
      rewrite Hr. destruct r as [trends|e].
      * eexists. split; [reflexivity|]. simpl. constructor; [|exact Hmonths].
        exists month_data. split; [exact Hdata|]. repeat split.
      * eexists. split; [reflexivity|]. simpl.
        destruct Hmonths as (c' & Hc' & He). exists c'.
        split; [now apply list_elem_of_further|exact He].
    + eexists. split; [reflexivity|]. simpl. exists c.
      split; [apply list_elem_of_here|exact Hdata].
  - apply Z.leb_gt in Hle. rewrite month_starts_none by lia.
    eexists. split; [reflexivity|]. constructor.
Qed.
End BackendMonths.

(** X24. On dates from 2020-01-01 to 2039-12-31,
    [_calculate_monthly_trends] ends and meets every month: it returns
    one trend for each month that starts between the first day of the
    month of [start_date] and [end_date], in order and none skipped,
    labelled with its year and month and computed from the data of that
    whole month; it divides by no empty month, and the only exception
    it can raise is one that the data access raises for one of these
    months. *)
Theorem backend_monthly_trends_one_per_month
    (db : Backend.DataAccess) (user : string) (start_date end_date : Z)
    (Hstart : (Calendar.mkdate 2020 1 1) <= start_date
              <= (Calendar.mkdate 2039 12 31))
    (Hend : end_date <= Calendar.mkdate 2039 12 31) :
  exists r,
    Backend._calculate_monthly_trends db user start_date end_date = Some r
    /\ monthly_trends_of db user
         (month_starts (Calendar.replace_day start_date 1) end_date) r.
Proof.
  change (Calendar.mkdate 2020 1 1) with 737425 in Hstart.
  change (Calendar.mkdate 2039 12 31) with 744729 in Hstart, Hend.
  destruct (month_start_of_day start_date Hstart) as (Hday & Hfirst & Hnext).
  unfold Backend._calculate_monthly_trends.
  apply (monthly_loop_runs db user end_date _
           (Calendar.replace_day start_date 1) start_date);
    [exact Hend|lia|exact Hday|lia|lia].
Qed.

Lemma backend_monthly_trends_one_per_month_witness :
  let db :=
    {| Backend._get_study_data_for_period := fun _ _ _ => Ok [] |} in
  exists r,
    Backend._calculate_monthly_trends db "u"
      (Calendar.mkdate 2023 11 20) (Calendar.mkdate 2024 2 10) = Some r
    /\ monthly_trends_of db "u"
         (month_starts (Calendar.replace_day (Calendar.mkdate 2023 11 20) 1)
            (Calendar.mkdate 2024 2 10)) r.
Proof.
  intros db.
  apply (backend_monthly_trends_one_per_month db "u"
           (Calendar.mkdate 2023 11 20) (Calendar.mkdate 2024 2 10)).
  - vm_compute. split; discriminate.
  - vm_compute. discriminate.
Defined.
